(** * simple-library: a shallow embedding of the catalog core

    The development follows the layering of the application:
    [app/utils.py] (ISBN normalisation), [app/models.py] (the [Book]
    record), [app/storage.py] (the JSON payload), [app/repository.py]
    (the insertion-ordered mapping from key to [Book]) and
    [app/services.py] (the business operations and the default seed of
    [app/data.py]).

    Python values are modelled as follows.
    - A [str] is the list of its Unicode code points.
    - A [dict] is an association list kept in insertion order, with the
      update-in-place, append-when-new and delete of the interpreter.
    - An exception is the left summand of a result; the state reached
      before the [raise] is kept, as it is in the interpreter.
    - [datetime] and the non-ASCII part of the Unicode character tables
      belong to the interpreter, not to the application: they are
      interfaces here, with one executable instance each. *)

From Stdlib Require Import List NArith ZArith Bool Arith Lia String Ascii
  Eqdep_dec Permutation Sorted.
Import ListNotations.

Set Implicit Arguments.

(* ===================================================================== *)
(** * Strings *)
(* ===================================================================== *)

Module PyStr.

(** A code point, and a string as the sequence of its code points. *)
Definition codepoint := N.
Definition str := list codepoint.

(** A literal written in ASCII. *)
Definition lit (s : string) : str :=
  List.map N_of_ascii (list_ascii_of_string s).

Fixpoint eqb (a b : str) : bool :=
  match a, b with
  | [], [] => true
  | x :: a', y :: b' => N.eqb x y && eqb a' b'
  | _, _ => false
  end.

Definition is_ascii (c : codepoint) : bool := N.ltb c 128.

(** [str.isalnum] and [str.upper] on the ASCII range. *)
Definition ascii_isalnum (c : codepoint) : bool :=
  (N.leb 48 c && N.leb c 57)
  || (N.leb 65 c && N.leb c 90)
  || (N.leb 97 c && N.leb c 122).

Definition ascii_upper (c : codepoint) : codepoint :=
  if N.leb 97 c && N.leb c 122 then N.sub c 32 else c.

(** The character tables of the interpreter above the ASCII range:
    whether a code point is alphanumeric, and its full upper-case
    mapping, which may be several code points long. *)
Class UnicodeData := {
  uc_isalnum : codepoint -> bool;
  uc_upper : codepoint -> str
}.

Section Tables.
Context {U : UnicodeData}.

Definition isalnum (c : codepoint) : bool :=
  if is_ascii c then ascii_isalnum c else uc_isalnum c.

Definition upper_char (c : codepoint) : str :=
  if is_ascii c then [ascii_upper c] else uc_upper c.

(** [s.upper()]: every character is replaced by its upper-case
    mapping, independently of its neighbours. *)
Definition upper (s : str) : str := List.flat_map upper_char s.
End Tables.

(** [str.isspace] on one code point: the white-space set of the
    interpreter. *)
Definition isspace (c : codepoint) : bool :=
  (N.leb 9 c && N.leb c 13) || (N.leb 28 c && N.leb c 32)
  || N.eqb c 133 || N.eqb c 160 || N.eqb c 5760
  || (N.leb 8192 c && N.leb c 8202)
  || N.eqb c 8232 || N.eqb c 8233 || N.eqb c 8239 || N.eqb c 8287
  || N.eqb c 12288.

Fixpoint lstrip (s : str) : str :=
  match s with
  | c :: s' => if isspace c then lstrip s' else s
  | [] => []
  end.

(** [s.strip()] *)
Definition strip (s : str) : str := rev (lstrip (rev (lstrip s))).

(** The entries of the character tables that the examples below
    evaluate: U+01F0 LATIN SMALL LETTER J WITH CARON is alphanumeric
    and upper-cases to U+004A U+030C; U+030C COMBINING CARON is a
    non-spacing mark, hence not alphanumeric, and has no case.  Every
    other code point above ASCII is left caseless and
    non-alphanumeric in this fragment. *)
Definition ucd_fragment : UnicodeData := {|
  uc_isalnum := fun c => N.eqb c 496;
  uc_upper := fun c => if N.eqb c 496 then [74%N; 780%N] else [c]
|}.

End PyStr.

Import PyStr.

(* ===================================================================== *)
(** * app/utils.py *)
(* ===================================================================== *)

Section Utils.
Context {U : UnicodeData}.

(** [normalize_isbn]: the alphanumeric characters of [value], joined,
    then upper-cased. *)
Definition normalize_isbn (value : str) : str :=
  upper (List.filter isalnum value).
End Utils.

(* ===================================================================== *)
(** * The datetime library *)
(* ===================================================================== *)

Module PyTime.

(** What the application uses of [datetime]: the values, the ISO-8601
    rendering, its parser ([None] stands for [ValueError]) and the
    clock.  [utcnow_at n] is what the [n]-th call of
    [datetime.utcnow()] returns. *)
Class DatetimeLib := {
  datetime : Type;
  isoformat : datetime -> str;
  fromisoformat : str -> option datetime;
  utcnow_at : nat -> datetime
}.

(** The two facts of the library the persistence layer relies on:
    [fromisoformat] inverts [isoformat], and a rendered timestamp is
    never the empty (falsy) string. *)
Class DatetimeLaws {D : DatetimeLib} : Prop := {
  fromisoformat_isoformat :
    forall d : datetime, fromisoformat (isoformat d) = Some d;
  isoformat_truthy : forall d : datetime, isoformat d <> []
}.

(** ** An executable instance: naive datetimes *)

Record civil := {
  year : N; month : N; day : N;
  hour : N; minute : N; second : N; microsecond : N
}.

Definition is_leap (y : N) : bool :=
  N.eqb (y mod 4) 0 && (negb (N.eqb (y mod 100) 0) || N.eqb (y mod 400) 0).

Definition days_in_month (y m : N) : N :=
  if N.eqb m 2 then (if is_leap y then 29 else 28)
  else if N.eqb m 4 || N.eqb m 6 || N.eqb m 9 || N.eqb m 11 then 30
  else 31.

(** The range checks of the [datetime] constructor. *)
Definition civil_ok (c : civil) : bool :=
  N.leb 1 (year c) && N.leb (year c) 9999
  && N.leb 1 (month c) && N.leb (month c) 12
  && N.leb 1 (day c) && N.leb (day c) (days_in_month (year c) (month c))
  && N.ltb (hour c) 24 && N.ltb (minute c) 60 && N.ltb (second c) 60
  && N.ltb (microsecond c) 1000000.

Definition naive := { c : civil | civil_ok c = true }.

Definition mk_naive (c : civil) : option naive :=
  match civil_ok c as b return civil_ok c = b -> option naive with
  | true => fun H => Some (exist _ c H)
  | false => fun _ => None
  end eq_refl.

(** [w] decimal digits of [n], most significant first, zero padded. *)
Fixpoint dec (w : nat) (n : N) : str :=
  match w with
  | O => []
  | S w' => (48 + (n / 10 ^ N.of_nat w') mod 10)%N :: dec w' n
  end.

Definition digit_val (c : codepoint) : option N :=
  if N.leb 48 c && N.leb c 57 then Some (c - 48)%N else None.

(** Reads exactly [w] decimal digits. *)
Fixpoint read_num (w : nat) (acc : N) (s : str) : option (N * str) :=
  match w with
  | O => Some (acc, s)
  | S w' =>
      match s with
      | c :: s' =>
          match digit_val c with
          | Some v => read_num w' (10 * acc + v)%N s'
          | None => None
          end
      | [] => None
      end
  end.

Definition read_char (c : codepoint) (s : str) : option str :=
  match s with
  | c' :: s' => if N.eqb c c' then Some s' else None
  | [] => None
  end.

Definition hyphen : codepoint := 45%N.
Definition colon : codepoint := 58%N.
Definition period : codepoint := 46%N.
Definition letter_T : codepoint := 84%N.

(** [YYYY-MM-DDTHH:MM:SS], followed by [.ffffff] when the microsecond
    field is not zero. *)
Definition civil_isoformat (c : civil) : str :=
  dec 4 (year c) ++ hyphen :: dec 2 (month c) ++ hyphen :: dec 2 (day c)
  ++ letter_T :: dec 2 (hour c) ++ colon :: dec 2 (minute c)
  ++ colon :: dec 2 (second c)
  ++ (if N.eqb (microsecond c) 0 then [] else period :: dec 6 (microsecond c)).

Definition obind {A B} (o : option A) (k : A -> option B) : option B :=
  match o with Some a => k a | None => None end.

(** The parser of the two layouts above; anything else is a
    [ValueError]. *)
Definition civil_fromisoformat (s : str) : option civil :=
  obind (read_num 4 0 s) (fun '(y, s) =>
  obind (read_char hyphen s) (fun s =>
  obind (read_num 2 0 s) (fun '(mo, s) =>
  obind (read_char hyphen s) (fun s =>
  obind (read_num 2 0 s) (fun '(d, s) =>
  obind (read_char letter_T s) (fun s =>
  obind (read_num 2 0 s) (fun '(h, s) =>
  obind (read_char colon s) (fun s =>
  obind (read_num 2 0 s) (fun '(mi, s) =>
  obind (read_char colon s) (fun s =>
  obind (read_num 2 0 s) (fun '(se, s) =>
  obind (match s with
         | [] => Some (0%N, [])
         | _ => obind (read_char period s) (read_num 6 0)
         end) (fun '(us, s) =>
  match s with
  | [] => Some {| year := y; month := mo; day := d; hour := h;
                  minute := mi; second := se; microsecond := us |}
  | _ => None
  end)))))))))))).

Definition epoch : naive :=
  exist _ {| year := 1970; month := 1; day := 1; hour := 0;
             minute := 0; second := 0; microsecond := 0 |} eq_refl.

(** A clock that starts on 2024-01-01 and advances by one microsecond
    at each reading. *)
Definition tick_clock (n : nat) : naive :=
  let t := N.of_nat n in
  match mk_naive {| year := 2024; month := 1; day := 1;
                    hour := (t / 3600000000) mod 24;
                    minute := (t / 60000000) mod 60;
                    second := (t / 1000000) mod 60;
                    microsecond := t mod 1000000 |} with
  | Some d => d
  | None => epoch
  end.

Definition naive_datetime : DatetimeLib := {|
  datetime := naive;
  isoformat := fun d => civil_isoformat (proj1_sig d);
  fromisoformat := fun s => obind (civil_fromisoformat s) mk_naive;
  utcnow_at := tick_clock
|}.

(** A second fragment of the library: datetimes that are naive or carry
    the offset [+00:00]; the flag says which.  The clock of
    [datetime.utcnow()] gives naive values. *)
Definition utc_suffix : str := lit "+00:00".

Definition zoned_fromisoformat (s : str) : option (naive * bool) :=
  let n := List.length s in
  if PyStr.eqb (skipn (n - 6) s) utc_suffix
  then option_map (fun d => (d, true))
                  (obind (civil_fromisoformat (firstn (n - 6) s)) mk_naive)
  else option_map (fun d => (d, false))
                  (obind (civil_fromisoformat s) mk_naive).

Definition zoned_datetime : DatetimeLib := {|
  datetime := (naive * bool)%type;
  isoformat := fun d => civil_isoformat (proj1_sig (fst d))
                        ++ (if snd d then utc_suffix else []);
  fromisoformat := zoned_fromisoformat;
  utcnow_at := fun n => (tick_clock n, false)
|}.

End PyTime.

Import PyTime.

(* ===================================================================== *)
(** * The insertion-ordered dict *)
(* ===================================================================== *)

Module PyDict.
Section Dict.
Variable V : Type.

(** Keys in insertion order, each paired with its value. *)
Definition dict := list (str * V).

(** [d.get(k)] *)
Fixpoint get (k : str) (d : dict) : option V :=
  match d with
  | [] => None
  | (k', v) :: d' => if PyStr.eqb k k' then Some v else get k d'
  end.

(** [k in d] *)
Definition mem (k : str) (d : dict) : bool :=
  match get k d with Some _ => true | None => false end.

(** [d[k] = v]: an existing key keeps its position, a new key goes
    to the end. *)
Fixpoint set (k : str) (v : V) (d : dict) : dict :=
  match d with
  | [] => [(k, v)]
  | (k', v') :: d' =>
      if PyStr.eqb k k' then (k', v) :: d' else (k', v') :: set k v d'
  end.

(** [del d[k]] *)
Fixpoint del (k : str) (d : dict) : dict :=
  match d with
  | [] => []
  | (k', v') :: d' =>
      if PyStr.eqb k k' then d' else (k', v') :: del k d'
  end.

(** [d.values()] and [d.keys()] *)
Definition values (d : dict) : list V := List.map snd d.
Definition keys (d : dict) : list str := List.map fst d.

(** [{key(x): x for x in xs}] *)
Definition comprehension (key : V -> str) (xs : list V) : dict :=
  List.fold_left (fun d x => set (key x) x d) xs [].
End Dict.
End PyDict.

(* ===================================================================== *)
(** * app/exceptions.py *)
(* ===================================================================== *)

(** The three domain errors, each with its message, the [ValueError]
    of a timestamp that does not parse, and the [TypeError] of the
    comparison of a naive with an aware datetime. *)
Inductive Exn :=
| BookNotFoundError (msg : str)
| BookAlreadyExistsError (msg : str)
| BookUnavailableError (msg : str)
| ValueError
| TypeError.

Definition result (A : Type) : Type := (Exn + A)%type.

(* ===================================================================== *)
(** * app/models.py, app/storage.py *)
(* ===================================================================== *)

Section Models.
Context {D : DatetimeLib}.

Record Book := {
  isbn : str;
  title : str;
  author : str;
  added_at : datetime;
  borrower : option str;
  borrowed_at : option datetime
}.

Definition set_isbn (b : Book) (key : str) : Book :=
  {| isbn := key; title := title b; author := author b;
     added_at := added_at b; borrower := borrower b;
     borrowed_at := borrowed_at b |}.

(** [Book.checkout]; [now] is the reading of [datetime.utcnow()]. *)
Definition checkout (b : Book) (who : str) (now : datetime) : Book :=
  {| isbn := isbn b; title := title b; author := author b;
     added_at := added_at b; borrower := Some who;
     borrowed_at := Some now |}.

(** [Book.checkin] *)
Definition checkin (b : Book) : Book :=
  {| isbn := isbn b; title := title b; author := author b;
     added_at := added_at b; borrower := None; borrowed_at := None |}.

(** [Book.is_available] *)
Definition is_available (b : Book) : bool :=
  match borrower b with None => true | Some _ => false end.

(** One object of the stored JSON array. *)
Record Row := {
  row_isbn : str;
  row_title : str;
  row_author : str;
  row_added_at : str;
  row_borrower : option str;
  row_borrowed_at : option str
}.

(** [LibraryStorage._to_dict] *)
Definition _to_dict (b : Book) : Row :=
  {| row_isbn := isbn b; row_title := title b; row_author := author b;
     row_added_at := isoformat (added_at b);
     row_borrower := borrower b;
     row_borrowed_at :=
       match borrowed_at b with
       | Some t => Some (isoformat t)
       | None => None
       end |}.

Definition parse (s : str) : result datetime :=
  match fromisoformat s with Some t => inr t | None => inl ValueError end.

(** [data.get("borrowed_at")] is parsed when it is truthy: neither
    [None] nor the empty string. *)
Definition parse_optional (o : option str) : result (option datetime) :=
  match o with
  | None => inr None
  | Some [] => inr None
  | Some s =>
      match parse s with inr t => inr (Some t) | inl e => inl e end
  end.

(** [LibraryStorage._from_dict] *)
Definition _from_dict (data : Row) : result Book :=
  match parse (row_added_at data) with
  | inl e => inl e
  | inr added =>
      match parse_optional (row_borrowed_at data) with
      | inl e => inl e
      | inr borrowed =>
          inr {| isbn := row_isbn data; title := row_title data;
                 author := row_author data; added_at := added;
                 borrower := row_borrower data;
                 borrowed_at := borrowed |}
      end
  end.

(** [LibraryStorage.load_books], on the decoded payload. *)
Fixpoint load_books (payload : list Row) : result (list Book) :=
  match payload with
  | [] => inr []
  | item :: rest =>
      match _from_dict item with
      | inl e => inl e
      | inr b =>
          match load_books rest with
          | inl e => inl e
          | inr bs => inr (b :: bs)
          end
      end
  end.

(** [LibraryStorage.save_books]: the payload that replaces the file. *)
Definition save_books (books : list Book) : list Row :=
  List.map _to_dict books.
End Models.

(* ===================================================================== *)
(** * The state of the process and its monad *)
(* ===================================================================== *)

(** [AppConfig]; the data file is the [file] of the state below. *)
Record AppConfig := { autosave : bool }.

Section State.
Context {U : UnicodeData} {D : DatetimeLib}.

(** The repository's mapping, the payload held by the data file (an
    absent or empty file holds the empty payload), and the number of
    clock readings made so far.  A [Book] object is held by one entry
    of the mapping, so a mutation of the object is a write to that
    entry; the operations keep it so on a catalog of the data model,
    where [update] files a book under the key it was found at. *)
Record World := {
  _books : PyDict.dict Book;
  file : list Row;
  ticks : nat
}.

Definition M (A : Type) : Type := World -> result A * World.

Definition ret {A} (a : A) : M A := fun w => (inr a, w).

Definition raise {A} (e : Exn) : M A := fun w => (inl e, w).

Definition bind {A B} (c : M A) (k : A -> M B) : M B :=
  fun w =>
    match c w with
    | (inr a, w') => k a w'
    | (inl e, w') => (inl e, w')
    end.

Definition set_books (d : PyDict.dict Book) : M unit :=
  fun w => (inr tt, {| _books := d; file := file w; ticks := ticks w |}).

Definition get_books : M (PyDict.dict Book) :=
  fun w => (inr (_books w), w).

(** [datetime.utcnow()] *)
Definition utcnow : M datetime :=
  fun w => (inr (utcnow_at (ticks w)),
            {| _books := _books w; file := file w; ticks := S (ticks w) |}).
End State.

Declare Scope py_scope.
Delimit Scope py_scope with py.
Notation "x <- c ;; k" := (bind c (fun x => k))
  (at level 100, c at next level, right associativity) : py_scope.
Notation "c ;;; k" := (bind c (fun _ => k))
  (at level 100, k at level 200, right associativity) : py_scope.
Notation "a +++ b" := (@List.app codepoint a b)
  (at level 60, right associativity) : py_scope.
Open Scope py_scope.

(* ===================================================================== *)
(** * app/repository.py *)
(* ===================================================================== *)

Section Repository.
Context {U : UnicodeData} {D : DatetimeLib}.

Definition not_found (i : str) : Exn :=
  BookNotFoundError (lit "Book with ISBN " +++ i +++ lit " not found").

Definition already_exists (i : str) : Exn :=
  BookAlreadyExistsError
    (lit "Book with ISBN " +++ i +++ lit " already exists").

(** [for book in books: d[book.isbn] = book] *)
Definition set_each (books : list Book) (d : PyDict.dict Book)
  : PyDict.dict Book :=
  List.fold_left (fun d b => PyDict.set (isbn b) b d) books d.

(** [LibraryRepository._load]: the stored rows are keyed by their
    [isbn] field as it is. *)
Definition _load : M unit :=
  fun w =>
    match load_books (file w) with
    | inl e => (inl e, w)
    | inr books => set_books (set_each books (_books w)) w
    end.

(** [LibraryRepository.__init__] *)
Definition Repository_init : M unit := set_books [] ;;; _load.

(** [LibraryRepository._persist] *)
Definition _persist : M unit :=
  fun w => (inr tt, {| _books := _books w;
                       file := save_books (PyDict.values (_books w));
                       ticks := ticks w |}).

Definition persist_if (flag : bool) : M unit :=
  if flag then _persist else ret tt.

(** [LibraryRepository.get] *)
Definition get (i : str) : M Book :=
  let key := normalize_isbn i in
  books <- get_books ;;
  match PyDict.get key books with
  | None => raise (not_found i)
  | Some book => ret book
  end.

(** [LibraryRepository.add].  The method overwrites [book.isbn]; the
    book as the caller sees it afterwards is returned. *)
Definition add (book : Book) (autosave : bool) : M Book :=
  let key := normalize_isbn (isbn book) in
  books <- get_books ;;
  if PyDict.mem key books then raise (already_exists (isbn book))
  else
    let book := set_isbn book key in
    set_books (PyDict.set key book books) ;;;
    persist_if autosave ;;;
    ret book.

(** [LibraryRepository.remove] *)
Definition remove (i : str) (autosave : bool) : M unit :=
  let key := normalize_isbn i in
  books <- get_books ;;
  if PyDict.mem key books then
    set_books (PyDict.del key books) ;;;
    persist_if autosave
  else raise (not_found i).

(** [LibraryRepository.find_available] *)
Definition find_available : M (list Book) :=
  books <- get_books ;;
  ret (List.filter is_available (PyDict.values books)).

(** [LibraryRepository.snapshot] *)
Definition snapshot : M (list Book) :=
  books <- get_books ;;
  ret (PyDict.values books).

(** [LibraryRepository.update], returning the book as [add] does. *)
Definition update (book : Book) (autosave : bool) : M Book :=
  let key := normalize_isbn (isbn book) in
  books <- get_books ;;
  if PyDict.mem key books then
    let book := set_isbn book key in
    set_books (PyDict.set key book books) ;;;
    persist_if autosave ;;;
    ret book
  else raise (not_found (isbn book)).

(** [LibraryRepository.save_all]: the [isbn] of the books is read, not
    written. *)
Definition save_all (books : list Book) : M unit :=
  set_books
    (PyDict.comprehension (fun b => normalize_isbn (isbn b)) books) ;;;
  _persist.
End Repository.

(* ===================================================================== *)
(** * app/data.py, app/services.py *)
(* ===================================================================== *)

(** An import entry, and an entry of the default catalog. *)
Record Entry := {
  entry_isbn : str;
  entry_title : str;
  entry_author : str
}.

Definition entry (i t a : string) : Entry :=
  {| entry_isbn := lit i; entry_title := lit t; entry_author := lit a |}.

(** [default_catalog] *)
Definition default_catalog : list Entry :=
  [ entry "9780143127741" "The Alchemist" "Paulo Coelho";
    entry "9780679783268" "Pride and Prejudice" "Jane Austen";
    entry "9780307474278" "The Girl with the Dragon Tattoo" "Stieg Larsson";
    entry "9780747532743" "Harry Potter and the Philosopher's Stone"
          "J.K. Rowling";
    entry "9780061120084" "To Kill a Mockingbird" "Harper Lee" ].

Section Services.
Context {U : UnicodeData} {D : DatetimeLib}.

(** [Book(isbn=..., title=..., author=...)]: [added_at] is read from
    the clock, the borrower fields default to [None]. *)
Definition new_book (i t a : str) : M Book :=
  now <- utcnow ;;
  ret {| isbn := i; title := t; author := a; added_at := now;
         borrower := None; borrowed_at := None |}.

Fixpoint for_each {A B} (f : A -> M B) (xs : list A) : M (list B) :=
  match xs with
  | [] => ret []
  | x :: xs' => y <- f x ;; ys <- for_each f xs' ;; ret (y :: ys)
  end.

(** [str(book.borrower)] inside an f-string. *)
Definition show_optional (o : option str) : str :=
  match o with Some s => s | None => lit "None" end.

Definition already_borrowed (book : Book) : Exn :=
  BookUnavailableError
    (lit "Book '" +++ title book +++ lit "' is already borrowed by "
     +++ show_optional (borrower book) +++ lit ".").

Definition not_borrowed (book : Book) : Exn :=
  BookUnavailableError
    (lit "Book '" +++ title book +++ lit "' is not currently borrowed.").

(** A method of the object that [get] returned mutates the object the
    mapping holds under the key of the lookup.  Off a catalog of the
    data model, [update] may then file the same object under a second
    key as well; the two entries are one object for Python and two
    values here, so that the model follows Python up to the first call
    that does so. *)
Definition mutate_held (i : str) (book : Book) : M unit :=
  books <- get_books ;;
  set_books (PyDict.set (normalize_isbn i) book books).

(** [LibraryService.register_book] *)
Definition register_book (cfg : AppConfig) (i t a : str) : M Book :=
  let normalized := normalize_isbn i in
  book <- new_book normalized (strip t) (strip a) ;;
  add book (autosave cfg).

(** [LibraryService.remove_book] *)
Definition remove_book (cfg : AppConfig) (i : str) : M unit :=
  remove i (autosave cfg).

(** [LibraryService.get_book] *)
Definition get_book (i : str) : M Book := get i.

(** [LibraryService.borrow_book] *)
Definition borrow_book (cfg : AppConfig) (i who : str) : M Book :=
  book <- get i ;;
  if negb (is_available book) then raise (already_borrowed book)
  else
    now <- utcnow ;;
    let book := checkout book who now in
    mutate_held i book ;;;
    update book (autosave cfg).

(** [LibraryService.return_book] *)
Definition return_book (cfg : AppConfig) (i : str) : M Book :=
  book <- get i ;;
  if is_available book then raise (not_borrowed book)
  else
    let book := checkin book in
    mutate_held i book ;;;
    update book (autosave cfg).

(** [LibraryService.import_catalog] *)
Definition import_catalog (cfg : AppConfig) (books : list Entry)
  : M (list Book) :=
  imported <- for_each
                (fun e => new_book (normalize_isbn (entry_isbn e))
                                   (strip (entry_title e))
                                   (strip (entry_author e)))
                books ;;
  save_all imported ;;;
  ret imported.

(** [LibraryService.reset_catalog] *)
Definition reset_catalog (cfg : AppConfig) : M unit := save_all [].

Definition str_in (s : str) (l : list str) : bool :=
  List.existsb (PyStr.eqb s) l.

(** [LibraryService._initialize_defaults] *)
Definition _initialize_defaults (cfg : AppConfig) : M unit :=
  books <- snapshot ;;
  let existing_isbns := List.map isbn books in
  let missing_entries :=
    List.filter
      (fun e => negb (str_in (normalize_isbn (entry_isbn e)) existing_isbns))
      default_catalog in
  match missing_entries with
  | [] => ret tt
  | _ =>
      for_each
        (fun e =>
           book <- new_book (normalize_isbn (entry_isbn e))
                            (entry_title e) (entry_author e) ;;
           add book (autosave cfg))
        missing_entries ;;;
      ret tt
  end.

(** [LibraryService.__init__] with the default repository: the
    repository is loaded from the data file, then topped up. *)
Definition Service_init (cfg : AppConfig) : M unit :=
  Repository_init ;;; _initialize_defaults cfg.

(** A process started on a data file holding [payload], the clock
    having been read [t] times. *)
Definition boot (cfg : AppConfig) (payload : list Row) (t : nat)
  : result unit * World :=
  Service_init cfg {| _books := []; file := payload; ticks := t |}.
End Services.

(* ===================================================================== *)
(** * What is stated about the catalog *)
(* ===================================================================== *)

Section Statements.
Context {U : UnicodeData} {D : DatetimeLib}.

(** The catalog of the data model: a mapping from normalised ISBN to
    [Book].  Every key is in normalised form and is the normalised
    ISBN of the book it holds. *)
Definition catalog_wf (d : PyDict.dict Book) : Prop :=
  forall k b, PyDict.get k d = Some b ->
              normalize_isbn k = k /\ normalize_isbn (isbn b) = k.

(** [x in s] on strings. *)
Definition contains (x s : str) : Prop :=
  exists pre post, s = pre ++ x ++ post.

(** [catalog_wf], decided entry by entry. *)
Definition catalog_wfb (d : PyDict.dict Book) : bool :=
  List.forallb
    (fun kv => PyStr.eqb (normalize_isbn (fst kv)) (fst kv)
               && PyStr.eqb (normalize_isbn (isbn (snd kv))) (fst kv))
    d.

(** The book [import_catalog] builds for an entry when the clock has
    been read [t] times, and the books it builds for a list. *)
Definition import_book (t : nat) (e : Entry) : Book :=
  {| isbn := normalize_isbn (entry_isbn e);
     title := strip (entry_title e);
     author := strip (entry_author e);
     added_at := utcnow_at t;
     borrower := None; borrowed_at := None |}.

Fixpoint import_books (t : nat) (es : list Entry) : list Book :=
  match es with
  | [] => []
  | e :: es' => import_book t e :: import_books (S t) es'
  end.

Definition book_key (b : Book) : str := normalize_isbn (isbn b).

(** Two stored rows describe the same book: the same ISBN, title,
    author and borrower, and timestamps that denote the same
    instants (an absent and an empty [borrowed_at] both denote
    none). *)
Definition row_equiv (r1 r2 : Row) : Prop :=
  row_isbn r1 = row_isbn r2
  /\ row_title r1 = row_title r2
  /\ row_author r1 = row_author r2
  /\ row_borrower r1 = row_borrower r2
  /\ parse (row_added_at r1) = parse (row_added_at r2)
  /\ parse_optional (row_borrowed_at r1)
     = parse_optional (row_borrowed_at r2).

(** The calls a client of the service can make; [CallRestart] builds a
    new service on the data file as the running one left it. *)
Inductive Call :=
| CallRegister (i t a : str)
| CallRemove (i : str)
| CallBorrow (i who : str)
| CallReturn (i : str)
| CallGet (i : str)
| CallListAvailable
| CallImport (entries : list Entry)
| CallReset
| CallRestart.

(** The three conditions on a book agree. *)
Definition consistent (b : Book) : Prop :=
  (is_available b = true <-> borrower b = None)
  /\ (borrower b = None <-> borrowed_at b = None).

(** A stored row is well formed when its borrower is absent exactly
    when its [borrowed_at] is absent or empty. *)
Definition row_wf (r : Row) : Prop :=
  row_borrower r = None
  <-> (row_borrowed_at r = None \/ row_borrowed_at r = Some []).

(** A call, with the books it hands to the client. *)
Definition call (cfg : AppConfig) (c : Call) : M (list Book) :=
  match c with
  | CallRegister i t a => b <- register_book cfg i t a ;; ret [b]
  | CallRemove i => remove_book cfg i ;;; ret []
  | CallBorrow i who => b <- borrow_book cfg i who ;; ret [b]
  | CallReturn i => b <- return_book cfg i ;; ret [b]
  | CallGet i => b <- get_book i ;; ret [b]
  | CallListAvailable => find_available
  | CallImport entries => import_catalog cfg entries
  | CallReset => reset_catalog cfg ;;; ret []
  | CallRestart => Service_init cfg ;;; ret []
  end.

Definition returned (r : result (list Book)) : list Book :=
  match r with inr bs => bs | inl _ => [] end.

(** A call is admissible when the ISBNs it brings into the catalog
    satisfy [ok_isbn]. *)
Definition call_ok (ok_isbn : str -> Prop) (c : Call) : Prop :=
  match c with
  | CallRegister i _ _ => ok_isbn i
  | CallImport entries => Forall (fun e => ok_isbn (entry_isbn e)) entries
  | _ => True
  end.

(** The states of a service: started on a data file whose rows satisfy
    [Pr], then driven by admissible calls, whether they succeed or
    raise. *)
Inductive reachable_from (Pr : Row -> Prop) (ok_isbn : str -> Prop)
          (cfg : AppConfig) : World -> Prop :=
| reach_boot payload t w :
    Forall Pr payload ->
    boot cfg payload t = (inr tt, w) ->
    reachable_from Pr ok_isbn cfg w
| reach_call c w r w' :
    reachable_from Pr ok_isbn cfg w ->
    call_ok ok_isbn c ->
    call cfg c w = (r, w') ->
    reachable_from Pr ok_isbn cfg w'.

Definition any_isbn (i : str) : Prop := True.

(** The states reached from a well-formed data file by any calls. *)
Definition reachable : AppConfig -> World -> Prop :=
  reachable_from row_wf any_isbn.

Definition ascii_str (s : str) : Prop :=
  Forall (fun c => is_ascii c = true) s.

(** The upper case of an alphanumeric character is made of
    alphanumeric characters that are their own upper case. *)
Definition upper_stable (c : codepoint) : Prop :=
  isalnum c = true ->
  Forall (fun c' => isalnum c' = true /\ upper_char c' = [c']) (upper_char c).

(** The normalised form of the ISBN is in normalised form. *)
Definition stable_isbn (i : str) : Prop :=
  normalize_isbn (normalize_isbn i) = normalize_isbn i.

(** A stored row holds an ISBN in normalised form. *)
Definition row_keyed (r : Row) : Prop :=
  normalize_isbn (row_isbn r) = row_isbn r.

(** The states reached from a data file of normalised ISBNs by calls
    that register and import ISBNs with a stable normalised form. *)
Definition reachable_stable : AppConfig -> World -> Prop :=
  reachable_from row_keyed stable_isbn.

(** The key is the [isbn] of the book it holds and is in normalised
    form. *)
Definition tidy (k : str) (b : Book) : Prop :=
  isbn b = k /\ normalize_isbn k = k.

Definition consistent_entry (k : str) (b : Book) : Prop := consistent b.

(** [Pb] holds of the book under some key. *)
Definition held_ok (Pb : str -> Book -> Prop) (b : Book) : Prop :=
  exists k, Pb k b.

(** [Pb] holds of the book under the key of its ISBN, before and after
    [add] has overwritten the [isbn]. *)
Definition fresh_ok (Pb : str -> Book -> Prop) (b : Book) : Prop :=
  Pb (book_key b) b /\ Pb (book_key b) (set_isbn b (book_key b)).

(** An invariant of the process: [Pb] on every entry of the mapping,
    [Pr] on every row of the data file. *)
Definition entries_ok (Pb : str -> Book -> Prop) (d : PyDict.dict Book)
  : Prop :=
  Forall (fun kv => Pb (fst kv) (snd kv)) d.

Definition inv (Pb : str -> Book -> Prop) (Pr : Row -> Prop) (w : World)
  : Prop :=
  entries_ok Pb (_books w) /\ Forall Pr (file w).

(** [safe Pb Pr c Q]: from a state that satisfies the invariant, [c]
    ends in a state that satisfies it, and a returned value satisfies
    [Q]. *)
Definition safe (Pb : str -> Book -> Prop) (Pr : Row -> Prop)
           {A} (c : M A) (Q : A -> Prop) : Prop :=
  forall w, inv Pb Pr w ->
            inv Pb Pr (snd (c w))
            /\ match fst (c w) with inr a => Q a | inl _ => True end.

(** The key under which [_initialize_defaults] adds a seed entry. *)
Definition seed_key (e : Entry) : str :=
  normalize_isbn (normalize_isbn (entry_isbn e)).

(** The body of the loop of [_initialize_defaults]. *)
Definition add_seed (cfg : AppConfig) (e : Entry) : M Book :=
  book <- new_book (normalize_isbn (entry_isbn e))
                   (entry_title e) (entry_author e) ;;
  add book (autosave cfg).

(** The entries of a mapping whose keys are the [isbn] fields of the
    books, as [_load] builds it. *)
Definition keyed_by_isbn (d : PyDict.dict Book) : Prop :=
  Forall (fun kv => fst kv = isbn (snd kv)) d.

(** The mutating operations of the repository that the invariant is
    about, and a run of a sequence of them; an operation that raises
    leaves the state it reached. *)
Inductive RepoOp :=
| OpAdd (b : Book) (flag : bool)
| OpUpdate (b : Book) (flag : bool)
| OpSaveAll (bs : list Book).

Definition repo_op (o : RepoOp) : M unit :=
  match o with
  | OpAdd b flag => add b flag ;;; ret tt
  | OpUpdate b flag => update b flag ;;; ret tt
  | OpSaveAll bs => save_all bs
  end.

Fixpoint repo_ops (os : list RepoOp) (w : World) : World :=
  match os with
  | [] => w
  | o :: os' => repo_ops os' (snd (repo_op o w))
  end.

(** The operation is given ISBNs with a stable normalised form. *)
Definition stable_op (o : RepoOp) : Prop :=
  match o with
  | OpAdd b _ | OpUpdate b _ => stable_isbn (isbn b)
  | OpSaveAll bs => Forall (fun b => stable_isbn (isbn b)) bs
  end.

Definition writes_isbn (o : RepoOp) : Prop :=
  match o with
  | OpAdd _ _ | OpUpdate _ _ => True
  | OpSaveAll _ => False
  end.

(** Every key is the [isbn] field of the book it holds. *)
Definition key_is_isbn (d : PyDict.dict Book) : Prop :=
  forall k b, PyDict.get k d = Some b -> isbn b = k.
End Statements.

Section SeedStatements.
Context {U : UnicodeData} {D : DatetimeLib}.

(** The seed entries that [_initialize_defaults] finds missing. *)
Definition missing_seeds (d : PyDict.dict Book) : list Entry :=
  List.filter
    (fun e => negb (str_in (normalize_isbn (entry_isbn e))
                           (List.map isbn (PyDict.values d))))
    default_catalog.

(** The book that [_initialize_defaults] files for a seed entry when
    the clock has been read [t] times, and the entries it files for a
    list of seeds. *)
Definition seed_book (t : nat) (e : Entry) : Book :=
  {| isbn := seed_key e; title := entry_title e; author := entry_author e;
     added_at := utcnow_at t; borrower := None; borrowed_at := None |}.

Fixpoint seed_entries (t : nat) (es : list Entry) : PyDict.dict Book :=
  match es with
  | [] => []
  | e :: es' => (seed_key e, seed_book t e) :: seed_entries (S t) es'
  end.
End SeedStatements.

(** ** The states used by the examples *)

Section Samples.
#[local] Existing Instance ucd_fragment.
#[local] Existing Instance naive_datetime.

Definition cfg_on : AppConfig := {| autosave := true |}.

(** The service on an empty data file: the five seeded books. *)
Definition w_seeded : World := snd (boot cfg_on [] 0).

Definition alchemist : str := lit "978-0-14-312774-1".

Definition held (i : str) (w : World) : Book :=
  match PyDict.get (normalize_isbn i) (_books w) with
  | Some b => b
  | None => {| isbn := []; title := []; author := []; added_at := epoch;
               borrower := None; borrowed_at := None |}
  end.

Definition w_borrowed : World :=
  snd (borrow_book cfg_on alchemist (lit "Alice") w_seeded).

Definition the_alchemist : Entry :=
  entry "9780143127741" "The Alchemist" "Paulo Coelho".

Definition w_removed : World :=
  snd (remove_book cfg_on (entry_isbn the_alchemist) w_seeded).

Definition raw_book : Book :=
  {| isbn := lit "978-0"; title := lit "T"; author := lit "A";
     added_at := epoch; borrower := None; borrowed_at := None |}.

Definition w_empty : World := {| _books := []; file := []; ticks := 0 |}.

Definition cfg_off : AppConfig := {| autosave := false |}.

(** An ISBN that the seeded catalog does not hold. *)
Definition unknown : str := lit "000-0".

(** The ISBN U+01F0: its normalised form U+004A U+030C normalises to
    U+004A. *)
Definition hacek : str := [496%N].

Definition hacek_entry : Entry :=
  {| entry_isbn := hacek; entry_title := lit "Title";
     entry_author := lit "Author" |}.

(** The seeded service imports the entry, a service is constructed
    again on its data file, and a borrowing of the book is tried. *)
Definition w_imported : World :=
  snd (call cfg_on (CallImport [hacek_entry]) w_seeded).

Definition w_reloaded : World := snd (call cfg_on CallRestart w_imported).

Definition w_stuck : World :=
  snd (call cfg_on (CallBorrow hacek (lit "Alice")) w_reloaded).
End Samples.

(* ===================================================================== *)
(** * app/utils.py: sequences and tables *)
(* ===================================================================== *)

Section Sequences.
Variable A : Type.

(** [l[i:j]] for [0 <= i <= j]; the slice stops at the end of [l]. *)
Definition slice (l : list A) (i j : nat) : list A :=
  firstn (j - i) (skipn i l).

(** [range(start, stop, step)] for a positive [step]; [fuel] bounds the
    number of elements. *)
Fixpoint range_from (fuel start stop step : nat) : list nat :=
  match fuel with
  | O => []
  | S fuel' =>
      if start <? stop then start :: range_from fuel' (start + step) stop step
      else []
  end.

Definition range (start stop step : nat) : list nat :=
  range_from stop start stop step.

(** [chunked]: a [size] that is not positive is a [ValueError]. *)
Definition chunked (iterable : list A) (size : Z) : result (list (list A)) :=
  if (size <=? 0)%Z then inl ValueError
  else
    let n := Z.to_nat size in
    inr (List.map (fun i => slice iterable i (i + n))
                  (range 0 (List.length iterable) n)).

(** The chunks cut from position [s] on. *)
Definition chunks_from (l : list A) (n fuel s : nat) : list (list A) :=
  List.map (fun i => slice l i (i + n)) (range_from fuel s (List.length l) n).

(** [l[idx] = x] for an index in range. *)
Fixpoint list_set (idx : nat) (x : A) (l : list A) : list A :=
  match l, idx with
  | [], _ => []
  | _ :: l', O => x :: l'
  | y :: l', S idx' => y :: list_set idx' x l'
  end.
End Sequences.

Definition space : codepoint := 32%N.
Definition dash : codepoint := 45%N.
Definition newline : codepoint := 10%N.

(** [sep.join(parts)] *)
Fixpoint join (sep : str) (parts : list str) : str :=
  match parts with
  | [] => []
  | p :: rest =>
      match rest with
      | [] => p
      | _ :: _ => p ++ sep ++ join sep rest
      end
  end.

(** [s.ljust(width)] *)
Definition ljust (s : str) (width : nat) : str :=
  s ++ List.repeat space (width - List.length s).

(** The inner loop of [tabulate]:
    [widths[idx] = max(widths[idx], len(str(value)))] for the cells of
    one row, from column [idx] on.  [None] stands for the [IndexError]
    of a column that has no header. *)
Fixpoint widen (idx : nat) (row : list str) (widths : list nat)
  : option (list nat) :=
  match row with
  | [] => Some widths
  | value :: row' =>
      match nth_error widths idx with
      | None => None
      | Some w =>
          widen (S idx) row'
                (list_set idx (Nat.max w (List.length value)) widths)
      end
  end.

Fixpoint widen_all (rows : list (list str)) (widths : list nat)
  : option (list nat) :=
  match rows with
  | [] => Some widths
  | row :: rows' =>
      match widen 0 row widths with
      | None => None
      | Some widths' => widen_all rows' widths'
      end
  end.

(** The cells of [fmt_line], from column [idx] on. *)
Fixpoint fmt_cells (widths : list nat) (idx : nat) (values : list str)
  : option (list str) :=
  match values with
  | [] => Some []
  | v :: values' =>
      match nth_error widths idx with
      | None => None
      | Some w =>
          match fmt_cells widths (S idx) values' with
          | None => None
          | Some cells => Some (ljust v w :: cells)
          end
      end
  end.

(** [fmt_line] *)
Definition fmt_line (widths : list nat) (values : list str) : option str :=
  match fmt_cells widths 0 values with
  | None => None
  | Some cells => Some (join (lit " | ") cells)
  end.

Fixpoint fmt_lines (widths : list nat) (rows : list (list str))
  : option (list str) :=
  match rows with
  | [] => Some []
  | row :: rows' =>
      match fmt_line widths row with
      | None => None
      | Some line =>
          match fmt_lines widths rows' with
          | None => None
          | Some lines => Some (line :: lines)
          end
      end
  end.

(** The [lines] of [tabulate], the cells being strings already. *)
Definition tabulate_lines (rows : list (list str)) (headers : list str)
  : option (list str) :=
  match widen_all rows (List.map (@List.length codepoint) headers) with
  | None => None
  | Some widths =>
      match fmt_line widths headers with
      | None => None
      | Some head =>
          let rule :=
            join (lit "-+-") (List.map (fun w => List.repeat dash w) widths) in
          match fmt_lines widths rows with
          | None => None
          | Some body => Some (head :: rule :: body)
          end
      end
  end.

(** The width of a line of columns of the widths [ws]. *)
Definition line_width (ws : list nat) : nat :=
  list_sum ws + 3 * (List.length ws - 1).

(** [tabulate] *)
Definition tabulate (rows : list (list str)) (headers : list str)
  : option str :=
  match tabulate_lines rows headers with
  | None => None
  | Some lines => Some (join [newline] lines)
  end.

(* ===================================================================== *)
(** * Ordering, case folding and searching *)
(* ===================================================================== *)

(** The comparison of two [datetime] values.  [dt_aware t] says that
    [t] carries a UTC offset.  [a < b] raises [TypeError] when one of
    the two is aware and the other is naive, and is [dt_ltb a b]
    otherwise. *)
Class DatetimeOrder {D : DatetimeLib} := {
  dt_ltb : datetime -> datetime -> bool;
  dt_aware : datetime -> bool
}.

(** [<] is a strict order in which "neither is less" is transitive,
    and it never raises: the datetimes are all naive or all aware. *)
Class DatetimeOrderLaws {D : DatetimeLib} {Ord : DatetimeOrder} : Prop := {
  dt_ltb_irrefl : forall a, dt_ltb a a = false;
  dt_ltb_trans :
    forall a b c, dt_ltb a b = true -> dt_ltb b c = true -> dt_ltb a c = true;
  dt_geb_trans :
    forall a b c,
      dt_ltb a b = false -> dt_ltb b c = false -> dt_ltb a c = false;
  dt_aware_same : forall a b, dt_aware a = dt_aware b
}.

(** Naive datetimes compare field by field, from the year down to the
    microsecond; on fields in range this is the order of the ranks. *)
Definition civil_rank (c : civil) : N :=
  ((((((year c * 13 + month c) * 32 + day c) * 24 + hour c) * 60
     + minute c) * 60 + second c) * 1000000 + microsecond c)%N.

Definition naive_ltb (a b : naive) : bool :=
  N.ltb (civil_rank (proj1_sig a)) (civil_rank (proj1_sig b)).

Definition naive_order : @DatetimeOrder naive_datetime :=
  @Build_DatetimeOrder naive_datetime naive_ltb (fun _ => false).

(** Among datetimes of the same kind, the order of the instants. *)
Definition zoned_order : @DatetimeOrder zoned_datetime :=
  @Build_DatetimeOrder zoned_datetime
    (fun a b => naive_ltb (fst a) (fst b)) (fun a => snd a).

Section Sorting.
Variable A : Type.
Variable lt : A -> A -> bool.

(** [x] goes after the elements that are less than it and before the
    others. *)
Fixpoint insert_by (x : A) (l : list A) : list A :=
  match l with
  | [] => [x]
  | y :: l' => if lt y x then y :: insert_by x l' else x :: y :: l'
  end.

(** [sorted(l)] when no comparison raises: the stable sort, by
    insertion from the right. *)
Definition sorted_by (l : list A) : list A :=
  List.fold_right insert_by [] l.

(** No later element is less than an earlier one. *)
Definition ascending (l : list A) : Prop :=
  StronglySorted (fun a b => lt b a = false) l.

(** [x] stands level with [t]: neither is less than the other. *)
Definition level (t x : A) : bool := negb (lt x t) && negb (lt t x).
End Sorting.

(** [str.lower] on strings that are not made of ASCII characters only;
    on those the mapping may depend on the neighbours of a character. *)
Class UnicodeLower := {
  uc_lower : str -> str
}.

Definition ascii_lower (c : codepoint) : codepoint :=
  if N.leb 65 c && N.leb c 90 then N.add c 32 else c.

(** [s.lower()] *)
Definition lower {Lo : UnicodeLower} (s : str) : str :=
  if List.forallb is_ascii s then List.map ascii_lower s else uc_lower s.

Fixpoint is_prefix (x s : str) : bool :=
  match x, s with
  | [], _ => true
  | _ :: _, [] => false
  | c :: x', d :: s' => N.eqb c d && is_prefix x' s'
  end.

(** [x in s] *)
Fixpoint is_infix (x s : str) : bool :=
  is_prefix x s
  || match s with
     | [] => false
     | _ :: s' => is_infix x s'
     end.

(** The fragment of the lower-case tables that the examples use: no
    string above ASCII is changed. *)
Definition lower_fragment : UnicodeLower := {| uc_lower := fun s => s |}.

(* ===================================================================== *)
(** * app/repository.py and app/services.py: listing and reporting *)
(* ===================================================================== *)

Section Listing.
Context {U : UnicodeData} {D : DatetimeLib} {Ord : DatetimeOrder}
        {Lo : UnicodeLower}.

Definition added_before (a b : Book) : bool :=
  dt_ltb (added_at a) (added_at b).

(** The [added_at] of the books compare with one another: they are
    all naive or all aware. *)
Definition comparable_keys (books : list Book) : bool :=
  match books with
  | [] => true
  | b :: rest =>
      List.forallb
        (fun b' => Bool.eqb (dt_aware (added_at b')) (dt_aware (added_at b)))
        rest
  end.

(** [LibraryRepository.list_books].  To sort two or more keys,
    [sorted] compares every key with another one while it finds and
    merges its runs, and [<] between a naive and an aware datetime
    raises [TypeError]: the call raises exactly when the mapping holds
    a naive and an aware [added_at].  Otherwise [sorted] returns the
    books in ascending order of [added_at], and it is stable. *)
Definition Repository_list_books : M (list Book) :=
  books <- get_books ;;
  if comparable_keys (PyDict.values books)
  then ret (sorted_by added_before (PyDict.values books))
  else raise TypeError.

(** [LibraryRepository.find_by_author] *)
Definition find_by_author (a : str) : M (list Book) :=
  let author_lower := lower a in
  books <- get_books ;;
  ret (List.filter (fun book => is_infix author_lower (lower (author book)))
                   (PyDict.values books)).

(** [LibraryService.list_books] *)
Definition Service_list_books (available_only : bool) : M (list Book) :=
  if available_only then find_available else Repository_list_books.

(** [LibraryService.search_by_author] *)
Definition search_by_author (a : str) : M (list Book) := find_by_author a.

(** [LibraryService.search_by_title] *)
Definition search_by_title (fragment : str) : M (list Book) :=
  let fragment_lower := lower fragment in
  books <- snapshot ;;
  ret (List.filter (fun book => is_infix fragment_lower (lower (title book)))
                   books).

(** [LibraryService._book_to_dict]: the fields of [asdict(book)], the
    two timestamps replaced by their ISO rendering. *)
Definition _book_to_dict (book : Book) : Row :=
  {| row_isbn := isbn book; row_title := title book;
     row_author := author book;
     row_added_at := isoformat (added_at book);
     row_borrower := borrower book;
     row_borrowed_at :=
       match borrowed_at book with
       | Some t => Some (isoformat t)
       | None => None
       end |}.

(** [LibraryService.catalog_snapshot] *)
Definition catalog_snapshot : M (list Row) :=
  books <- snapshot ;;
  ret (List.map _book_to_dict books).

(** [Counter(xs)]: a key is entered at its first occurrence and counts
    its occurrences. *)
Definition Counter (xs : list str) : PyDict.dict nat :=
  List.fold_left
    (fun d x =>
       PyDict.set x (S (match PyDict.get x d with Some n => n | None => O end))
                  d)
    xs [].

(** [LibraryService.usage_summary] *)
Definition usage_summary : M (PyDict.dict nat) :=
  books <- snapshot ;;
  ret (Counter (List.map author books)).

(** The cells of a book in [render_catalog_table]. *)
Definition table_row (book : Book) : list str :=
  [ isbn book; title book; author book;
    if is_available book then lit "yes"
    else lit "no (" +++ show_optional (borrower book) +++ lit ")" ].

Definition table_headers : list str :=
  [lit "ISBN"; lit "Title"; lit "Author"; lit "Available"].

(** [LibraryService.render_catalog_table]; [None] in the result stands
    for an [IndexError] of [tabulate]. *)
Definition render_catalog_table (books : option (list Book))
           (available_only : bool) : M (option str) :=
  books <- match books with
           | None => Service_list_books available_only
           | Some books => ret books
           end ;;
  let rows := List.map table_row books in
  ret (tabulate rows table_headers).
End Listing.

(* ===================================================================== *)
(** * app/cli.py *)
(* ===================================================================== *)

(** The parsed command line, the [import] file being read already. *)
Inductive Command :=
| CmdAdd (i t a : str)
| CmdList (available : bool)
| CmdBorrow (i who : str)
| CmdReturn (i : str)
| CmdSearch (fragment : str)
| CmdAuthor (a : str)
| CmdSummary
| CmdImport (payload : list Entry)
| CmdReset.

(** What a run leaves: the exit code and the lines printed on the two
    streams. *)
Record Outcome := {
  exit_code : nat;
  stdout : list str;
  stderr : list str
}.

(** The decimal digits of [n], the last digit first in the recursion. *)
Fixpoint digits_from (fuel n : nat) (acc : str) : str :=
  match fuel with
  | O => acc
  | S fuel' =>
      let acc' := (48 + N.of_nat (n mod 10))%N :: acc in
      if n / 10 =? 0 then acc' else digits_from fuel' (n / 10) acc'
  end.

(** [str(n)] *)
Definition str_of_nat (n : nat) : str := digits_from (S n) n [].

Section Cli.
Context {U : UnicodeData} {D : DatetimeLib} {Ord : DatetimeOrder}
        {Lo : UnicodeLower}.

Definition printed (lines : list str) : Outcome :=
  {| exit_code := 0; stdout := lines; stderr := [] |}.

(** The three [except] clauses of [main]; [ValueError] and [TypeError]
    are not caught. *)
Definition handled (e : Exn) : option Outcome :=
  match e with
  | BookAlreadyExistsError msg =>
      Some {| exit_code := 2; stdout := []; stderr := [msg] |}
  | BookUnavailableError msg =>
      Some {| exit_code := 3; stdout := []; stderr := [msg] |}
  | BookNotFoundError msg =>
      Some {| exit_code := 4; stdout := []; stderr := [msg] |}
  | ValueError => None
  | TypeError => None
  end.

(** The body of the [try] block of [main]: the lines printed, or
    [None] for an [IndexError] raised while rendering. *)
Definition command (cfg : AppConfig) (cmd : Command)
  : M (option (list str)) :=
  match cmd with
  | CmdAdd i t a =>
      book <- register_book cfg i t a ;;
      ret (Some [lit "Added " +++ title book +++ lit " (" +++ isbn book
                 +++ lit ") by " +++ author book])
  | CmdList available =>
      table <- render_catalog_table None available ;;
      ret (option_map (fun t => [t]) table)
  | CmdBorrow i who =>
      book <- borrow_book cfg i who ;;
      ret (Some [title book +++ lit " borrowed by "
                 +++ show_optional (borrower book)])
  | CmdReturn i =>
      book <- return_book cfg i ;;
      ret (Some [title book +++ lit " returned"])
  | CmdSearch fragment =>
      books <- search_by_title fragment ;;
      match books with
      | [] => ret (Some [lit "No matches found."])
      | _ :: _ =>
          table <- render_catalog_table (Some books) false ;;
          ret (option_map (fun t => [t]) table)
      end
  | CmdAuthor a =>
      books <- search_by_author a ;;
      match books with
      | [] => ret (Some [lit "No matches found."])
      | _ :: _ =>
          table <- render_catalog_table (Some books) false ;;
          ret (option_map (fun t => [t]) table)
      end
  | CmdSummary =>
      summary <- usage_summary ;;
      ret (Some (List.map
                   (fun item => fst item +++ lit ": "
                                +++ str_of_nat (snd item) +++ lit " book(s)")
                   summary))
  | CmdImport payload =>
      import_catalog cfg payload ;;;
      ret (Some [lit "Imported " +++ str_of_nat (List.length payload)
                 +++ lit " books."])
  | CmdReset =>
      reset_catalog cfg ;;;
      ret (Some [lit "Catalog cleared."])
  end.

(** [main], from the service on: the outcome of the process, or [None]
    when an exception leaves [main] uncaught. *)
Definition main (cfg : AppConfig) (cmd : Command)
  : World -> option Outcome * World :=
  fun w =>
    match command cfg cmd w with
    | (inr (Some lines), w') => (Some (printed lines), w')
    | (inr None, w') => (None, w')
    | (inl e, w') => (handled e, w')
    end.
End Cli.

(** ** A data file with an aware timestamp *)

Section ZonedSamples.
#[local] Existing Instance ucd_fragment.
#[local] Existing Instance zoned_datetime.
#[local] Existing Instance zoned_order.
#[local] Existing Instance lower_fragment.

(** A stored book whose [added_at] carries an offset. *)
Definition aware_row : Row :=
  {| row_isbn := lit "1"; row_title := lit "Old"; row_author := lit "A";
     row_added_at := lit "2023-05-01T10:00:00+00:00";
     row_borrower := None; row_borrowed_at := None |}.

(** The service constructed on that file: the stored book and the five
    seeded books, whose [added_at] is naive. *)
Definition w_mixed : World := snd (boot cfg_on [aware_row] 0).

Definition mixed_list : result (list Book) * World :=
  Service_list_books false w_mixed.

Definition mixed_table : result (option str) * World :=
  render_catalog_table None false w_mixed.

Definition mixed_main (available : bool) : option Outcome * World :=
  main cfg_on (CmdList available) w_mixed.
End ZonedSamples.

(* ===================================================================== *)
(** * Properties of strings and of the dict *)
(* ===================================================================== *)

Ltac inv H := inversion H; subst; clear H.

Ltac bool_to_prop :=
  repeat match goal with
         | H : _ && _ = true |- _ => apply andb_true_iff in H; destruct H
         | H : _ || _ = true |- _ => apply orb_true_iff in H
         | H : _ && _ = false |- _ => apply andb_false_iff in H
         | H : _ || _ = false |- _ => apply orb_false_iff in H; destruct H
         | H : N.leb _ _ = true |- _ => apply N.leb_le in H
         | H : N.leb _ _ = false |- _ => apply N.leb_gt in H
         | H : N.ltb _ _ = true |- _ => apply N.ltb_lt in H
         | H : N.ltb _ _ = false |- _ => apply N.ltb_ge in H
         | H : N.eqb _ _ = true |- _ => apply N.eqb_eq in H
         | H : N.eqb _ _ = false |- _ => apply N.eqb_neq in H
         end.

Lemma str_eqb_eq (a b : str) : PyStr.eqb a b = true <-> a = b.
Proof.
  revert b; induction a as [|x a IH]; intros [|y b]; simpl;
    try (split; [discriminate | congruence]).
  - split; reflexivity.
  - rewrite andb_true_iff, N.eqb_eq, IH. split.
    + intros [-> ->]; reflexivity.
    + intros E; inv E; split; reflexivity.
Qed.

Lemma str_eqb_refl (a : str) : PyStr.eqb a a = true.
Proof. apply str_eqb_eq; reflexivity. Qed.

Lemma str_eqb_neq (a b : str) : PyStr.eqb a b = false <-> a <> b.
Proof.
  rewrite <- str_eqb_eq. destruct (PyStr.eqb a b); split; congruence.
Qed.

Lemma str_eqb_sym (a b : str) : PyStr.eqb a b = PyStr.eqb b a.
Proof.
  destruct (PyStr.eqb b a) eqn:E.
  - apply str_eqb_eq in E; subst; apply str_eqb_refl.
  - apply str_eqb_neq. apply str_eqb_neq in E. congruence.
Qed.

Lemma ascii_upper_stable (c : codepoint) :
  is_ascii c = true -> ascii_isalnum c = true ->
  is_ascii (ascii_upper c) = true
  /\ ascii_isalnum (ascii_upper c) = true
  /\ ascii_upper (ascii_upper c) = ascii_upper c.
Proof.
  intros Ha Hn.
  destruct (N.leb 97 c && N.leb c 122) eqn:E.
  - assert (Hup : ascii_upper c = (c - 32)%N)
      by (unfold ascii_upper; rewrite E; reflexivity).
    bool_to_prop.
    assert (R : (65 <= ascii_upper c <= 90)%N) by (rewrite Hup; lia).
    destruct R as [R1 R2]. split; [|split].
    + apply N.ltb_lt; lia.
    + unfold ascii_isalnum. apply orb_true_iff; left.
      apply orb_true_iff; right.
      apply andb_true_iff; split; apply N.leb_le; assumption.
    + generalize dependent (ascii_upper c). intros u _ R1 R2.
      unfold ascii_upper.
      replace (N.leb 97 u) with false by (symmetry; apply N.leb_gt; lia).
      reflexivity.
  - assert (Hup : ascii_upper c = c)
      by (unfold ascii_upper; rewrite E; reflexivity).
    rewrite !Hup. repeat split; assumption.
Qed.

Section NormalizeFacts.
Context {U : UnicodeData}.

Lemma normalize_isbn_ascii_eq (s : str) :
  Forall (fun c => is_ascii c = true) s ->
  normalize_isbn s = List.map ascii_upper (List.filter ascii_isalnum s).
Proof.
  unfold normalize_isbn, upper.
  induction 1 as [|c s Hc _ IH]; simpl; [reflexivity|].
  unfold isalnum at 1. rewrite Hc.
  destruct (ascii_isalnum c); simpl; [|exact IH].
  unfold upper_char at 1. rewrite Hc. simpl. f_equal. exact IH.
Qed.

Lemma normalize_isbn_ascii_fixed (s : str) :
  Forall (fun c => is_ascii c = true) s ->
  Forall (fun c => is_ascii c = true) (normalize_isbn s)
  /\ List.filter ascii_isalnum (normalize_isbn s) = normalize_isbn s
  /\ List.map ascii_upper (normalize_isbn s) = normalize_isbn s.
Proof.
  intros Hs. rewrite (normalize_isbn_ascii_eq Hs).
  induction Hs as [|c s Hc _ IH]; simpl; [repeat split; constructor|].
  destruct (ascii_isalnum c) eqn:Hn; [|exact IH].
  destruct (ascii_upper_stable c Hc Hn) as (A1 & A2 & A3).
  destruct IH as (I1 & I2 & I3). simpl. rewrite A2. repeat split.
  - constructor; assumption.
  - f_equal; exact I2.
  - rewrite A3; f_equal; exact I3.
Qed.

Lemma normalize_isbn_idem_ascii (s : str) :
  Forall (fun c => is_ascii c = true) s ->
  normalize_isbn (normalize_isbn s) = normalize_isbn s.
Proof.
  intros Hs.
  destruct (normalize_isbn_ascii_fixed Hs) as (F1 & F2 & F3).
  rewrite (normalize_isbn_ascii_eq F1), F2, F3. reflexivity.
Qed.
End NormalizeFacts.

Section NormalizeStable.
Context {U : UnicodeData}.

Lemma normalize_isbn_fixed_chars (s : str) :
  Forall upper_stable s ->
  Forall (fun c => isalnum c = true /\ upper_char c = [c])
         (normalize_isbn s).
Proof.
  unfold normalize_isbn, upper.
  induction 1 as [|c s Hc _ IH]; simpl; [constructor|].
  destruct (isalnum c) eqn:E; [|exact IH].
  simpl. apply Forall_app. split; [exact (Hc E)|exact IH].
Qed.

Lemma normalize_isbn_of_fixed (s : str) :
  Forall (fun c => isalnum c = true /\ upper_char c = [c]) s ->
  normalize_isbn s = s.
Proof.
  unfold normalize_isbn, upper.
  induction 1 as [|c s [Hn Hu] _ IH]; simpl; [reflexivity|].
  rewrite Hn. simpl. rewrite Hu, IH. reflexivity.
Qed.

Lemma upper_stable_ascii (c : codepoint) :
  is_ascii c = true -> upper_stable c.
Proof.
  intros Ha Hn. unfold isalnum in Hn. rewrite Ha in Hn.
  destruct (ascii_upper_stable c Ha Hn) as (A1 & A2 & A3).
  assert (E : upper_char c = [ascii_upper c])
    by (unfold upper_char; rewrite Ha; reflexivity).
  rewrite E. constructor; [|constructor].
  unfold isalnum, upper_char. rewrite A1, A2, A3. split; reflexivity.
Qed.

Lemma stable_isbn_ascii (i : str) : ascii_str i -> stable_isbn i.
Proof. exact (@normalize_isbn_idem_ascii _ i). Qed.

(** C8, as amended.  ISBN normalisation is idempotent on every string
    whose alphanumeric characters have an upper case made of
    alphanumeric characters that are their own upper case, which is
    the case of every string of ASCII characters; it keeps exactly the
    alphanumeric characters and upper-cases them; and it does not see
    separators: ["978-0-14-312854-0"] and ["9780143128540"] both
    normalise to ["9780143128540"]. *)
Theorem normalize_isbn_idempotent_when_stable (s : str) :
  (Forall upper_stable s ->
   normalize_isbn (normalize_isbn s) = normalize_isbn s)
  /\ (ascii_str s -> Forall upper_stable s)
  /\ normalize_isbn s = upper (List.filter isalnum s)
  /\ (ascii_str s ->
      normalize_isbn s = List.map ascii_upper (List.filter ascii_isalnum s))
  /\ normalize_isbn (lit "978-0-14-312854-0") = lit "9780143128540"
  /\ normalize_isbn (lit "9780143128540") = lit "9780143128540".
Proof.
  split; [|split; [|split; [|split; [|split]]]].
  - intros Hs. apply normalize_isbn_of_fixed, normalize_isbn_fixed_chars, Hs.
  - apply Forall_impl. exact upper_stable_ascii.
  - reflexivity.
  - apply normalize_isbn_ascii_eq.
  - reflexivity.
  - reflexivity.
Qed.
End NormalizeStable.

Lemma normalize_isbn_idempotent_when_stable_witness :
  ascii_str (lit "978-0-14-312854-x")
  /\ @normalize_isbn ucd_fragment
       (@normalize_isbn ucd_fragment (lit "978-0-14-312854-x"))
     = lit "978014312854X".
Proof.
  assert (H : ascii_str (lit "978-0-14-312854-x")) by (repeat constructor).
  split; [exact H|].
  destruct (@normalize_isbn_idempotent_when_stable
              ucd_fragment (lit "978-0-14-312854-x")) as (E & S & _).
  rewrite (E (S H)). reflexivity.
Defined.

(** C8, as stated, fails above ASCII: U+01F0 is alphanumeric and its
    upper case is U+004A followed by the combining mark U+030C, which a
    second normalisation strips. *)
Lemma normalize_isbn_not_idempotent :
  @normalize_isbn ucd_fragment [496%N] = [74%N; 780%N]
  /\ @normalize_isbn ucd_fragment (@normalize_isbn ucd_fragment [496%N])
     = [74%N]
  /\ @normalize_isbn ucd_fragment (@normalize_isbn ucd_fragment [496%N])
     <> @normalize_isbn ucd_fragment [496%N].
Proof.
  split; [reflexivity|]. split; [reflexivity|]. discriminate.
Qed.

Section DictFacts.
Variable V : Type.
Implicit Types (d : PyDict.dict V) (k : str) (v : V).

Lemma get_set k k' v d :
  PyDict.get k (PyDict.set k' v d)
  = if PyStr.eqb k k' then Some v else PyDict.get k d.
Proof.
  induction d as [|[k0 v0] d IH]; simpl; [reflexivity|].
  destruct (PyStr.eqb k' k0) eqn:E0; simpl.
  - apply str_eqb_eq in E0; subst k0.
    destruct (PyStr.eqb k k'); reflexivity.
  - rewrite IH. destruct (PyStr.eqb k k0) eqn:E1; [|reflexivity].
    apply str_eqb_eq in E1; subst k0.
    rewrite (str_eqb_sym k k'), E0. reflexivity.
Qed.

Lemma get_set_same k v d : PyDict.get k (PyDict.set k v d) = Some v.
Proof. rewrite get_set, str_eqb_refl. reflexivity. Qed.

Lemma mem_set k k' v d :
  PyDict.mem k (PyDict.set k' v d) = PyStr.eqb k k' || PyDict.mem k d.
Proof.
  unfold PyDict.mem. rewrite get_set.
  destruct (PyStr.eqb k k'); reflexivity.
Qed.

Lemma mem_get k d :
  PyDict.mem k d = true <-> exists v, PyDict.get k d = Some v.
Proof.
  unfold PyDict.mem. destruct (PyDict.get k d) as [v|]; split.
  - exists v; reflexivity.
  - reflexivity.
  - discriminate.
  - intros [v Hv]; discriminate.
Qed.

Lemma get_In k v d : PyDict.get k d = Some v -> In (k, v) d.
Proof.
  induction d as [|[k0 v0] d IH]; simpl; [discriminate|].
  destruct (PyStr.eqb k k0) eqn:E.
  - apply str_eqb_eq in E; subst k0. intros H; inv H. left; reflexivity.
  - intros H; right; exact (IH H).
Qed.

Lemma In_mem k v d : In (k, v) d -> PyDict.mem k d = true.
Proof.
  unfold PyDict.mem.
  induction d as [|[k0 v0] d IH]; simpl; [intros []|].
  intros [H|H].
  - inv H. rewrite str_eqb_refl. reflexivity.
  - destruct (PyStr.eqb k k0); [reflexivity|exact (IH H)].
Qed.

Lemma In_set kv k v d :
  In kv (PyDict.set k v d) -> kv = (k, v) \/ In kv d.
Proof.
  induction d as [|[k0 v0] d IH]; simpl.
  - intros [H|[]]; left; congruence.
  - destruct (PyStr.eqb k k0) eqn:E; simpl.
    + apply str_eqb_eq in E; subst k0.
      intros [H|H]; [left; congruence|right; right; exact H].
    + intros [H|H]; [right; left; exact H|].
      destruct (IH H) as [H'|H']; [left; exact H'|right; right; exact H'].
Qed.

Lemma In_del kv k d : In kv (PyDict.del k d) -> In kv d.
Proof.
  induction d as [|[k0 v0] d IH]; simpl; [intros []|].
  destruct (PyStr.eqb k k0); simpl.
  - intros H; right; exact H.
  - intros [H|H]; [left; exact H|right; exact (IH H)].
Qed.

Lemma find_app (p : V -> bool) (l1 l2 : list V) :
  List.find p (l1 ++ l2)
  = match List.find p l1 with Some x => Some x | None => List.find p l2 end.
Proof.
  induction l1 as [|x l1 IH]; simpl; [reflexivity|].
  destruct (p x); [reflexivity|exact IH].
Qed.

(** After [{key(x): x for x in xs}], a key holds the last [x] of [xs]
    that has this key. *)
Lemma get_fold_set (key : V -> str) k (xs : list V) d :
  PyDict.get k (List.fold_left (fun d x => PyDict.set (key x) x d) xs d)
  = match List.find (fun x => PyStr.eqb k (key x)) (rev xs) with
    | Some x => Some x
    | None => PyDict.get k d
    end.
Proof.
  revert d; induction xs as [|x xs IH]; intros d; simpl; [reflexivity|].
  rewrite IH, find_app. simpl.
  destruct (List.find _ (rev xs)); [reflexivity|].
  rewrite get_set. destruct (PyStr.eqb k (key x)); reflexivity.
Qed.

Lemma get_comprehension (key : V -> str) k (xs : list V) :
  PyDict.get k (PyDict.comprehension key xs)
  = List.find (fun x => PyStr.eqb k (key x)) (rev xs).
Proof.
  unfold PyDict.comprehension. rewrite get_fold_set.
  destruct (List.find _ (rev xs)); reflexivity.
Qed.
End DictFacts.

(* ===================================================================== *)
(** * The catalog *)
(* ===================================================================== *)

Section Catalog.
Context {U : UnicodeData} {D : DatetimeLib}.

Lemma present_key_normalized (d : PyDict.dict Book) (i : str) :
  catalog_wf d -> PyDict.mem (normalize_isbn i) d = true ->
  normalize_isbn (normalize_isbn i) = normalize_isbn i.
Proof.
  intros W Hm. apply mem_get in Hm. destruct Hm as [b Hb].
  apply (W _ _ Hb).
Qed.
End Catalog.

Ltac run :=
  repeat
    (progress
       (cbv beta zeta delta
          [bind ret raise get_books set_books utcnow persist_if _persist
           get add remove update save_all snapshot mutate_held new_book
           register_book remove_book get_book borrow_book return_book
           reset_catalog];
        cbn [_books file ticks isbn title author added_at borrower
             borrowed_at set_isbn checkout checkin fst snd])).

Section Circulation.
Context {U : UnicodeData} {D : DatetimeLib}.

(** C3, as amended.  In a catalog of the data model (every key in
    normalised form and the normalised ISBN of its book), registering a
    book whose normalised ISBN is already a key of the catalog raises
    [BookAlreadyExistsError]; the mapping and the data file are as they
    were. *)
Theorem register_existing_isbn_rejected
    (cfg : AppConfig) (w : World) (i t a : str) :
  catalog_wf (_books w) ->
  PyDict.mem (normalize_isbn i) (_books w) = true ->
  exists msg w',
    register_book cfg i t a w = (inl (BookAlreadyExistsError msg), w')
    /\ _books w' = _books w /\ file w' = file w.
Proof.
  intros W Hm. run.
  rewrite (present_key_normalized _ W Hm), Hm.
  eexists; eexists; split; [reflexivity|]. split; reflexivity.
Qed.

Lemma borrow_book_borrowed
    (cfg : AppConfig) (w : World) (i who x : str) (b : Book) :
  PyDict.get (normalize_isbn i) (_books w) = Some b ->
  borrower b = Some x ->
  exists msg,
    borrow_book cfg i who w = (inl (BookUnavailableError msg), w)
    /\ contains x msg.
Proof.
  intros Hg Hb. run. rewrite Hg. unfold is_available. rewrite Hb.
  cbn [negb]. unfold already_borrowed. rewrite Hb.
  eexists; split; [reflexivity|].
  exists (lit "Book '" +++ title b +++ lit "' is already borrowed by "),
         (lit ".").
  cbn [show_optional]. rewrite <- !app_assoc. reflexivity.
Qed.

Lemma return_book_not_borrowed
    (cfg : AppConfig) (w : World) (i : str) (b : Book) :
  PyDict.get (normalize_isbn i) (_books w) = Some b ->
  borrower b = None ->
  exists msg, return_book cfg i w = (inl (BookUnavailableError msg), w).
Proof.
  intros Hg Hb. run. rewrite Hg. unfold is_available. rewrite Hb.
  eexists; reflexivity.
Qed.

(** C2, as amended.  In a catalog of the data model (every key in
    normalised form and the normalised ISBN of its book) that holds
    the ISBN: when the book is available, borrowing succeeds and the book held under the key has the given
    borrower; any further borrowing then raises
    [BookUnavailableError] with a message that names that borrower,
    and leaves the whole state, hence the borrower and [borrowed_at]
    of the book, as it was.  The second part holds in every state in
    which the book is borrowed. *)
Theorem borrow_book_once
    (cfg : AppConfig) (w : World) (i who : str) (b : Book) :
  catalog_wf (_books w) ->
  PyDict.get (normalize_isbn i) (_books w) = Some b ->
  (is_available b = true ->
   exists b' w',
     borrow_book cfg i who w = (inr b', w')
     /\ borrower b' = Some who
     /\ borrowed_at b' = Some (utcnow_at (ticks w))
     /\ PyDict.get (normalize_isbn i) (_books w') = Some b'
     /\ forall who2, exists msg,
          borrow_book cfg i who2 w' = (inl (BookUnavailableError msg), w')
          /\ contains who msg)
  /\ (forall x, borrower b = Some x ->
      exists msg,
        borrow_book cfg i who w = (inl (BookUnavailableError msg), w)
        /\ contains x msg).
Proof.
  intros W Hg. split.
  - intros Ha.
    destruct (W _ _ Hg) as [_ Hk].
    set (b' := set_isbn (checkout b who (utcnow_at (ticks w)))
                        (normalize_isbn i)).
    assert (E : exists w',
               borrow_book cfg i who w = (inr b', w')
               /\ PyDict.get (normalize_isbn i) (_books w') = Some b').
    { run. rewrite Hg, Ha. cbn [negb]. rewrite Hk.
      rewrite mem_set, str_eqb_refl. cbn [orb]. fold b'.
      destruct (autosave cfg); eexists; (split; [reflexivity|]);
        cbn [_books]; apply get_set_same. }
    destruct E as (w' & Hrun & Hg').
    exists b', w'. repeat split; try assumption.
    intros who2.
    apply borrow_book_borrowed with (b := b'); [exact Hg'|reflexivity].
  - intros x Hb. apply borrow_book_borrowed with (b := b); assumption.
Qed.

(** C6, as amended.  In a catalog of the data model (every key in
    normalised form and the normalised ISBN of its book) that holds
    the ISBN: returning a book that has no borrower raises [BookUnavailableError] and leaves the whole
    state as it was; returning a borrowed book succeeds and the book
    held under the key has neither borrower nor [borrowed_at], so
    that a second return is refused. *)
Theorem return_book_once
    (cfg : AppConfig) (w : World) (i : str) (b : Book) :
  catalog_wf (_books w) ->
  PyDict.get (normalize_isbn i) (_books w) = Some b ->
  (borrower b = None ->
   exists msg, return_book cfg i w = (inl (BookUnavailableError msg), w))
  /\ (borrower b <> None ->
      exists b' w',
        return_book cfg i w = (inr b', w')
        /\ borrower b' = None /\ borrowed_at b' = None
        /\ PyDict.get (normalize_isbn i) (_books w') = Some b'
        /\ exists msg,
             return_book cfg i w' = (inl (BookUnavailableError msg), w')).
Proof.
  intros W Hg. split.
  - intros Hb. apply return_book_not_borrowed with (b := b); assumption.
  - intros Hb.
    destruct (W _ _ Hg) as [_ Hk].
    set (b' := set_isbn (checkin b) (normalize_isbn i)).
    assert (E : exists w',
               return_book cfg i w = (inr b', w')
               /\ PyDict.get (normalize_isbn i) (_books w') = Some b').
    { run. rewrite Hg. unfold is_available.
      destruct (borrower b) as [x|]; [|congruence].
      rewrite Hk. rewrite mem_set, str_eqb_refl. cbn [orb]. fold b'.
      destruct (autosave cfg); eexists; (split; [reflexivity|]);
        cbn [_books]; apply get_set_same. }
    destruct E as (w' & Hrun & Hg').
    exists b', w'. repeat split; try assumption.
    apply return_book_not_borrowed with (b := b'); [exact Hg'|reflexivity].
Qed.
End Circulation.

Section DictKeys.
Variable V : Type.
Implicit Types (d : PyDict.dict V) (k : str) (v : V).

Lemma In_keys_mem k d : In k (PyDict.keys d) <-> PyDict.mem k d = true.
Proof.
  unfold PyDict.keys. rewrite in_map_iff. split.
  - intros [[k0 v0] [E H]]. simpl in E; subst k0.
    exact (In_mem _ _ _ H).
  - intros H. apply mem_get in H. destruct H as [v Hv].
    exists (k, v). split; [reflexivity|]. exact (get_In _ _ Hv).
Qed.

Lemma keys_set k v d :
  PyDict.keys (PyDict.set k v d)
  = if PyDict.mem k d then PyDict.keys d else PyDict.keys d ++ [k].
Proof.
  unfold PyDict.mem.
  induction d as [|[k0 v0] d IH]; simpl; [reflexivity|].
  destruct (PyStr.eqb k k0) eqn:E; simpl; [reflexivity|].
  rewrite IH. destruct (PyDict.get k d); reflexivity.
Qed.

Lemma NoDup_keys_set k v d :
  NoDup (PyDict.keys d) -> NoDup (PyDict.keys (PyDict.set k v d)).
Proof.
  intros H. rewrite keys_set. destruct (PyDict.mem k d) eqn:E; [exact H|].
  apply NoDup_app; [exact H | repeat constructor; intros [] | ].
  intros x Hx [Hk|[]]. subst x.
  apply In_keys_mem in Hx. congruence.
Qed.

Lemma NoDup_keys_fold_set (key : V -> str) (xs : list V) d :
  NoDup (PyDict.keys d) ->
  NoDup (PyDict.keys
           (List.fold_left (fun d x => PyDict.set (key x) x d) xs d)).
Proof.
  revert d; induction xs as [|x xs IH]; intros d H; simpl; [exact H|].
  apply IH, NoDup_keys_set, H.
Qed.
End DictKeys.

Section ImportCatalog.
Context {U : UnicodeData} {D : DatetimeLib}.

Lemma for_each_new_book (es : list Entry) (w : World) :
  for_each (fun e => new_book (normalize_isbn (entry_isbn e))
                              (strip (entry_title e))
                              (strip (entry_author e))) es w
  = (inr (import_books (ticks w) es),
     {| _books := _books w; file := file w;
        ticks := List.length es + ticks w |}).
Proof.
  revert w; induction es as [|e es IH]; intros w; simpl.
  - destruct w; reflexivity.
  - run. rewrite IH. cbn [ticks _books file].
    rewrite Nat.add_succ_r. reflexivity.
Qed.

Lemma import_catalog_run (cfg : AppConfig) (es : list Entry) (w : World) :
  import_catalog cfg es w
  = (inr (import_books (ticks w) es),
     let d := PyDict.comprehension book_key (import_books (ticks w) es) in
     {| _books := d; file := save_books (PyDict.values d);
        ticks := List.length es + ticks w |}).
Proof.
  unfold import_catalog. unfold bind at 1. rewrite for_each_new_book.
  run. reflexivity.
Qed.

Lemma In_import_books (b : Book) (t : nat) (es : list Entry) :
  In b (import_books t es) ->
  exists e, In e es /\ isbn b = normalize_isbn (entry_isbn e).
Proof.
  revert t; induction es as [|e es IH]; intros t; simpl; [intros []|].
  intros [H|H].
  - exists e; subst b; split; [left|]; reflexivity.
  - destruct (IH _ H) as (e' & He' & E). exists e'; split; [right|]; auto.
Qed.

Lemma import_books_In (e : Entry) (t : nat) (es : list Entry) :
  In e es ->
  exists b, In b (import_books t es)
            /\ isbn b = normalize_isbn (entry_isbn e).
Proof.
  revert t; induction es as [|e0 es IH]; intros t; simpl; [intros []|].
  intros [H|H].
  - subst e0. eexists; split; [left; reflexivity|reflexivity].
  - destruct (IH (S t) H) as (b & Hb & E). exists b; split; [right|]; auto.
Qed.

Lemma map_isbn_import_books (t : nat) (es : list Entry) :
  List.map isbn (import_books t es)
  = List.map (fun e => normalize_isbn (entry_isbn e)) es.
Proof.
  revert t; induction es as [|e es IH]; intros t; simpl;
    [reflexivity|]. f_equal. apply IH.
Qed.

(** C7.  Whatever the catalog, the data file and the configuration
    were, [import_catalog] succeeds; the mapping it leaves is the one
    built from the imported books alone, its keys are exactly the
    normalised ISBNs of the entries, and the data file holds exactly
    this mapping.  A run from any other catalog, data file and
    autosave flag leaves the same mapping and the same file. *)
Theorem import_catalog_replaces
    (cfg : AppConfig) (w : World) (entries : list Entry) :
  exists imported w',
    import_catalog cfg entries w = (inr imported, w')
    /\ _books w' = PyDict.comprehension book_key imported
    /\ file w' = save_books (PyDict.values (_books w'))
    /\ (forall k,
          PyDict.mem k (_books w') = true
          <-> exists e, In e entries
                        /\ k = normalize_isbn
                                 (normalize_isbn (entry_isbn e)))
    /\ (forall cfg0 w0,
          ticks w0 = ticks w ->
          exists w0',
            import_catalog cfg0 entries w0 = (inr imported, w0')
            /\ _books w0' = _books w' /\ file w0' = file w').
Proof.
  eexists; eexists. split; [apply import_catalog_run|].
  cbn [_books file]. split; [reflexivity|]. split; [reflexivity|]. split.
  - intros k. rewrite mem_get. rewrite get_comprehension. split.
    + intros [b Hb]. apply find_some in Hb. destruct Hb as [Hin Hk].
      apply in_rev in Hin. apply str_eqb_eq in Hk.
      destruct (In_import_books _ _ _ Hin) as (e & He & E).
      exists e; split; [exact He|]. rewrite Hk. unfold book_key.
      rewrite E. reflexivity.
    + intros (e & He & ->).
      destruct (import_books_In e (ticks w) entries He) as (b & Hb & E).
      destruct (List.find
                  (fun x => PyStr.eqb
                              (normalize_isbn (normalize_isbn (entry_isbn e)))
                              (book_key x))
                  (rev (import_books (ticks w) entries))) as [b0|] eqn:F.
      * exists b0; reflexivity.
      * apply in_rev in Hb. pose proof (find_none _ _ F b Hb) as N.
        cbv beta in N. unfold book_key in N.
        rewrite E, str_eqb_refl in N. discriminate.
  - intros cfg0 w0 Ht. eexists. rewrite import_catalog_run, Ht.
    split; [reflexivity|]. split; reflexivity.
Qed.

(** C10.  [import_catalog] never raises, whatever ISBNs the entries
    share.  The returned list has one book per entry, in order; in
    the mapping each key occurs once and holds the last imported book
    whose ISBN normalises to it. *)
Theorem import_catalog_last_wins
    (cfg : AppConfig) (w : World) (entries : list Entry) :
  exists imported w',
    import_catalog cfg entries w = (inr imported, w')
    /\ List.length imported = List.length entries
    /\ List.map isbn imported
       = List.map (fun e => normalize_isbn (entry_isbn e)) entries
    /\ NoDup (PyDict.keys (_books w'))
    /\ forall k,
         PyDict.get k (_books w')
         = List.find (fun b => PyStr.eqb k (normalize_isbn (isbn b)))
                     (rev imported).
Proof.
  eexists; eexists. split; [apply import_catalog_run|].
  cbn [_books]. split; [|split; [|split]].
  - rewrite <- (length_map isbn), map_isbn_import_books, length_map.
    reflexivity.
  - apply map_isbn_import_books.
  - apply NoDup_keys_fold_set. constructor.
  - intros k. apply get_comprehension.
Qed.
End ImportCatalog.

(* ===================================================================== *)
(** * The naive datetimes satisfy the laws of the library *)
(* ===================================================================== *)

Section NaiveDatetime.
Local Open Scope N_scope.

Lemma digit_val_digit (d : N) :
  (d < 10)%N -> digit_val (48 + d) = Some d.
Proof.
  intros H. unfold digit_val.
  replace (N.leb 48 (48 + d)) with true by (symmetry; apply N.leb_le; lia).
  replace (N.leb (48 + d) 57) with true by (symmetry; apply N.leb_le; lia).
  cbn [andb]. f_equal. lia.
Qed.

Lemma read_num_dec (w : nat) (n acc : N) (rest : str) :
  read_num w acc (dec w n ++ rest)
  = Some ((acc * 10 ^ N.of_nat w + n mod 10 ^ N.of_nat w)%N, rest).
Proof.
  revert acc; induction w as [|w IH]; intros acc.
  - simpl. rewrite N.mod_1_r. do 2 f_equal. lia.
  - cbn [dec app read_num].
    rewrite digit_val_digit by (apply N.mod_lt; discriminate).
    rewrite IH. do 2 f_equal.
    rewrite Nat2N.inj_succ, N.pow_succ_r'.
    rewrite (N.mul_comm 10 (10 ^ N.of_nat w)).
    rewrite N.Div0.mod_mul_r. lia.
Qed.

Lemma read_num_dec_small (w : nat) (n : N) (rest : str) :
  (n < 10 ^ N.of_nat w)%N ->
  read_num w 0 (dec w n ++ rest) = Some (n, rest).
Proof.
  intros H. rewrite read_num_dec, N.mod_small by exact H. reflexivity.
Qed.

Lemma read_char_same (c : codepoint) (s : str) :
  read_char c (c :: s) = Some s.
Proof. unfold read_char. rewrite N.eqb_refl. reflexivity. Qed.

Lemma days_in_month_le (y m : N) : (days_in_month y m <= 31)%N.
Proof.
  unfold days_in_month.
  destruct (N.eqb m 2); [destruct (is_leap y); lia|].
  destruct (_ || _); lia.
Qed.

Lemma civil_roundtrip (c : civil) :
  civil_ok c = true -> civil_fromisoformat (civil_isoformat c) = Some c.
Proof.
  intros H. unfold civil_ok in H. bool_to_prop.
  pose proof (days_in_month_le (year c) (month c)) as Hd.
  unfold civil_fromisoformat, civil_isoformat.
  rewrite read_num_dec_small by (simpl; lia). cbn [obind].
  rewrite read_char_same. cbn [obind].
  rewrite read_num_dec_small by (simpl; lia). cbn [obind].
  rewrite read_char_same. cbn [obind].
  rewrite read_num_dec_small by (simpl; lia). cbn [obind].
  rewrite read_char_same. cbn [obind].
  rewrite read_num_dec_small by (simpl; lia). cbn [obind].
  rewrite read_char_same. cbn [obind].
  rewrite read_num_dec_small by (simpl; lia). cbn [obind].
  rewrite read_char_same. cbn [obind].
  rewrite read_num_dec_small by (simpl; lia). cbn [obind].
  destruct (N.eqb (microsecond c) 0) eqn:E.
  - apply N.eqb_eq in E. cbn [obind]. destruct c; simpl in *. congruence.
  - cbn [obind]. rewrite read_char_same. cbn [obind].
    rewrite <- (app_nil_r (dec 6 (microsecond c))).
    rewrite read_num_dec_small by (simpl; lia). cbn [obind].
    destruct c; reflexivity.
Qed.

Lemma mk_naive_ok (c : civil) (H : civil_ok c = true) :
  mk_naive c = Some (exist _ c H).
Proof.
  unfold mk_naive.
  generalize (eq_refl (civil_ok c)).
  generalize (civil_ok c) at 2 3.
  intros b; destruct b; intros e.
  - do 2 f_equal. apply UIP_dec, bool_dec.
  - congruence.
Qed.

(** [fromisoformat] inverts [isoformat], and [isoformat] never renders
    the empty string. *)
Lemma naive_datetime_laws : @DatetimeLaws naive_datetime.
Proof.
  split.
  - intros [c H]. simpl. rewrite (civil_roundtrip c H). simpl.
    apply mk_naive_ok.
  - intros [c H]. simpl. unfold civil_isoformat. simpl. discriminate.
Qed.
End NaiveDatetime.

(* ===================================================================== *)
(** * Persistence *)
(* ===================================================================== *)

Section Persistence.
Context {D : DatetimeLib} {L : DatetimeLaws}.

Lemma parse_isoformat (t : datetime) : parse (isoformat t) = inr t.
Proof. unfold parse. rewrite fromisoformat_isoformat. reflexivity. Qed.

Lemma parse_optional_isoformat (t : datetime) :
  parse_optional (Some (isoformat t)) = inr (Some t).
Proof.
  unfold parse_optional.
  destruct (isoformat t) as [|c s] eqn:E.
  - exfalso. exact (isoformat_truthy t E).
  - rewrite <- E, parse_isoformat. reflexivity.
Qed.

Lemma parse_optional_to_dict (b : Book) :
  parse_optional (row_borrowed_at (_to_dict b)) = inr (borrowed_at b).
Proof.
  unfold _to_dict; cbn [row_borrowed_at].
  destruct (borrowed_at b) as [t|]; [apply parse_optional_isoformat|].
  reflexivity.
Qed.

Lemma from_dict_to_dict (b : Book) : _from_dict (_to_dict b) = inr b.
Proof.
  unfold _from_dict. rewrite parse_optional_to_dict.
  unfold _to_dict; cbn [row_added_at row_isbn row_title row_author
                          row_borrower].
  rewrite parse_isoformat. destruct b; reflexivity.
Qed.

Lemma load_books_save_books (books : list Book) :
  load_books (save_books books) = inr books.
Proof.
  unfold save_books.
  induction books as [|b books IH]; cbn [List.map load_books];
    [reflexivity|].
  rewrite from_dict_to_dict, IH. reflexivity.
Qed.

Lemma to_dict_from_dict (r : Row) (b : Book) :
  _from_dict r = inr b -> row_equiv (_to_dict b) r.
Proof.
  unfold _from_dict.
  destruct (parse (row_added_at r)) as [e|added] eqn:Ea; [discriminate|].
  destruct (parse_optional (row_borrowed_at r)) as [e|borrowed] eqn:Eb;
    [discriminate|].
  intros H; inv H. unfold row_equiv.
  rewrite parse_optional_to_dict.
  unfold _to_dict; cbn. rewrite parse_isoformat. repeat split; congruence.
Qed.

(** C5.  Saving the collection loaded from a stored payload writes a
    payload with as many rows, in the same order, each describing the
    same book as the row it came from; and loading what [save_books]
    wrote gives back every field of every saved book. *)
Theorem storage_round_trip :
  (forall payload books,
      load_books payload = inr books ->
      Forall2 row_equiv (save_books books) payload)
  /\ (forall books, load_books (save_books books) = inr books).
Proof.
  split; [|exact load_books_save_books].
  induction payload as [|r payload IH]; intros books; simpl.
  - intros H; inv H. constructor.
  - destruct (_from_dict r) as [e|b] eqn:Er; [discriminate|].
    destruct (load_books payload) as [e|bs]; [discriminate|].
    intros H; inv H. simpl. constructor.
    + apply to_dict_from_dict; exact Er.
    + apply IH; reflexivity.
Qed.
End Persistence.

(* ===================================================================== *)
(** * The availability invariant *)
(* ===================================================================== *)

Section ConsistentFacts.
Context {U : UnicodeData} {D : DatetimeLib}.

Lemma consistent_checkout (b : Book) (who : str) (now : datetime) :
  consistent (checkout b who now).
Proof. unfold consistent, is_available; simpl. repeat split; discriminate. Qed.

Lemma consistent_checkin (b : Book) : consistent (checkin b).
Proof. unfold consistent, is_available; simpl. repeat split; reflexivity. Qed.

Lemma consistent_fresh (i t a : str) (now : datetime) :
  consistent {| isbn := i; title := t; author := a; added_at := now;
                borrower := None; borrowed_at := None |}.
Proof. unfold consistent, is_available; simpl. repeat split; reflexivity. Qed.

Lemma row_wf_to_dict {L : DatetimeLaws} (b : Book) :
  consistent b -> row_wf (_to_dict b).
Proof.
  unfold consistent, row_wf, _to_dict; simpl. intros [_ [H1 H2]].
  destruct (borrowed_at b) as [t|].
  - split.
    + intros Hb. discriminate (H1 Hb).
    + intros [H|H]; [discriminate|]. inv H.
      exfalso. eapply isoformat_truthy. eassumption.
  - split; [left; reflexivity|]. intros _. apply H2. reflexivity.
Qed.

Lemma consistent_from_dict (r : Row) (b : Book) :
  row_wf r -> _from_dict r = inr b -> consistent b.
Proof.
  unfold row_wf, _from_dict, consistent, is_available.
  destruct (parse (row_added_at r)) as [e|added]; [discriminate|].
  destruct (parse_optional (row_borrowed_at r)) as [e|borrowed] eqn:Eb;
    [discriminate|].
  intros [H1 H2] H; inv H; simpl.
  assert (Hn : borrowed = None
               <-> (row_borrowed_at r = None \/ row_borrowed_at r = Some [])).
  { unfold parse_optional in Eb.
    destruct (row_borrowed_at r) as [[|c s]|].
    - inv Eb. split; auto.
    - destruct (parse (c :: s)); inv Eb.
      split; [discriminate|]. intros [H|H]; discriminate.
    - inv Eb. split; auto. }
  split.
  - destruct (row_borrower r); split; congruence.
  - rewrite Hn. split; assumption.
Qed.

Lemma isbn_from_dict (r : Row) (b : Book) :
  _from_dict r = inr b -> isbn b = row_isbn r.
Proof.
  unfold _from_dict.
  destruct (parse (row_added_at r)); [discriminate|].
  destruct (parse_optional (row_borrowed_at r)); [discriminate|].
  intros H; inv H. reflexivity.
Qed.
End ConsistentFacts.

(** ** Invariants of the entries and of the rows *)

Section EntryInvariant.
Context {U : UnicodeData} {D : DatetimeLib}.

(** [Pb k b]: the entry that holds [b] under [k] is as it should be;
    [Pr]: so is a stored row; [ok_isbn]: the ISBNs that registration,
    import and seeding may be given. *)
Variable Pb : str -> Book -> Prop.
Variable Pr : Row -> Prop.
Variable ok_isbn : str -> Prop.

Hypothesis Pb_to_dict : forall k b, Pb k b -> Pr (_to_dict b).
Hypothesis Pb_from_dict :
  forall r b, Pr r -> _from_dict r = inr b -> Pb (isbn b) b.
Hypothesis Pb_checkout :
  forall k b who now, Pb k b -> Pb k (checkout b who now).
Hypothesis Pb_checkin : forall k b, Pb k b -> Pb k (checkin b).
Hypothesis Pb_rekey :
  forall k b, Pb k b -> Pb (book_key b) (set_isbn b (book_key b)).
Hypothesis Pb_new :
  forall i t a now,
    ok_isbn i ->
    fresh_ok Pb {| isbn := normalize_isbn i; title := t; author := a;
                   added_at := now; borrower := None; borrowed_at := None |}.
Hypothesis ok_seeds :
  Forall (fun e => ok_isbn (entry_isbn e)) default_catalog.

Local Abbreviation safe' := (safe Pb Pr).
Local Abbreviation entries_ok' := (entries_ok Pb).

Local Abbreviation held_ok' := (held_ok Pb).
Local Abbreviation fresh_ok' := (fresh_ok Pb).

Lemma entries_ok_set (k : str) (b : Book) (d : PyDict.dict Book) :
  Pb k b -> entries_ok' d -> entries_ok' (PyDict.set k b d).
Proof.
  unfold entries_ok. rewrite !Forall_forall. intros Hb Hd kv Hin.
  destruct (In_set _ _ _ _ Hin) as [->|H]; [exact Hb|exact (Hd _ H)].
Qed.

Lemma entries_ok_del (k : str) (d : PyDict.dict Book) :
  entries_ok' d -> entries_ok' (PyDict.del k d).
Proof.
  unfold entries_ok. rewrite !Forall_forall. intros Hd kv Hin.
  exact (Hd _ (In_del _ _ _ Hin)).
Qed.

Lemma entries_ok_fold_set (key : Book -> str) (bs : list Book)
      (d : PyDict.dict Book) :
  Forall (fun b => Pb (key b) b) bs -> entries_ok' d ->
  entries_ok' (List.fold_left (fun d b => PyDict.set (key b) b d) bs d).
Proof.
  intros Hbs; revert d; induction Hbs as [|b bs Hb _ IH]; intros d Hd;
    simpl; [exact Hd|].
  apply IH, entries_ok_set; assumption.
Qed.

Lemma entries_ok_get (k : str) (b : Book) (d : PyDict.dict Book) :
  entries_ok' d -> PyDict.get k d = Some b -> Pb k b.
Proof.
  unfold entries_ok. rewrite Forall_forall. intros Hd Hg.
  exact (Hd _ (get_In _ _ Hg)).
Qed.

Lemma entries_ok_values (d : PyDict.dict Book) :
  entries_ok' d -> Forall held_ok' (PyDict.values d).
Proof.
  unfold entries_ok, PyDict.values. intros H.
  induction H as [|[k b] d Hb _ IH]; simpl; constructor;
    [exists k; exact Hb|exact IH].
Qed.

Lemma loaded_ok (payload : list Row) (bs : list Book) :
  Forall Pr payload -> load_books payload = inr bs ->
  Forall (fun b => Pb (isbn b) b) bs.
Proof.
  intros H; revert bs; induction H as [|r payload Hr _ IH]; intros bs;
    simpl.
  - intros E; inv E; constructor.
  - destruct (_from_dict r) as [e|b] eqn:Er; [discriminate|].
    destruct (load_books payload) as [e|bs']; [discriminate|].
    intros E; inv E. constructor.
    + exact (Pb_from_dict Hr Er).
    + apply IH; reflexivity.
Qed.

(** *** Rules for [safe] *)

Lemma safe_ret {A} (a : A) (Q : A -> Prop) : Q a -> safe' (ret a) Q.
Proof. intros H w Hw; split; assumption. Qed.

Lemma safe_raise {A} (e : Exn) (Q : A -> Prop) : safe' (raise e) Q.
Proof. intros w Hw; split; [assumption|exact I]. Qed.

Lemma safe_bind {A B} (c : M A) (k : A -> M B)
      (P : A -> Prop) (Q : B -> Prop) :
  safe' c P -> (forall a, P a -> safe' (k a) Q) -> safe' (bind c k) Q.
Proof.
  intros Hc Hk w Hw. unfold bind.
  destruct (Hc w Hw) as [Hi Hp].
  destruct (c w) as [[e|a] w1]; simpl in *.
  - split; [assumption|exact I].
  - exact (Hk a Hp w1 Hi).
Qed.

Lemma safe_get_books : safe' get_books entries_ok'.
Proof. intros w Hw; split; [assumption|exact (proj1 Hw)]. Qed.

Lemma safe_set_books (d : PyDict.dict Book) :
  entries_ok' d -> safe' (set_books d) (fun _ => True).
Proof.
  intros Hd w [_ Hf]. split; [|exact I]. split; assumption.
Qed.

Lemma safe_utcnow : safe' utcnow (fun _ => True).
Proof. intros w Hw; split; [exact Hw|exact I]. Qed.

Lemma safe_persist : safe' _persist (fun _ => True).
Proof.
  intros w [Hb Hf]. split; [|exact I]. split; [exact Hb|].
  simpl. unfold save_books, PyDict.values. rewrite map_map.
  apply Forall_map. unfold entries_ok in Hb.
  eapply Forall_impl; [|exact Hb].
  intros [k b] H. exact (Pb_to_dict H).
Qed.

Lemma safe_persist_if (flag : bool) :
  safe' (persist_if flag) (fun _ => True).
Proof.
  destruct flag; [exact safe_persist|]. apply safe_ret; exact I.
Qed.

Lemma safe_load : safe' _load (fun _ => True).
Proof.
  intros w [Hb Hf]. unfold _load.
  destruct (load_books (file w)) as [e|bs] eqn:E.
  - split; [split; assumption|exact I].
  - apply safe_set_books; [|split; assumption].
    apply entries_ok_fold_set; [|exact Hb].
    exact (loaded_ok Hf E).
Qed.

Lemma safe_for_each {A B} (f : A -> M B) (P : A -> Prop) (Q : B -> Prop)
      (xs : list A) :
  (forall x, P x -> safe' (f x) Q) -> Forall P xs ->
  safe' (for_each f xs) (Forall Q).
Proof.
  intros Hf Hxs; induction Hxs as [|x xs Hx _ IH]; simpl.
  - apply safe_ret; constructor.
  - eapply safe_bind; [apply Hf, Hx|]. intros y Hy.
    eapply safe_bind; [apply IH|]. intros ys Hys.
    apply safe_ret; constructor; assumption.
Qed.

(** *** The operations *)

Ltac step := eapply safe_bind; [|intros ? ?].

Lemma safe_new_book (i t a : str) :
  ok_isbn i -> safe' (new_book (normalize_isbn i) t a) fresh_ok'.
Proof.
  intros Hi. unfold new_book. step; [apply safe_utcnow|].
  apply safe_ret. exact (Pb_new t a a0 Hi).
Qed.

Lemma safe_get (i : str) : safe' (get i) (Pb (normalize_isbn i)).
Proof.
  unfold get. step; [apply safe_get_books|].
  destruct (PyDict.get (normalize_isbn i) a) as [b|] eqn:E.
  - apply safe_ret. eapply entries_ok_get; eassumption.
  - apply safe_raise.
Qed.

Lemma safe_add (b : Book) (flag : bool) :
  Pb (book_key b) (set_isbn b (book_key b)) -> safe' (add b flag) held_ok'.
Proof.
  intros Hb. unfold add. step; [apply safe_get_books|].
  destruct (PyDict.mem _ a); [apply safe_raise|].
  step; [apply safe_set_books, entries_ok_set; assumption|].
  step; [apply safe_persist_if|].
  apply safe_ret. eexists; exact Hb.
Qed.

Lemma safe_update (b : Book) (flag : bool) :
  Pb (book_key b) (set_isbn b (book_key b)) ->
  safe' (update b flag) held_ok'.
Proof.
  intros Hb. unfold update. step; [apply safe_get_books|].
  destruct (PyDict.mem _ a); [|apply safe_raise].
  step; [apply safe_set_books, entries_ok_set; assumption|].
  step; [apply safe_persist_if|].
  apply safe_ret. eexists; exact Hb.
Qed.

Lemma safe_remove (i : str) (flag : bool) :
  safe' (remove i flag) (fun _ => True).
Proof.
  unfold remove. step; [apply safe_get_books|].
  destruct (PyDict.mem _ a); [|apply safe_raise].
  step; [apply safe_set_books, entries_ok_del; assumption|].
  apply safe_persist_if.
Qed.

Lemma safe_save_all (bs : list Book) :
  Forall (fun b => Pb (book_key b) b) bs ->
  safe' (save_all bs) (fun _ => True).
Proof.
  intros Hbs. unfold save_all. step; [|apply safe_persist].
  apply safe_set_books. unfold PyDict.comprehension.
  apply entries_ok_fold_set; [exact Hbs|constructor].
Qed.

Lemma safe_mutate_held (i : str) (b : Book) :
  Pb (normalize_isbn i) b -> safe' (mutate_held i b) (fun _ => True).
Proof.
  intros Hb. unfold mutate_held. step; [apply safe_get_books|].
  apply safe_set_books, entries_ok_set; assumption.
Qed.

Lemma safe_register_book (cfg : AppConfig) (i t a : str) :
  ok_isbn i -> safe' (register_book cfg i t a) held_ok'.
Proof.
  intros Hi. unfold register_book. step; [apply safe_new_book, Hi|].
  apply safe_add. apply H.
Qed.

Lemma safe_borrow_book (cfg : AppConfig) (i who : str) :
  safe' (borrow_book cfg i who) held_ok'.
Proof.
  unfold borrow_book. step; [apply safe_get|].
  destruct (negb (is_available a)); [apply safe_raise|].
  step; [apply safe_utcnow|].
  step; [apply safe_mutate_held, Pb_checkout, H|].
  apply safe_update. eapply Pb_rekey, Pb_checkout, H.
Qed.

Lemma safe_return_book (cfg : AppConfig) (i : str) :
  safe' (return_book cfg i) held_ok'.
Proof.
  unfold return_book. step; [apply safe_get|].
  destruct (is_available a); [apply safe_raise|].
  step; [apply safe_mutate_held, Pb_checkin, H|].
  apply safe_update. eapply Pb_rekey, Pb_checkin, H.
Qed.

Lemma safe_import_catalog (cfg : AppConfig) (es : list Entry) :
  Forall (fun e => ok_isbn (entry_isbn e)) es ->
  safe' (import_catalog cfg es) (Forall held_ok').
Proof.
  intros Hes. unfold import_catalog.
  step; [eapply safe_for_each; [|exact Hes];
         intros e He; apply safe_new_book, He|].
  step.
  - apply safe_save_all. eapply Forall_impl; [|exact H].
    intros b Hb. apply Hb.
  - apply safe_ret. eapply Forall_impl; [|exact H].
    intros b Hb. eexists; apply Hb.
Qed.

Lemma safe_find_available : safe' find_available (Forall held_ok').
Proof.
  unfold find_available. step; [apply safe_get_books|].
  apply safe_ret. apply entries_ok_values in H.
  rewrite Forall_forall in *. intros b Hb.
  apply filter_In in Hb. apply H, Hb.
Qed.

Lemma safe_initialize_defaults (cfg : AppConfig) :
  safe' (_initialize_defaults cfg) (fun _ => True).
Proof.
  unfold _initialize_defaults, snapshot.
  apply (@safe_bind _ _ _ _ (fun _ => True));
    [step; [apply safe_get_books|apply safe_ret; exact I]|].
  intros books _.
  set (missing := List.filter _ default_catalog).
  assert (Hm : Forall (fun e => ok_isbn (entry_isbn e)) missing).
  { rewrite Forall_forall in *. intros e He.
    apply filter_In in He. apply ok_seeds, He. }
  destruct missing as [|e l]; [apply safe_ret; exact I|].
  step; [|apply safe_ret; exact I].
  eapply (@safe_for_each _ _ _ _ held_ok'); [|exact Hm].
  intros x Hx.
  step; [apply safe_new_book, Hx|]. apply safe_add. apply H.
Qed.

Lemma safe_Service_init (cfg : AppConfig) :
  safe' (Service_init cfg) (fun _ => True).
Proof.
  unfold Service_init, Repository_init.
  step; [|apply safe_initialize_defaults].
  step; [apply safe_set_books; constructor|apply safe_load].
Qed.

Lemma safe_call (cfg : AppConfig) (c : Call) :
  call_ok ok_isbn c -> safe' (call cfg c) (Forall held_ok').
Proof.
  destruct c; cbn [call call_ok]; intros Hc.
  - step; [apply safe_register_book, Hc|]. apply safe_ret; auto.
  - step; [apply safe_remove|]. apply safe_ret; constructor.
  - step; [apply safe_borrow_book|]. apply safe_ret; auto.
  - step; [apply safe_return_book|]. apply safe_ret; auto.
  - step; [apply safe_get|]. apply safe_ret.
    constructor; [eexists; eassumption|constructor].
  - apply safe_find_available.
  - apply safe_import_catalog, Hc.
  - step; [apply safe_save_all; constructor|]. apply safe_ret; constructor.
  - step; [apply safe_Service_init|]. apply safe_ret; constructor.
Qed.

Lemma reachable_from_inv (cfg : AppConfig) (w : World) :
  reachable_from Pr ok_isbn cfg w -> inv Pb Pr w.
Proof.
  induction 1 as [payload t w Hp Hb | c w r w' _ IH Hok Hc].
  - unfold boot in Hb.
    assert (Hi : inv Pb Pr {| _books := []; file := payload; ticks := t |})
      by (split; [constructor|exact Hp]).
    destruct (safe_Service_init cfg Hi) as [H _].
    rewrite Hb in H. exact H.
  - destruct (safe_call cfg c Hok IH) as [H _]. rewrite Hc in H. exact H.
Qed.
End EntryInvariant.

(** ** The availability invariant *)

Section AvailabilityProof.
Context {U : UnicodeData} {D : DatetimeLib} {L : DatetimeLaws}.

Lemma call_ok_any (c : Call) : call_ok any_isbn c.
Proof.
  destruct c; simpl; try exact I.
  apply Forall_forall; intros; exact I.
Qed.

Lemma held_ok_consistent (bs : list Book) :
  Forall (held_ok consistent_entry) bs -> Forall consistent bs.
Proof.
  apply Forall_impl. intros b [k Hb]. exact Hb.
Qed.

Lemma availability_safe_call (cfg : AppConfig) (c : Call) :
  safe consistent_entry row_wf (call cfg c) (Forall (held_ok consistent_entry)).
Proof.
  apply (@safe_call _ _ consistent_entry row_wf any_isbn) ; unfold consistent_entry, any_isbn.
  - intros k b. apply row_wf_to_dict.
  - intros r b. apply consistent_from_dict.
  - intros k b who now _. apply consistent_checkout.
  - intros k b _. apply consistent_checkin.
  - intros k b H. exact H.
  - intros i t a now _. split; apply consistent_fresh.
  - apply Forall_forall; intros; exact I.
  - apply call_ok_any.
Qed.

Lemma reachable_inv (cfg : AppConfig) (w : World) :
  reachable cfg w -> inv consistent_entry row_wf w.
Proof.
  apply (@reachable_from_inv _ _ consistent_entry row_wf any_isbn) ; unfold consistent_entry, any_isbn.
  - intros k b. apply row_wf_to_dict.
  - intros r b. apply consistent_from_dict.
  - intros k b who now _. apply consistent_checkout.
  - intros k b _. apply consistent_checkin.
  - intros k b H. exact H.
  - intros i t a now _. split; apply consistent_fresh.
  - apply Forall_forall; intros; exact I.
Qed.

(** C1.  In every state a service can reach from a well-formed data
    file, every book of the catalog, and every book a further call
    hands out, has [is_available], "no borrower" and "no borrowed_at"
    all true or all false; [checkout] sets the two fields together
    and [checkin] clears them together. *)
Theorem availability_invariant (cfg : AppConfig) (w : World) :
  reachable cfg w ->
  (forall k b, PyDict.get k (_books w) = Some b -> consistent b)
  /\ Forall consistent (PyDict.values (_books w))
  /\ (forall c, Forall consistent (returned (fst (call cfg c w))))
  /\ (forall b who now,
        borrower (checkout b who now) = Some who
        /\ borrowed_at (checkout b who now) = Some now
        /\ consistent (checkout b who now))
  /\ (forall b,
        borrower (checkin b) = None /\ borrowed_at (checkin b) = None
        /\ consistent (checkin b)).
Proof.
  intros Hr. pose proof (reachable_inv Hr) as Hi.
  split; [|split; [|split; [|split]]].
  - intros k b Hg.
    exact (@entries_ok_get _ consistent_entry k b (_books w) (proj1 Hi) Hg).
  - apply held_ok_consistent. apply entries_ok_values. exact (proj1 Hi).
  - intros c. destruct (availability_safe_call cfg c Hi) as [_ H].
    destruct (fst (call cfg c w)); [constructor|].
    apply held_ok_consistent, H.
  - intros b who now. repeat split; try reflexivity;
      apply consistent_checkout.
  - intros b. repeat split; try reflexivity; apply consistent_checkin.
Qed.
End AvailabilityProof.

(** ** The catalog of the data model is what the service keeps *)

Section TidyProof.
Context {U : UnicodeData} {D : DatetimeLib}.

Lemma stable_seeds :
  Forall (fun e => stable_isbn (entry_isbn e)) default_catalog.
Proof. repeat constructor. Qed.

Lemma tidy_new (i t a : str) (now : datetime) :
  stable_isbn i ->
  fresh_ok tidy {| isbn := normalize_isbn i; title := t; author := a;
                   added_at := now; borrower := None; borrowed_at := None |}.
Proof.
  intros Hi. unfold fresh_ok, tidy, book_key. cbn [isbn set_isbn].
  unfold stable_isbn in Hi. rewrite !Hi. repeat split; reflexivity.
Qed.

Lemma tidy_rekey (k : str) (b : Book) :
  tidy k b -> tidy (book_key b) (set_isbn b (book_key b)).
Proof.
  unfold tidy, book_key. intros [-> Hk]. cbn [isbn set_isbn].
  rewrite !Hk. split; reflexivity.
Qed.

(** In every state that a service reaches from a data file of
    normalised ISBNs, when registration and import are given ISBNs
    with a stable normalised form, every key is the [isbn] of its book
    and is in normalised form. *)
Lemma reachable_stable_tidy (cfg : AppConfig) (w : World) :
  reachable_stable cfg w -> inv tidy row_keyed w.
Proof.
  apply (@reachable_from_inv _ _ tidy row_keyed stable_isbn).
  - intros k b [Hb Hk]. unfold row_keyed, _to_dict; cbn [row_isbn].
    rewrite Hb. exact Hk.
  - intros r b Hr Hb. unfold tidy. split; [reflexivity|].
    rewrite (isbn_from_dict _ Hb). exact Hr.
  - intros k b who now H. exact H.
  - intros k b H. exact H.
  - exact tidy_rekey.
  - intros i t a now Hi. exact (tidy_new t a now Hi).
  - exact stable_seeds.
Qed.

(** The mapping of such a state is a catalog of the data model. *)
Lemma reachable_stable_catalog_wf (cfg : AppConfig) (w : World) :
  reachable_stable cfg w -> catalog_wf (_books w) /\ key_is_isbn (_books w).
Proof.
  intros Hr. destruct (reachable_stable_tidy Hr) as [He _].
  split.
  - intros k b Hg. destruct (@entries_ok_get _ tidy k b _ He Hg) as [Hb Hk].
    split; [exact Hk|]. rewrite Hb. exact Hk.
  - intros k b Hg. exact (proj1 (@entries_ok_get _ tidy k b _ He Hg)).
Qed.
End TidyProof.

(* ===================================================================== *)
(** * Seeding *)
(* ===================================================================== *)

Section Seeding.
Context {U : UnicodeData} {D : DatetimeLib}.

Lemma str_in_In (k : str) (l : list str) : str_in k l = true <-> In k l.
Proof.
  unfold str_in. rewrite existsb_exists. split.
  - intros (x & Hx & E). apply str_eqb_eq in E. subst; exact Hx.
  - intros H. exists k. split; [exact H|apply str_eqb_refl].
Qed.

Lemma add_seed_fresh (cfg : AppConfig) (e : Entry) (w : World) :
  PyDict.mem (seed_key e) (_books w) = false ->
  exists b w1,
    add_seed cfg e w = (inr b, w1)
    /\ _books w1 = PyDict.set (seed_key e) b (_books w).
Proof.
  intros Hm. unfold add_seed. run. fold (seed_key e). rewrite Hm.
  destruct (autosave cfg); eexists; eexists; (split; [reflexivity|]);
    reflexivity.
Qed.

Lemma seed_loop (cfg : AppConfig) (l : list Entry) :
  forall w,
    NoDup (List.map seed_key l) ->
    (forall e, In e l -> PyDict.mem (seed_key e) (_books w) = false) ->
    exists bs w',
      for_each (add_seed cfg) l w = (inr bs, w')
      /\ forall k, PyDict.mem k (_books w')
                   = PyDict.mem k (_books w)
                     || str_in k (List.map seed_key l).
Proof.
  induction l as [|e l IH]; intros w Hnd Hfresh.
  - exists [], w. split; [reflexivity|]. intros k. simpl.
    rewrite orb_false_r. reflexivity.
  - inv Hnd.
    destruct (add_seed_fresh cfg e w (Hfresh e (or_introl eq_refl)))
      as (b & w1 & Hadd & Hb1).
    destruct (IH w1) as (bs & w' & Hrun & Hmem); [assumption| |].
    { intros e' He'. rewrite Hb1, mem_set.
      rewrite (Hfresh e' (or_intror He')), orb_false_r.
      apply str_eqb_neq. intros E. apply H1. rewrite <- E.
      apply in_map; exact He'. }
    exists (b :: bs), w'. split.
    + cbn [for_each]. unfold bind at 1. rewrite Hadd.
      unfold bind at 1. rewrite Hrun. reflexivity.
    + intros k. rewrite Hmem, Hb1, mem_set. cbn [List.map str_in existsb].
      fold (str_in k (List.map seed_key l)).
      destruct (PyStr.eqb k (seed_key e)), (PyDict.mem k (_books w));
        reflexivity.
Qed.

Lemma NoDup_map_filter {A B} (f : A -> B) (p : A -> bool) (l : list A) :
  NoDup (List.map f l) -> NoDup (List.map f (List.filter p l)).
Proof.
  induction l as [|x l IH]; simpl; [auto|].
  intros H; inv H. destruct (p x); simpl; [|auto].
  constructor; [|auto]. intros Hin. apply H2.
  apply in_map_iff in Hin. destruct Hin as (y & E & Hy).
  apply filter_In in Hy. rewrite <- E. apply in_map, Hy.
Qed.

Lemma seed_keys :
  List.map seed_key default_catalog
  = List.map entry_isbn default_catalog.
Proof. reflexivity. Qed.

Lemma seed_key_normalized (e : Entry) :
  In e default_catalog -> seed_key e = normalize_isbn (entry_isbn e).
Proof.
  intros H. simpl in H.
  repeat (destruct H as [<-|H]; [reflexivity|]). destruct H.
Qed.

Lemma NoDup_seed_keys : NoDup (List.map seed_key default_catalog).
Proof.
  rewrite seed_keys.
  repeat (constructor;
          [simpl; intros H;
           repeat (destruct H as [H|H]; [discriminate H|]); exact H|]).
  constructor.
Qed.

Lemma keyed_by_isbn_set (b : Book) (d : PyDict.dict Book) :
  keyed_by_isbn d -> keyed_by_isbn (PyDict.set (isbn b) b d).
Proof.
  unfold keyed_by_isbn. rewrite !Forall_forall. intros Hd kv Hin.
  destruct (In_set _ _ _ _ Hin) as [->|H]; [reflexivity|exact (Hd _ H)].
Qed.

Lemma keyed_by_isbn_set_each (bs : list Book) (d : PyDict.dict Book) :
  keyed_by_isbn d -> keyed_by_isbn (set_each bs d).
Proof.
  unfold set_each. revert d; induction bs as [|b bs IH]; intros d Hd;
    simpl; [exact Hd|].
  apply IH, keyed_by_isbn_set, Hd.
Qed.

Lemma existing_isbns_mem (k : str) (d : PyDict.dict Book) :
  keyed_by_isbn d ->
  str_in k (List.map isbn (PyDict.values d)) = PyDict.mem k d.
Proof.
  intros Hd. unfold keyed_by_isbn in Hd. rewrite Forall_forall in Hd.
  destruct (PyDict.mem k d) eqn:E.
  - apply str_in_In. apply mem_get in E. destruct E as [b Hb].
    apply get_In in Hb. pose proof (Hd _ Hb) as Hk. simpl in Hk.
    rewrite Hk. apply in_map. unfold PyDict.values.
    change b with (snd (k, b)). apply in_map. exact Hb.
  - destruct (str_in k _) eqn:F; [|reflexivity].
    apply str_in_In in F. apply in_map_iff in F.
    destruct F as (b & Eb & Hb). unfold PyDict.values in Hb.
    apply in_map_iff in Hb. destruct Hb as ([k0 b0] & E0 & Hin).
    simpl in E0; subst b0. pose proof (Hd _ Hin) as Hk. simpl in Hk.
    subst k0. rewrite Eb in Hin. apply In_mem in Hin. congruence.
Qed.
End Seeding.

Section TopUp.
Context {U : UnicodeData} {D : DatetimeLib}.

Lemma initialize_defaults_tops_up (cfg : AppConfig) (w : World) :
  keyed_by_isbn (_books w) ->
  exists w',
    _initialize_defaults cfg w = (inr tt, w')
    /\ (forall k, PyDict.mem k (_books w) = true ->
                  PyDict.mem k (_books w') = true)
    /\ (forall e, In e default_catalog ->
                  PyDict.mem (normalize_isbn (entry_isbn e)) (_books w')
                  = true).
Proof.
  intros Hk.
  set (missing :=
         List.filter
           (fun e => negb (str_in (normalize_isbn (entry_isbn e))
                                  (List.map isbn (PyDict.values (_books w)))))
           default_catalog).
  assert (Hsplit : forall e, In e default_catalog ->
            In e missing
            \/ PyDict.mem (normalize_isbn (entry_isbn e)) (_books w) = true).
  { intros e He.
    destruct (PyDict.mem (normalize_isbn (entry_isbn e)) (_books w)) eqn:E;
      [right; reflexivity|left].
    apply filter_In. split; [exact He|].
    rewrite existing_isbns_mem, E by exact Hk. reflexivity. }
  assert (Hfresh : forall e, In e missing ->
            PyDict.mem (seed_key e) (_books w) = false).
  { intros e He. apply filter_In in He. destruct He as [He Hn].
    rewrite (@seed_key_normalized _ e He).
    rewrite existing_isbns_mem in Hn by exact Hk.
    destruct (PyDict.mem _ (_books w)); [discriminate|reflexivity]. }
  assert (Hnd : NoDup (List.map seed_key missing))
    by (apply NoDup_map_filter, NoDup_seed_keys).
  destruct (@seed_loop _ _ cfg missing w Hnd Hfresh)
    as (bs & w' & Hrun & Hmem).
  assert (Hall : forall e, In e default_catalog ->
            PyDict.mem (normalize_isbn (entry_isbn e)) (_books w') = true).
  { intros e He. rewrite Hmem. apply orb_true_iff.
    destruct (Hsplit e He) as [Hin|Hin]; [right|left; exact Hin].
    apply str_in_In. rewrite <- (@seed_key_normalized _ e He).
    apply in_map; exact Hin. }
  assert (Hkeep : forall k, PyDict.mem k (_books w) = true ->
            PyDict.mem k (_books w') = true).
  { intros k H. rewrite Hmem, H. reflexivity. }
  unfold _initialize_defaults, snapshot.
  unfold bind at 1. unfold bind at 1. unfold get_books at 1.
  unfold ret at 1. cbv beta iota zeta. fold missing.
  destruct missing as [|e0 l] eqn:Em.
  - simpl in Hrun. inv Hrun. exists w'. auto.
  - exists w'. split; [|auto]. unfold bind at 1.
    change (for_each _ (e0 :: l) w) with (for_each (add_seed cfg) (e0 :: l) w).
    rewrite Hrun. reflexivity.
Qed.

Lemma boot_tops_up (cfg : AppConfig) (payload : list Row) (t : nat)
      (bs : list Book) :
  load_books payload = inr bs ->
  exists w,
    boot cfg payload t = (inr tt, w)
    /\ (forall b, In b bs -> PyDict.mem (isbn b) (_books w) = true)
    /\ (forall e, In e default_catalog ->
                  PyDict.mem (normalize_isbn (entry_isbn e)) (_books w)
                  = true).
Proof.
  intros Hl.
  set (w0 := {| _books := set_each bs []; file := payload; ticks := t |}).
  assert (H0 : Repository_init {| _books := []; file := payload; ticks := t |}
               = (inr tt, w0)).
  { unfold Repository_init, _load. run. rewrite Hl. reflexivity. }
  destruct (@initialize_defaults_tops_up cfg w0)
    as (w & Hrun & Hkeep & Hall).
  { apply keyed_by_isbn_set_each. constructor. }
  exists w. split; [|split; [|exact Hall]].
  - unfold boot, Service_init. unfold bind at 1. rewrite H0. exact Hrun.
  - intros b Hb. apply Hkeep. simpl. apply mem_get.
    unfold set_each. rewrite get_fold_set.
    destruct (List.find _ (rev bs)) as [b0|] eqn:F; [eauto|].
    apply in_rev in Hb. pose proof (find_none _ _ F b Hb) as N.
    cbv beta in N. rewrite str_eqb_refl in N. discriminate.
Qed.
End TopUp.

Section Resurrection.
Context {U : UnicodeData} {D : DatetimeLib} {L : DatetimeLaws}.

(** C4, as amended.  When a default-seed entry is removed from the
    catalog and the removal is saved, a service constructed on the
    resulting data file adds the entry again: after construction the
    removed seed ISBN, like every seed ISBN, is present. *)
Theorem removed_seed_is_added_again
    (cfg : AppConfig) (w w1 : World) (e : Entry) :
  In e default_catalog ->
  autosave cfg = true ->
  remove_book cfg (entry_isbn e) w = (inr tt, w1) ->
  exists w2,
    boot cfg (file w1) (ticks w1) = (inr tt, w2)
    /\ PyDict.mem (normalize_isbn (entry_isbn e)) (_books w2) = true
    /\ forall e', In e' default_catalog ->
                  PyDict.mem (normalize_isbn (entry_isbn e')) (_books w2)
                  = true.
Proof.
  intros He Ha Hr.
  assert (Hf : exists bs, load_books (file w1) = inr bs).
  { revert Hr. run. rewrite Ha.
    destruct (PyDict.mem _ (_books w)); [|discriminate].
    intros H; inv H. cbn [file]. eexists. apply load_books_save_books. }
  destruct Hf as [bs Hbs].
  destruct (boot_tops_up cfg (file w1) (ticks w1) Hbs)
    as (w2 & Hb & _ & Hall).
  exists w2. split; [exact Hb|]. split; [apply Hall; exact He|exact Hall].
Qed.
End Resurrection.

Section RunSeeding.
#[local] Existing Instance ucd_fragment.
#[local] Existing Instance naive_datetime.

(** C4, as stated, fails.  On an empty data file the service seeds
    the five default books; "The Alchemist" is removed and the removal
    saved, which leaves four rows; the service constructed next on
    that file holds the ISBN again. *)
Lemma removed_seed_resurrected :
  let cfg := {| autosave := true |} in
  let i := lit "9780143127741" in
  let w0 := snd (boot cfg [] 0) in
  let w1 := snd (remove_book cfg i w0) in
  let w2 := snd (boot cfg (file w1) (ticks w1)) in
  fst (boot cfg [] 0) = inr tt
  /\ PyDict.mem i (_books w0) = true
  /\ fst (remove_book cfg i w0) = inr tt
  /\ PyDict.mem i (_books w1) = false
  /\ List.length (file w1) = 4
  /\ fst (boot cfg (file w1) (ticks w1)) = inr tt
  /\ PyDict.mem (normalize_isbn i) (_books w2) = true.
Proof. vm_compute. repeat split. Qed.
End RunSeeding.

(* ===================================================================== *)
(** * The keys of the repository *)
(* ===================================================================== *)

Section RepositoryKeys.
Context {U : UnicodeData} {D : DatetimeLib}.

Lemma books_after_add (b : Book) (flag : bool) (w : World) :
  _books (snd (add b flag w))
  = let key := normalize_isbn (isbn b) in
    if PyDict.mem key (_books w) then _books w
    else PyDict.set key (set_isbn b key) (_books w).
Proof.
  run. destruct (PyDict.mem _ (_books w)); [reflexivity|].
  destruct flag; reflexivity.
Qed.

Lemma books_after_update (b : Book) (flag : bool) (w : World) :
  _books (snd (update b flag w))
  = let key := normalize_isbn (isbn b) in
    if PyDict.mem key (_books w)
    then PyDict.set key (set_isbn b key) (_books w)
    else _books w.
Proof.
  run. destruct (PyDict.mem _ (_books w)); [|reflexivity].
  destruct flag; reflexivity.
Qed.

Lemma books_after_save_all (bs : list Book) (w : World) :
  _books (snd (save_all bs w)) = PyDict.comprehension book_key bs.
Proof. reflexivity. Qed.

Lemma books_after_discard {A} (c : M A) (w : World) :
  _books (snd ((c ;;; ret tt) w)) = _books (snd (c w)).
Proof. unfold bind, ret. destruct (c w) as [[e|a] w']; reflexivity. Qed.

Lemma catalog_wf_set (k : str) (b : Book) (d : PyDict.dict Book) :
  normalize_isbn k = k -> normalize_isbn (isbn b) = k ->
  catalog_wf d -> catalog_wf (PyDict.set k b d).
Proof.
  intros Hk Hb Hd k' b'. rewrite get_set.
  destruct (PyStr.eqb k' k) eqn:E.
  - apply str_eqb_eq in E. intros H. injection H as <-. rewrite E.
    split; assumption.
  - apply Hd.
Qed.

Lemma key_is_isbn_set (k : str) (b : Book) (d : PyDict.dict Book) :
  isbn b = k -> key_is_isbn d -> key_is_isbn (PyDict.set k b d).
Proof.
  intros Hb Hd k' b'. rewrite get_set.
  destruct (PyStr.eqb k' k) eqn:E.
  - apply str_eqb_eq in E. intros H. injection H as <-. rewrite E.
    exact Hb.
  - apply Hd.
Qed.

Lemma catalog_wf_comprehension (bs : list Book) :
  Forall (fun b => stable_isbn (isbn b)) bs ->
  catalog_wf (PyDict.comprehension book_key bs).
Proof.
  intros Hbs k b. rewrite get_comprehension. intros Hf.
  apply find_some in Hf. destruct Hf as [Hin Hk].
  apply in_rev in Hin. apply str_eqb_eq in Hk. unfold book_key in Hk.
  rewrite Forall_forall in Hbs. specialize (Hbs b Hin).
  subst k. split; [|reflexivity]. exact Hbs.
Qed.

Lemma repo_op_catalog_wf (o : RepoOp) (w : World) :
  stable_op o -> catalog_wf (_books w) ->
  catalog_wf (_books (snd (repo_op o w))).
Proof.
  destruct o as [b flag|b flag|bs]; cbn [repo_op stable_op]; intros Ha Hw.
  - rewrite books_after_discard, books_after_add. cbv zeta.
    destruct (PyDict.mem _ (_books w)); [exact Hw|].
    apply catalog_wf_set; [| |exact Hw];
      exact Ha.
  - rewrite books_after_discard, books_after_update. cbv zeta.
    destruct (PyDict.mem _ (_books w)); [|exact Hw].
    apply catalog_wf_set; [| |exact Hw];
      exact Ha.
  - rewrite books_after_save_all. apply catalog_wf_comprehension, Ha.
Qed.

Lemma repo_op_key_is_isbn (o : RepoOp) (w : World) :
  writes_isbn o -> key_is_isbn (_books w) ->
  key_is_isbn (_books (snd (repo_op o w))).
Proof.
  destruct o as [b flag|b flag|bs]; cbn [repo_op writes_isbn];
    intros Ha Hw; [| |destruct Ha].
  - rewrite books_after_discard, books_after_add. cbv zeta.
    destruct (PyDict.mem _ (_books w)); [exact Hw|].
    apply key_is_isbn_set; [reflexivity|exact Hw].
  - rewrite books_after_discard, books_after_update. cbv zeta.
    destruct (PyDict.mem _ (_books w)); [|exact Hw].
    apply key_is_isbn_set; [reflexivity|exact Hw].
Qed.

Lemma repo_ops_catalog_wf (os : list RepoOp) (w : World) :
  Forall stable_op os -> catalog_wf (_books w) ->
  catalog_wf (_books (repo_ops os w)).
Proof.
  intros H; revert w; induction H as [|o os Ho _ IH]; intros w Hw;
    simpl; [exact Hw|].
  apply IH, repo_op_catalog_wf; assumption.
Qed.

Lemma repo_ops_key_is_isbn (os : list RepoOp) (w : World) :
  Forall writes_isbn os -> key_is_isbn (_books w) ->
  key_is_isbn (_books (repo_ops os w)).
Proof.
  intros H; revert w; induction H as [|o os Ho _ IH]; intros w Hw;
    simpl; [exact Hw|].
  apply IH, repo_op_key_is_isbn; assumption.
Qed.

(** What the three operations do keep.  After any sequence of [add],
    [update] and [save_all] on an empty repository, with ISBNs whose normalised
    form is stable (every ISBN made of ASCII characters is such, see
    [stable_isbn_ascii]), every key of the mapping is in normalised
    form and is the normalised ISBN of the book it holds.  [add] and
    [update] overwrite the [isbn] of the book with the key, so that
    after a sequence of these two the key is the stored [isbn] itself;
    [save_all] files each book as it is given, under the normalised
    form of its [isbn]. *)
Theorem repository_keys_normalized
    (os : list RepoOp) (w0 : World) (k : str) (b : Book) :
  _books w0 = [] ->
  Forall stable_op os ->
  PyDict.get k (_books (repo_ops os w0)) = Some b ->
  normalize_isbn k = k
  /\ normalize_isbn (isbn b) = k
  /\ (Forall writes_isbn os -> isbn b = k)
  /\ (forall bs w k',
        PyDict.get k' (_books (snd (save_all bs w)))
        = List.find (fun x => PyStr.eqb k' (normalize_isbn (isbn x)))
                    (rev bs)).
Proof.
  intros H0 Ha Hg.
  assert (W : catalog_wf (_books (repo_ops os w0))).
  { apply repo_ops_catalog_wf; [exact Ha|].
    rewrite H0. intros k' b' H; discriminate H. }
  destruct (W _ _ Hg) as [W1 W2].
  split; [exact W1|]. split; [exact W2|]. split.
  - intros Hw.
    assert (K : key_is_isbn (_books (repo_ops os w0))).
    { apply repo_ops_key_is_isbn; [exact Hw|].
      rewrite H0. intros k' b' H; discriminate H. }
    exact (K _ _ Hg).
  - intros bs w k'. rewrite books_after_save_all.
    apply get_comprehension.
Qed.
End RepositoryKeys.

(* ===================================================================== *)
(** * Runs on the executable instances *)
(* ===================================================================== *)

Lemma run_ok {S A} (p : result A * S) (a : A) :
  fst p = inr a -> p = (inr a, snd p).
Proof. destruct p as [r s]; simpl; intros ->; reflexivity. Qed.

Section CatalogCheck.
Context {U : UnicodeData} {D : DatetimeLib}.

Lemma catalog_wfb_sound (d : PyDict.dict Book) :
  catalog_wfb d = true -> catalog_wf d.
Proof.
  unfold catalog_wfb. rewrite forallb_forall. intros H k b Hg.
  specialize (H _ (get_In _ _ Hg)). simpl in H.
  apply andb_true_iff in H. destruct H as [H1 H2].
  apply str_eqb_eq in H1, H2. split; assumption.
Qed.
End CatalogCheck.

Section Runs.
#[local] Existing Instance ucd_fragment.
#[local] Existing Instance naive_datetime.

Lemma held_get (i : str) (w : World) :
  PyDict.mem (normalize_isbn i) (_books w) = true ->
  PyDict.get (normalize_isbn i) (_books w) = Some (held i w).
Proof.
  unfold PyDict.mem, held.
  destruct (PyDict.get (normalize_isbn i) (_books w)); [reflexivity|].
  discriminate.
Qed.

Lemma availability_invariant_witness :
  let w := snd (call cfg_on (CallBorrow alchemist (lit "Alice")) w_seeded) in
  reachable cfg_on w /\ Forall consistent (PyDict.values (_books w)).
Proof.
  intros w.
  assert (R : reachable cfg_on w).
  { apply (@reach_call _ _ row_wf (fun _ => True) cfg_on
                       (CallBorrow alchemist (lit "Alice")) w_seeded
                       (fst (call cfg_on (CallBorrow alchemist (lit "Alice"))
                                  w_seeded))).
    - apply (@reach_boot _ _ row_wf (fun _ => True) cfg_on [] 0);
        [constructor|].
      apply (@run_ok _ _ (boot cfg_on [] 0) tt). vm_compute. reflexivity.
    - exact I.
    - apply surjective_pairing. }
  split; [exact R|].
  exact (proj1 (proj2 (@availability_invariant
                         _ _ naive_datetime_laws cfg_on w R))).
Defined.

Lemma borrow_book_once_witness :
  catalog_wf (_books w_seeded)
  /\ is_available (held alchemist w_seeded) = true
  /\ exists b' w',
       borrow_book cfg_on alchemist (lit "Alice") w_seeded = (inr b', w')
       /\ borrower b' = Some (lit "Alice").
Proof.
  assert (W : catalog_wf (_books w_seeded))
    by (apply catalog_wfb_sound; vm_compute; reflexivity).
  assert (G : PyDict.get (normalize_isbn alchemist) (_books w_seeded)
              = Some (held alchemist w_seeded))
    by (apply held_get; vm_compute; reflexivity).
  assert (A : is_available (held alchemist w_seeded) = true)
    by (vm_compute; reflexivity).
  split; [exact W|]. split; [exact A|].
  destruct (proj1 (@borrow_book_once _ _ cfg_on w_seeded alchemist
                                     (lit "Alice") _ W G) A)
    as (b' & w' & H1 & H2 & _).
  exists b', w'. split; assumption.
Defined.

Lemma register_existing_isbn_rejected_witness :
  catalog_wf (_books w_seeded)
  /\ PyDict.mem (normalize_isbn alchemist) (_books w_seeded) = true
  /\ exists msg w',
       register_book cfg_on alchemist (lit "Again") (lit "Nobody") w_seeded
       = (inl (BookAlreadyExistsError msg), w')
       /\ _books w' = _books w_seeded /\ file w' = file w_seeded.
Proof.
  assert (W : catalog_wf (_books w_seeded))
    by (apply catalog_wfb_sound; vm_compute; reflexivity).
  assert (P : PyDict.mem (normalize_isbn alchemist) (_books w_seeded) = true)
    by (vm_compute; reflexivity).
  split; [exact W|]. split; [exact P|].
  exact (@register_existing_isbn_rejected
           _ _ cfg_on w_seeded alchemist (lit "Again") (lit "Nobody") W P).
Defined.

Lemma return_book_once_witness :
  catalog_wf (_books w_borrowed)
  /\ borrower (held alchemist w_borrowed) <> None
  /\ exists b' w',
       return_book cfg_on alchemist w_borrowed = (inr b', w')
       /\ borrower b' = None /\ borrowed_at b' = None.
Proof.
  assert (W : catalog_wf (_books w_borrowed))
    by (apply catalog_wfb_sound; vm_compute; reflexivity).
  assert (G : PyDict.get (normalize_isbn alchemist) (_books w_borrowed)
              = Some (held alchemist w_borrowed))
    by (apply held_get; vm_compute; reflexivity).
  assert (B : borrower (held alchemist w_borrowed) <> None)
    by (vm_compute; discriminate).
  split; [exact W|]. split; [exact B|].
  destruct (proj2 (@return_book_once _ _ cfg_on w_borrowed alchemist _ W G) B)
    as (b' & w' & H1 & H2 & H3 & _).
  exists b', w'. repeat split; assumption.
Defined.

Lemma removed_seed_is_added_again_witness :
  In the_alchemist default_catalog
  /\ remove_book cfg_on (entry_isbn the_alchemist) w_seeded
     = (inr tt, w_removed)
  /\ exists w2,
       boot cfg_on (file w_removed) (ticks w_removed) = (inr tt, w2)
       /\ PyDict.mem (normalize_isbn (entry_isbn the_alchemist)) (_books w2)
          = true.
Proof.
  assert (I : In the_alchemist default_catalog) by (left; reflexivity).
  assert (F : fst (remove_book cfg_on (entry_isbn the_alchemist) w_seeded)
              = inr tt) by (vm_compute; reflexivity).
  assert (R : remove_book cfg_on (entry_isbn the_alchemist) w_seeded
              = (inr tt, w_removed)) by (exact (run_ok _ F)).
  split; [exact I|]. split; [exact R|].
  destruct (@removed_seed_is_added_again
              _ _ naive_datetime_laws cfg_on w_seeded w_removed
              the_alchemist I eq_refl R)
    as (w2 & H1 & H2 & _).
  exists w2. split; assumption.
Defined.

Lemma storage_round_trip_witness :
  load_books (save_books (PyDict.values (_books w_borrowed)))
  = inr (PyDict.values (_books w_borrowed)).
Proof.
  exact (proj2 (@storage_round_trip _ naive_datetime_laws)
               (PyDict.values (_books w_borrowed))).
Defined.

Lemma repository_keys_normalized_witness :
  let os := [OpAdd raw_book true; OpUpdate raw_book false] in
  let w := repo_ops os w_empty in
  let k := normalize_isbn (lit "978-0") in
  Forall stable_op os
  /\ PyDict.mem k (_books w) = true
  /\ normalize_isbn k = k
  /\ isbn (held (lit "978-0") w) = k.
Proof.
  intros os w k.
  assert (A : Forall stable_op os) by (repeat constructor).
  assert (P : PyDict.mem k (_books w) = true) by (vm_compute; reflexivity).
  split; [exact A|]. split; [exact P|].
  destruct (@repository_keys_normalized
              _ _ os w_empty k (held (lit "978-0") w) eq_refl A
              (held_get (lit "978-0") w P))
    as (H1 & _ & H3 & _).
  split; [exact H1|]. apply H3. repeat constructor.
Defined.

(** C9.  The code fails the claim at [save_all], which files a book
    under its normalised ISBN and does not write the key back into the
    book, as its siblings [add] and [update] do.  On an empty
    repository, [save_all] of one book with the ISBN ["978-0"] leaves
    the key ["9780"] holding a book whose [isbn] is still ["978-0"];
    [add] of the same book leaves the [isbn] ["9780"]. *)
Lemma save_all_keeps_isbn :
  let w := repo_ops [OpSaveAll [raw_book]] w_empty in
  let w_add := repo_ops [OpAdd raw_book true] w_empty in
  PyDict.keys (_books w) = [lit "9780"]
  /\ List.map isbn (PyDict.values (_books w)) = [lit "978-0"]
  /\ option_map isbn (PyDict.get (lit "9780") (_books w))
     = Some (lit "978-0")
  /\ lit "978-0" <> lit "9780"
  /\ PyDict.keys (_books w_add) = [lit "9780"]
  /\ List.map isbn (PyDict.values (_books w_add)) = [lit "9780"].
Proof.
  vm_compute. split; [reflexivity|]. split; [reflexivity|].
  split; [reflexivity|]. split; [discriminate|].
  split; reflexivity.
Qed.

(** Above ASCII a key need not be in normalised form: [add] files the
    ISBN U+01F0 under U+004A U+030C, which normalises to U+004A. *)
Example add_key_above_ascii :
  let j := set_isbn raw_book [496%N] in
  let w' := repo_ops [OpAdd j true] w_empty in
  PyDict.keys (_books w') = [[74%N; 780%N]]
  /\ normalize_isbn [74%N; 780%N] <> [74%N; 780%N].
Proof. vm_compute. split; [reflexivity|discriminate]. Qed.

(** Two entries whose ISBNs normalise to the same key: both books are
    returned, the mapping keeps one key and the title of the last. *)
Example import_catalog_duplicate :
  let es := [entry "1-2" "First" "A"; entry "12" "Second" "B"] in
  let r := import_catalog cfg_on es w_seeded in
  List.map title (returned (fst r)) = [lit "First"; lit "Second"]
  /\ PyDict.keys (_books (snd r)) = [lit "12"]
  /\ List.map title (PyDict.values (_books (snd r))) = [lit "Second"]
  /\ List.map row_title (file (snd r)) = [lit "Second"].
Proof. vm_compute. repeat split. Qed.
End Runs.

(* ===================================================================== *)
(** * app/utils.py: [chunked] *)
(* ===================================================================== *)

Unset Implicit Arguments.

Section ChunkedFacts.
Variable A : Type.
Implicit Types (l : list A) (n s fuel : nat).

Lemma slice_from l s n : slice l s (s + n) = firstn n (skipn s l).
Proof. unfold slice. replace (s + n - s) with n by lia. reflexivity. Qed.

Lemma range_from_stop fuel s stop n :
  stop <= s -> range_from fuel s stop n = [].
Proof.
  intros H. destruct fuel; simpl; [reflexivity|].
  destruct (Nat.ltb_spec s stop); [lia|reflexivity].
Qed.

Lemma range_from_step fuel s stop n :
  s < stop ->
  range_from (S fuel) s stop n = s :: range_from fuel (s + n) stop n.
Proof.
  intros H. simpl. destruct (Nat.ltb_spec s stop); [reflexivity|lia].
Qed.

Lemma chunks_from_concat l n :
  0 < n ->
  forall fuel s,
    List.length l <= fuel + s ->
    List.concat (chunks_from l n fuel s) = skipn s l.
Proof.
  intros Hn. unfold chunks_from.
  induction fuel as [|fuel IH]; intros s Hf.
  - simpl. rewrite skipn_all2 by lia. reflexivity.
  - destruct (Nat.lt_ge_cases s (List.length l)) as [Hs|Hs].
    + rewrite range_from_step by exact Hs. cbn [List.map List.concat].
      rewrite IH by lia. rewrite slice_from.
      replace (s + n) with (n + s) by lia.
      rewrite <- skipn_skipn. apply firstn_skipn.
    + rewrite range_from_stop by exact Hs. simpl.
      rewrite skipn_all2 by lia. reflexivity.
Qed.

Lemma chunks_from_sizes l n :
  0 < n ->
  forall fuel s,
    Forall (fun c => 1 <= List.length c <= n) (chunks_from l n fuel s)
    /\ Forall (fun c => List.length c = n)
              (removelast (chunks_from l n fuel s)).
Proof.
  intros Hn. unfold chunks_from.
  induction fuel as [|fuel IH]; intros s; [split; constructor|].
  destruct (Nat.lt_ge_cases s (List.length l)) as [Hs|Hs].
  - rewrite range_from_step by exact Hs. cbn [List.map].
    destruct (IH (s + n)) as [IH1 IH2]. split.
    + constructor; [|exact IH1].
      rewrite slice_from, length_firstn, length_skipn. lia.
    + destruct fuel as [|fuel']; [constructor|].
      destruct (Nat.lt_ge_cases (s + n) (List.length l)) as [Hs'|Hs'].
      * rewrite range_from_step in * by exact Hs'. cbn [List.map] in *.
        cbn [removelast]. constructor; [|exact IH2].
        rewrite slice_from, length_firstn, length_skipn. lia.
      * rewrite range_from_stop by exact Hs'. constructor.
  - rewrite range_from_stop by exact Hs. split; constructor.
Qed.

Lemma chunks_from_count l n :
  0 < n ->
  forall fuel s,
    List.length l <= fuel + s ->
    List.length l - s <= List.length (chunks_from l n fuel s) * n
    /\ (List.length (chunks_from l n fuel s) = 0
        \/ exists j, List.length (chunks_from l n fuel s) = S j
                     /\ j * n < List.length l - s).
Proof.
  intros Hn. unfold chunks_from.
  induction fuel as [|fuel IH]; intros s Hf.
  - simpl. split; [lia|left; reflexivity].
  - destruct (Nat.lt_ge_cases s (List.length l)) as [Hs|Hs].
    + rewrite range_from_step by exact Hs. cbn [List.map List.length].
      destruct (IH (s + n)) as [I1 I2]; [lia|].
      rewrite Nat.mul_succ_l. split; [lia|]. right.
      eexists. split; [reflexivity|].
      destruct I2 as [E|(j & E & Hj)]; rewrite E.
      * simpl. lia.
      * rewrite Nat.mul_succ_l. lia.
    + rewrite range_from_stop by exact Hs. simpl.
      split; [lia|left; reflexivity].
Qed.

(** X1.  [chunked] refuses a size that is not positive with [ValueError].
    For a positive size the chunks, joined in order, give the sequence
    back; no chunk is empty or longer than the size; every chunk but
    the last has exactly the size; and there are as many chunks as the
    length divided by the size, rounded up. *)
Theorem chunked_partitions (l : list A) (size : Z) :
  ((size <= 0)%Z -> chunked l size = inl ValueError)
  /\ ((0 < size)%Z ->
      exists cs,
        chunked l size = inr cs
        /\ List.concat cs = l
        /\ Forall (fun c => 1 <= List.length c <= Z.to_nat size) cs
        /\ Forall (fun c => List.length c = Z.to_nat size) (removelast cs)
        /\ List.length cs * Z.to_nat size < List.length l + Z.to_nat size
        /\ List.length l <= List.length cs * Z.to_nat size).
Proof.
  unfold chunked. split; intros H.
  - destruct (Z.leb_spec size 0); [reflexivity|lia].
  - destruct (Z.leb_spec size 0); [lia|].
    assert (Hn : 0 < Z.to_nat size) by lia.
    eexists. split; [reflexivity|].
    change (List.map _ (range 0 (List.length l) (Z.to_nat size)))
      with (chunks_from l (Z.to_nat size) (List.length l) 0).
    split; [exact (chunks_from_concat l _ Hn (List.length l) 0 ltac:(lia))|].
    destruct (chunks_from_sizes l _ Hn (List.length l) 0) as [S1 S2].
    split; [exact S1|]. split; [exact S2|].
    destruct (chunks_from_count l _ Hn (List.length l) 0 ltac:(lia))
      as [C1 [C2|(j & C2 & Hj)]]; rewrite C2 in *.
    + split; lia.
    + rewrite Nat.mul_succ_l in *. split; lia.
Qed.
End ChunkedFacts.

Example chunked_five_by_two :
  chunked [1; 2; 3; 4; 5] 2%Z = inr [[1; 2]; [3; 4]; [5]]
  /\ chunked [1; 2; 3] 0%Z = inl ValueError.
Proof. split; reflexivity. Qed.

(* ===================================================================== *)
(** * app/utils.py: [tabulate] *)
(* ===================================================================== *)

Section TabulateFacts.
Implicit Types (ws : list nat) (row : list str) (rows : list (list str)).

Lemma length_list_set {A} (idx : nat) (x : A) (l : list A) :
  List.length (list_set idx x l) = List.length l.
Proof.
  revert idx; induction l as [|y l IH]; intros [|idx]; simpl; auto.
Qed.

Lemma nth_list_set_same ws idx x :
  idx < List.length ws -> nth idx (list_set idx x ws) 0 = x.
Proof.
  revert idx; induction ws as [|y ws IH]; intros idx H; simpl in H;
    [lia|].
  destruct idx as [|idx]; simpl; [reflexivity|]. apply IH. lia.
Qed.

Lemma nth_list_set_other ws idx i x :
  i <> idx -> nth i (list_set idx x ws) 0 = nth i ws 0.
Proof.
  revert idx i; induction ws as [|y ws IH]; intros idx i H;
    [destruct idx; reflexivity|].
  destruct idx as [|idx], i as [|i]; simpl; try reflexivity;
    [congruence|]. apply IH. congruence.
Qed.

Lemma widen_length idx row ws ws' :
  widen idx row ws = Some ws' -> List.length ws' = List.length ws.
Proof.
  revert idx ws; induction row as [|v row IH]; intros idx ws; simpl.
  - intros H; inv H; reflexivity.
  - destruct (nth_error ws idx); [|discriminate].
    intros H. rewrite (IH _ _ H). apply length_list_set.
Qed.

Lemma widen_grows idx row ws ws' :
  widen idx row ws = Some ws' -> forall i, nth i ws 0 <= nth i ws' 0.
Proof.
  revert idx ws; induction row as [|v row IH]; intros idx ws; simpl.
  - intros H; inv H; auto.
  - destruct (nth_error ws idx) as [w|] eqn:E; [|discriminate].
    intros H i. specialize (IH _ _ H i).
    destruct (Nat.eq_dec i idx) as [->|Hi].
    + rewrite nth_list_set_same in IH
        by (apply nth_error_Some; congruence).
      rewrite (nth_error_nth _ _ 0 E). lia.
    + rewrite nth_list_set_other in IH by exact Hi. exact IH.
Qed.

Lemma widen_fits idx row ws ws' :
  widen idx row ws = Some ws' ->
  forall j, j < List.length row ->
            List.length (nth j row []) <= nth (idx + j) ws' 0.
Proof.
  revert idx ws; induction row as [|v row IH]; intros idx ws; simpl.
  - intros _ j Hj; lia.
  - destruct (nth_error ws idx) as [w|] eqn:E; [|discriminate].
    intros H [|j] Hj.
    + pose proof (widen_grows _ _ _ _ H idx) as G.
      rewrite nth_list_set_same in G by (apply nth_error_Some; congruence).
      rewrite Nat.add_0_r. lia.
    + replace (idx + S j) with (S idx + j) by lia.
      apply (IH _ _ H). lia.
Qed.

Lemma widen_succeeds idx row ws :
  idx + List.length row <= List.length ws ->
  exists ws', widen idx row ws = Some ws'.
Proof.
  revert idx ws; induction row as [|v row IH]; intros idx ws H; simpl in *.
  - eexists; reflexivity.
  - destruct (nth_error ws idx) as [w|] eqn:E.
    + apply IH. rewrite length_list_set. lia.
    + apply nth_error_None in E. lia.
Qed.

Lemma widen_fails idx row ws :
  List.length ws < idx + List.length row -> row <> [] ->
  widen idx row ws = None.
Proof.
  revert idx ws; induction row as [|v row IH]; intros idx ws H Hr;
    [congruence|]. simpl in *.
  destruct (nth_error ws idx) as [w|] eqn:E; [|reflexivity].
  apply IH; [rewrite length_list_set; lia|].
  destruct row; [|discriminate]. simpl in H.
  assert (idx < List.length ws) by (apply nth_error_Some; congruence). lia.
Qed.

(** The widths that the rows leave: as many as before, none smaller,
    every cell fits its column. *)
Lemma widen_all_ok rows ws :
  Forall (fun row => List.length row <= List.length ws) rows ->
  exists ws',
    widen_all rows ws = Some ws'
    /\ List.length ws' = List.length ws
    /\ (forall i, nth i ws 0 <= nth i ws' 0)
    /\ Forall (fun row => forall j, j < List.length row ->
                 List.length (nth j row []) <= nth j ws' 0) rows.
Proof.
  intros H; revert ws H; induction rows as [|row rows IH]; intros ws H.
  - exists ws. repeat split; auto.
  - inv H. simpl.
    destruct (widen_succeeds 0 row ws ltac:(simpl; lia)) as [ws1 E1].
    rewrite E1. pose proof (widen_length _ _ _ _ E1) as L1.
    destruct (IH ws1) as (ws' & E & L & G & F).
    { rewrite L1. exact H3. }
    exists ws'. split; [exact E|]. split; [congruence|]. split.
    + intros i. pose proof (widen_grows _ _ _ _ E1 i). specialize (G i). lia.
    + constructor; [|exact F].
      intros j Hj. pose proof (widen_fits _ _ _ _ E1 j Hj) as Fj.
      simpl in Fj. specialize (G j). lia.
Qed.

Lemma widen_all_fails rows ws :
  Exists (fun row => List.length ws < List.length row) rows ->
  widen_all rows ws = None.
Proof.
  intros H; revert ws H; induction rows as [|row rows IH]; intros ws H;
    [inv H|]. simpl.
  destruct (widen 0 row ws) as [ws1|] eqn:E1; [|reflexivity].
  inv H.
  - rewrite widen_fails in E1; [discriminate|simpl; lia|].
    destruct row; [simpl in *; lia|discriminate].
  - apply IH. rewrite (widen_length _ _ _ _ E1). exact H1.
Qed.

Lemma length_join (sep : str) (parts : list str) :
  List.length (join sep parts)
  = list_sum (List.map (@List.length codepoint) parts)
    + List.length sep * (List.length parts - 1).
Proof.
  induction parts as [|p parts IH]; [simpl; lia|].
  destruct parts as [|q parts].
  - simpl. lia.
  - change (join sep (p :: q :: parts)) with (p ++ sep ++ join sep (q :: parts)).
    rewrite !length_app, IH. cbn [List.map list_sum List.length].
    replace (S (S (List.length parts)) - 1) with (S (List.length parts))
      by lia.
    replace (S (List.length parts) - 1) with (List.length parts) by lia.
    rewrite Nat.mul_succ_r. simpl list_sum. lia.
Qed.

Lemma length_ljust (s : str) (w : nat) :
  List.length (ljust s w) = Nat.max (List.length s) w.
Proof. unfold ljust. rewrite length_app, repeat_length. lia. Qed.

Lemma fmt_cells_ok ws idx (values : list str) :
  idx + List.length values <= List.length ws ->
  (forall j, j < List.length values ->
             List.length (nth j values []) <= nth (idx + j) ws 0) ->
  exists cells,
    fmt_cells ws idx values = Some cells
    /\ List.map (@List.length codepoint) cells
       = firstn (List.length values) (skipn idx ws).
Proof.
  revert idx; induction values as [|v values IH]; intros idx Hl Hf.
  - exists []. split; reflexivity.
  - simpl in Hl. cbn [fmt_cells].
    destruct (nth_error ws idx) as [w|] eqn:E;
      [|apply nth_error_None in E; lia].
    destruct (IH (S idx)) as (cells & Ec & Lc); [lia| |].
    { intros j Hj. specialize (Hf (S j) ltac:(simpl; lia)).
      simpl in Hf. replace (S idx + j) with (idx + S j) by lia. exact Hf. }
    rewrite Ec. eexists. split; [reflexivity|].
    cbn [List.map List.length]. rewrite Lc, length_ljust.
    specialize (Hf 0 ltac:(simpl; lia)). simpl in Hf.
    rewrite Nat.add_0_r, (nth_error_nth _ _ 0 E) in Hf.
    rewrite Nat.max_r by exact Hf.
    assert (Hs : skipn idx ws = w :: skipn (S idx) ws).
    { clear -E. revert idx E; induction ws as [|y ws IH]; intros [|idx] E;
        simpl in *; try discriminate; [congruence|]. apply IH, E. }
    rewrite Hs. reflexivity.
Qed.

Lemma fmt_line_full ws (values : list str) :
  List.length values = List.length ws ->
  (forall j, j < List.length values ->
             List.length (nth j values []) <= nth j ws 0) ->
  exists line,
    fmt_line ws values = Some line /\ List.length line = line_width ws.
Proof.
  intros Hl Hf. unfold fmt_line.
  destruct (fmt_cells_ok ws 0 values ltac:(simpl; lia) Hf) as (cells & E & L).
  rewrite E. eexists. split; [reflexivity|].
  simpl skipn in L. rewrite Hl, firstn_all in L.
  assert (Lc : List.length cells = List.length ws)
    by (rewrite <- L; symmetry; apply length_map).
  rewrite length_join, L, Lc. reflexivity.
Qed.

Lemma fmt_line_short ws (values : list str) :
  List.length values <= List.length ws ->
  exists line, fmt_line ws values = Some line.
Proof.
  intros Hl. unfold fmt_line.
  assert (H : forall idx, idx + List.length values <= List.length ws ->
                          exists cells, fmt_cells ws idx values = Some cells).
  { clear Hl. induction values as [|v values IH]; intros idx H.
    - eexists; reflexivity.
    - simpl in *. destruct (nth_error ws idx) eqn:E;
        [|apply nth_error_None in E; lia].
      destruct (IH (S idx) ltac:(lia)) as [cells Ec]. rewrite Ec.
      eexists; reflexivity. }
  destruct (H 0 Hl) as [cells Ec]. rewrite Ec. eexists; reflexivity.
Qed.

Lemma rule_width ws :
  List.length (join (lit "-+-") (List.map (fun w => List.repeat dash w) ws))
  = line_width ws.
Proof.
  rewrite length_join, !length_map, map_map.
  unfold line_width. f_equal.
  induction ws as [|w ws IH]; simpl; [reflexivity|].
  rewrite repeat_length, IH. reflexivity.
Qed.
End TabulateFacts.

Section TabulateTheorems.
Implicit Types (ws : list nat) (row : list str) (rows : list (list str)).

Lemma fmt_lines_short ws rows :
  Forall (fun row => List.length row <= List.length ws) rows ->
  exists lines,
    fmt_lines ws rows = Some lines /\ List.length lines = List.length rows.
Proof.
  induction 1 as [|row rows Hr _ (lines & E & L)].
  - exists []. split; reflexivity.
  - destruct (fmt_line_short ws row Hr) as [line El].
    simpl. rewrite El, E. eexists. split; [reflexivity|]. simpl. congruence.
Qed.

Lemma fmt_lines_full ws rows lines :
  fmt_lines ws rows = Some lines ->
  Forall (fun row => List.length row = List.length ws) rows ->
  Forall (fun row => forall j, j < List.length row ->
            List.length (nth j row []) <= nth j ws 0) rows ->
  Forall (fun line => List.length line = line_width ws) lines.
Proof.
  revert lines; induction rows as [|row rows IH]; intros lines E Hl Hf;
    simpl in E.
  - inv E. constructor.
  - inv Hl. inv Hf.
    destruct (fmt_line_full ws row H1 H3) as (line & El & Wl).
    rewrite El in E.
    destruct (fmt_lines ws rows) as [ls|]; [|discriminate]. inv E.
    constructor; [exact Wl|]. apply IH; auto.
Qed.

Lemma header_fits (headers : list str) ws :
  (forall i, nth i (List.map (@List.length codepoint) headers) 0
             <= nth i ws 0) ->
  forall j, j < List.length headers ->
            List.length (nth j headers []) <= nth j ws 0.
Proof.
  intros G j Hj. specialize (G j).
  change 0 with (List.length (@nil codepoint)) in G at 1.
  rewrite map_nth in G. exact G.
Qed.

Lemma tabulate_lines_short rows (headers : list str) :
  Forall (fun row => List.length row <= List.length headers) rows ->
  exists ws head body,
    widen_all rows (List.map (@List.length codepoint) headers) = Some ws
    /\ fmt_line ws headers = Some head
    /\ fmt_lines ws rows = Some body
    /\ tabulate_lines rows headers
       = Some (head
               :: join (lit "-+-") (List.map (fun w => List.repeat dash w) ws)
               :: body)
    /\ List.length ws = List.length headers
    /\ List.length head = line_width ws
    /\ List.length body = List.length rows
    /\ (forall j, j < List.length headers ->
                  List.length (nth j headers []) <= nth j ws 0)
    /\ Forall (fun row => forall j, j < List.length row ->
                 List.length (nth j row []) <= nth j ws 0) rows.
Proof.
  intros H.
  destruct (widen_all_ok rows (List.map (@List.length codepoint) headers))
    as (ws & E & L & G & F).
  { rewrite length_map. exact H. }
  rewrite length_map in L.
  pose proof (header_fits headers ws G) as Hh.
  destruct (fmt_line_full ws headers (eq_sym L) Hh) as (head & Eh & Wh).
  destruct (fmt_lines_short ws rows) as (body & Eb & Lb).
  { rewrite L. exact H. }
  exists ws, head, body. unfold tabulate_lines. rewrite E, Eh, Eb.
  repeat split; auto.
Qed.

(** X2.  When every row has as many cells as there are headers, [tabulate]
    returns a header line, a rule and one line per row, joined by
    newlines; no cell is cut, since every column is at least as wide as
    its header and as each of its cells; and all the lines have the
    same length: the column widths plus three characters between two
    columns. *)
Theorem tabulate_rectangular rows (headers : list str) :
  Forall (fun row => List.length row = List.length headers) rows ->
  exists ws lines,
    tabulate rows headers = Some (join [newline] lines)
    /\ List.length lines = 2 + List.length rows
    /\ List.length ws = List.length headers
    /\ (forall j, j < List.length headers ->
                  List.length (nth j headers []) <= nth j ws 0)
    /\ Forall (fun row => forall j, j < List.length row ->
                 List.length (nth j row []) <= nth j ws 0) rows
    /\ Forall (fun line => List.length line = line_width ws) lines.
Proof.
  intros H.
  destruct (tabulate_lines_short rows headers)
    as (ws & head & body & E & Eh & Eb & Et & L & Wh & Lb & Hh & Hf).
  { eapply Forall_impl; [|exact H]. intros row Hr. simpl in Hr. lia. }
  exists ws. eexists. unfold tabulate. rewrite Et.
  split; [reflexivity|]. split; [simpl; lia|]. split; [exact L|].
  split; [exact Hh|]. split; [exact Hf|].
  constructor; [exact Wh|]. constructor; [apply rule_width|].
  apply (fmt_lines_full ws rows body Eb); [|exact Hf].
  eapply Forall_impl; [|exact H]. intros row Hr. simpl in Hr. congruence.
Qed.

(** X3.  [tabulate] raises [IndexError] exactly when some row has more cells
    than there are headers; rows with fewer cells are accepted. *)
Theorem tabulate_index_error rows (headers : list str) :
  tabulate rows headers = None
  <-> Exists (fun row => List.length headers < List.length row) rows.
Proof.
  split.
  - intros Hn.
    destruct (Forall_Exists_dec
                (fun row : list str => List.length row <= List.length headers)
                (fun row => le_dec (List.length row) (List.length headers))
                rows) as [Hf|He].
    + destruct (tabulate_lines_short rows headers Hf)
        as (ws & head & body & _ & _ & _ & Et & _).
      unfold tabulate in Hn. rewrite Et in Hn. discriminate.
    + eapply Exists_impl; [|exact He]. intros row Hr. simpl in Hr. lia.
  - intros He. unfold tabulate, tabulate_lines.
    rewrite widen_all_fails; [reflexivity|].
    rewrite length_map. exact He.
Qed.
End TabulateTheorems.

Lemma tabulate_rectangular_witness :
  exists ws lines,
    tabulate [[lit "1"; lit "Book"]] [lit "ID"; lit "Title"]
    = Some (join [newline] lines)
    /\ List.length lines = 3
    /\ Forall (fun line => List.length line = line_width ws) lines.
Proof.
  destruct (tabulate_rectangular
              [[lit "1"; lit "Book"]] [lit "ID"; lit "Title"])
    as (ws & lines & E & L & _ & _ & _ & W).
  - repeat constructor.
  - exists ws, lines. repeat split; assumption.
Defined.

Example tabulate_small :
  tabulate [[lit "1"; lit "Book"]] [lit "ID"; lit "Title"]
  = Some (lit "ID | Title" ++ [newline] ++ lit "---+------" ++ [newline]
          ++ lit "1  | Book ")
  /\ tabulate [[lit "1"; lit "Book"; lit "x"]] [lit "ID"; lit "Title"] = None.
Proof. split; reflexivity. Qed.

(* ===================================================================== *)
(** * Listing in order of addition *)
(* ===================================================================== *)

Section SortingFacts.
Variable A : Type.
Variable lt : A -> A -> bool.
Hypothesis lt_irrefl : forall a, lt a a = false.
Hypothesis lt_trans :
  forall a b c, lt a b = true -> lt b c = true -> lt a c = true.
Hypothesis ge_trans :
  forall a b c, lt a b = false -> lt b c = false -> lt a c = false.

Lemma lt_asym a b : lt a b = true -> lt b a = false.
Proof.
  intros H. destruct (lt b a) eqn:E; [|reflexivity].
  rewrite <- (lt_irrefl a). symmetry. exact (lt_trans a b a H E).
Qed.

Lemma insert_by_perm x l : Permutation (insert_by lt x l) (x :: l).
Proof.
  induction l as [|y l IH]; simpl; [reflexivity|].
  destruct (lt y x); [|reflexivity].
  rewrite IH. apply perm_swap.
Qed.

Lemma sorted_by_perm l : Permutation (sorted_by lt l) l.
Proof.
  induction l as [|x l IH]; simpl; [constructor|].
  rewrite insert_by_perm. constructor. exact IH.
Qed.

Lemma insert_by_ascending x l :
  ascending lt l -> ascending lt (insert_by lt x l).
Proof.
  unfold ascending. induction 1 as [|y l Hs IH Hy]; simpl.
  - constructor; constructor.
  - destruct (lt y x) eqn:E.
    + constructor; [exact IH|].
      rewrite (insert_by_perm x l). constructor; [|exact Hy].
      apply lt_asym, E.
    + constructor; [constructor; assumption|].
      constructor; [exact E|].
      eapply Forall_impl; [|exact Hy]. intros z Hz. simpl in Hz.
      exact (ge_trans z y x Hz E).
Qed.

Lemma sorted_by_ascending l : ascending lt (sorted_by lt l).
Proof.
  induction l as [|x l IH]; simpl; [constructor|].
  apply insert_by_ascending, IH.
Qed.

Lemma insert_by_level t x l :
  List.filter (level lt t) (insert_by lt x l) = List.filter (level lt t) (x :: l).
Proof.
  induction l as [|y l IH]; [reflexivity|].
  cbn [insert_by]. destruct (lt y x) eqn:E; [|reflexivity].
  cbn [List.filter] in *. rewrite IH.
  destruct (level lt t x) eqn:Lx, (level lt t y) eqn:Ly; try reflexivity.
  exfalso. unfold level in Lx, Ly.
  apply andb_true_iff in Lx, Ly. destruct Lx as [_ Lx], Ly as [Ly _].
  apply negb_true_iff in Lx, Ly.
  rewrite (ge_trans y t x Ly Lx) in E. discriminate.
Qed.

Lemma sorted_by_level t l :
  List.filter (level lt t) (sorted_by lt l) = List.filter (level lt t) l.
Proof.
  induction l as [|x l IH]; [reflexivity|].
  cbn [sorted_by fold_right]. fold (sorted_by lt l).
  rewrite insert_by_level. cbn [List.filter]. rewrite IH. reflexivity.
Qed.
End SortingFacts.

Section ListBooksRun.
Context {U : UnicodeData} {D : DatetimeLib} {Ord : DatetimeOrder}.

Lemma list_books_run (w : World) :
  Repository_list_books w
  = if comparable_keys (PyDict.values (_books w))
    then (inr (sorted_by added_before (PyDict.values (_books w))), w)
    else (inl TypeError, w).
Proof.
  unfold Repository_list_books, bind, get_books.
  destruct (comparable_keys (PyDict.values (_books w))); reflexivity.
Qed.
End ListBooksRun.

Section ListBooks.
Context {U : UnicodeData} {D : DatetimeLib} {Ord : DatetimeOrder}
        {OL : DatetimeOrderLaws}.

Lemma comparable_keys_laws (l : list Book) : comparable_keys l = true.
Proof.
  destruct l as [|b rest]; [reflexivity|]. simpl.
  apply forallb_forall. intros b' _.
  rewrite (dt_aware_same (added_at b') (added_at b)).
  destruct (dt_aware (added_at b)); reflexivity.
Qed.

(** X4.  Where the comparison of datetimes obeys its laws (it never
    raises and is a strict weak order), [LibraryRepository.list_books]
    changes nothing and returns every book of the mapping exactly once,
    no book before one that was added earlier; books added at the same
    instant stay in the order of the mapping. *)
Theorem list_books_sorted (w : World) :
  exists bs,
    Repository_list_books w = (inr bs, w)
    /\ Service_list_books false w = (inr bs, w)
    /\ Permutation bs (PyDict.values (_books w))
    /\ StronglySorted
         (fun a b => dt_ltb (added_at b) (added_at a) = false) bs
    /\ forall t,
         List.filter (level added_before t) bs
         = List.filter (level added_before t) (PyDict.values (_books w)).
Proof.
  assert (R : Repository_list_books w
              = (inr (sorted_by added_before (PyDict.values (_books w))), w))
    by (rewrite list_books_run, comparable_keys_laws; reflexivity).
  eexists. split; [exact R|]. split; [exact R|]. split; [|split].
  - apply sorted_by_perm.
  - apply (sorted_by_ascending Book added_before); unfold added_before.
    + intros a. apply dt_ltb_irrefl.
    + intros a b c. apply dt_ltb_trans.
    + intros a b c. apply dt_geb_trans.
  - intros t. apply sorted_by_level. unfold added_before.
    intros a b c. apply dt_geb_trans.
Qed.
End ListBooks.

Lemma naive_order_laws : @DatetimeOrderLaws naive_datetime naive_order.
Proof.
  split; simpl; unfold naive_ltb.
  - intros a. apply N.ltb_irrefl.
  - intros a b c H1 H2. apply N.ltb_lt in H1, H2. apply N.ltb_lt. lia.
  - intros a b c H1 H2. apply N.ltb_ge in H1, H2. apply N.ltb_ge. lia.
  - reflexivity.
Qed.

(* ===================================================================== *)
(** * Rendering the catalog *)
(* ===================================================================== *)

Section RenderCatalog.
Context {U : UnicodeData} {D : DatetimeLib} {Ord : DatetimeOrder}.

Lemma Service_list_books_runs (available_only : bool) (w : World) :
  available_only = true
  \/ comparable_keys (PyDict.values (_books w)) = true ->
  exists bs, Service_list_books available_only w = (inr bs, w).
Proof.
  destruct available_only; [intros _; eexists; reflexivity|].
  intros [H|H]; [discriminate|].
  eexists. cbn [Service_list_books]. rewrite list_books_run, H. reflexivity.
Qed.

Lemma render_raises (w : World) :
  comparable_keys (PyDict.values (_books w)) = false ->
  render_catalog_table None false w = (inl TypeError, w).
Proof.
  intros H. unfold render_catalog_table, bind. cbn [Service_list_books].
  rewrite list_books_run, H. reflexivity.
Qed.

Lemma table_rectangular (bs : list Book) :
  exists ws lines,
    tabulate (List.map table_row bs) table_headers
    = Some (join [newline] lines)
    /\ List.length lines = 2 + List.length bs
    /\ List.length ws = 4
    /\ Forall (fun line => List.length line = line_width ws) lines
    /\ Forall (fun b => List.length (isbn b) <= nth 0 ws 0
                        /\ List.length (title b) <= nth 1 ws 0
                        /\ List.length (author b) <= nth 2 ws 0) bs.
Proof.
  assert (H4 : Forall (fun row : list str =>
                         List.length row = List.length table_headers)
                      (List.map table_row bs)).
  { apply Forall_forall. intros row Hr. apply in_map_iff in Hr.
    destruct Hr as (b & <- & _). reflexivity. }
  destruct (tabulate_lines_short (List.map table_row bs) table_headers)
    as (ws & head & body & E & Eh & Eb & Et & L & Wh & Lb & Hh & Hf).
  { eapply Forall_impl; [|exact H4]. intros row Hr. cbv beta in Hr.
    rewrite Hr. apply le_n. }
  exists ws. eexists. unfold tabulate. rewrite Et.
  split; [reflexivity|].
  split; [cbn [List.length]; rewrite Lb, length_map; reflexivity|].
  split; [exact L|]. split.
  - constructor; [exact Wh|]. constructor; [apply rule_width|].
    apply (fmt_lines_full ws _ body Eb); [|exact Hf].
    eapply Forall_impl; [|exact H4]. intros row Hr. cbv beta in Hr.
    congruence.
  - rewrite Forall_forall in Hf. apply Forall_forall. intros b Hb.
    pose proof (Hf (table_row b) (in_map table_row bs b Hb)) as F.
    split; [|split].
    + apply (F 0). simpl. lia.
    + apply (F 1). simpl. lia.
    + apply (F 2). simpl. lia.
Qed.

(** X5.  [render_catalog_table] changes nothing, and the [IndexError]
    of [tabulate] cannot occur.  The call raises in one case only, with
    the [TypeError] of [list_books]: no books are given, the listing is
    not restricted to the available books, and the catalog holds a
    naive and an aware [added_at].  In every other case the books are
    those given, or else those of [list_books], and the table has a
    header line, a rule and one line per book, all of the same length,
    and four columns wide enough for the ISBN, the title and the author
    of every book. *)
Theorem render_catalog_table_rectangular
    (books : option (list Book)) (available_only : bool) (w : World) :
  (books = None -> available_only = false ->
   comparable_keys (PyDict.values (_books w)) = false ->
   render_catalog_table books available_only w = (inl TypeError, w))
  /\ (books <> None \/ available_only = true
      \/ comparable_keys (PyDict.values (_books w)) = true ->
      exists bs ws lines,
        match books with
        | Some given => bs = given
        | None => Service_list_books available_only w = (inr bs, w)
        end
        /\ render_catalog_table books available_only w
           = (inr (Some (join [newline] lines)), w)
        /\ List.length lines = 2 + List.length bs
        /\ List.length ws = 4
        /\ Forall (fun line => List.length line = line_width ws) lines
        /\ Forall (fun b => List.length (isbn b) <= nth 0 ws 0
                            /\ List.length (title b) <= nth 1 ws 0
                            /\ List.length (author b) <= nth 2 ws 0) bs).
Proof.
  split.
  - intros -> -> H. apply render_raises. exact H.
  - intros Hok.
    assert (R : exists bs,
               match books with
               | Some given => bs = given
               | None => Service_list_books available_only w = (inr bs, w)
               end
               /\ render_catalog_table books available_only w
                  = (inr (tabulate (List.map table_row bs) table_headers),
                     w)).
    { destruct books as [given|].
      - exists given. split; reflexivity.
      - destruct (Service_list_books_runs available_only w) as [bs E].
        { destruct Hok as [H|H]; [congruence|exact H]. }
        exists bs. split; [exact E|].
        unfold render_catalog_table, bind. rewrite E. reflexivity. }
    destruct R as (bs & Hb & Hr).
    destruct (table_rectangular bs) as (ws & lines & Et & Hrest).
    exists bs, ws, lines. split; [exact Hb|]. split; [|exact Hrest].
    rewrite Hr, Et. reflexivity.
Qed.
End RenderCatalog.

(* ===================================================================== *)
(** * More on the dict *)
(* ===================================================================== *)

Section DictOrder.
Variable V : Type.
Implicit Types (d : PyDict.dict V) (k : str) (v : V).

Lemma mem_false_get k d :
  PyDict.mem k d = false <-> PyDict.get k d = None.
Proof.
  unfold PyDict.mem. destruct (PyDict.get k d); split; congruence.
Qed.

Lemma set_fresh k v d :
  PyDict.mem k d = false -> PyDict.set k v d = d ++ [(k, v)].
Proof.
  unfold PyDict.mem.
  induction d as [|[k0 v0] d IH]; simpl; [reflexivity|].
  destruct (PyStr.eqb k k0); [discriminate|].
  intros H. rewrite (IH H). reflexivity.
Qed.

Lemma set_same k v d : PyDict.get k d = Some v -> PyDict.set k v d = d.
Proof.
  induction d as [|[k0 v0] d IH]; simpl; [discriminate|].
  destruct (PyStr.eqb k k0).
  - intros H. inv H. reflexivity.
  - intros H. rewrite (IH H). reflexivity.
Qed.

Lemma set_set k v1 v2 d :
  PyDict.set k v2 (PyDict.set k v1 d) = PyDict.set k v2 d.
Proof.
  induction d as [|[k0 v0] d IH]; simpl.
  - rewrite str_eqb_refl. reflexivity.
  - destruct (PyStr.eqb k k0) eqn:E; simpl; rewrite E; [reflexivity|].
    rewrite IH. reflexivity.
Qed.

Lemma get_app k d1 d2 :
  PyDict.get k (d1 ++ d2)
  = match PyDict.get k d1 with
    | Some v => Some v
    | None => PyDict.get k d2
    end.
Proof.
  induction d1 as [|[k0 v0] d1 IH]; simpl; [reflexivity|].
  destruct (PyStr.eqb k k0); [reflexivity|exact IH].
Qed.

Lemma mem_app k d1 d2 :
  PyDict.mem k (d1 ++ d2) = PyDict.mem k d1 || PyDict.mem k d2.
Proof.
  unfold PyDict.mem. rewrite get_app.
  destruct (PyDict.get k d1); reflexivity.
Qed.

Lemma get_del_other k k' d :
  k' <> k -> PyDict.get k' (PyDict.del k d) = PyDict.get k' d.
Proof.
  intros Hn. induction d as [|[k0 v0] d IH]; simpl; [reflexivity|].
  destruct (PyStr.eqb k k0) eqn:E; simpl.
  - apply str_eqb_eq in E. subst k0.
    destruct (PyStr.eqb k' k) eqn:F; [|reflexivity].
    apply str_eqb_eq in F. congruence.
  - rewrite IH. reflexivity.
Qed.

Lemma get_del_same k d :
  NoDup (PyDict.keys d) -> PyDict.get k (PyDict.del k d) = None.
Proof.
  induction d as [|[k0 v0] d IH]; simpl; [reflexivity|].
  intros H. inv H. destruct (PyStr.eqb k k0) eqn:E; simpl.
  - apply str_eqb_eq in E. subst k0.
    apply mem_false_get. destruct (PyDict.mem k d) eqn:M; [|reflexivity].
    exfalso. apply H2. apply In_keys_mem. exact M.
  - rewrite E. apply IH. exact H3.
Qed.

Lemma length_del k d :
  PyDict.mem k d = true ->
  S (List.length (PyDict.del k d)) = List.length d.
Proof.
  unfold PyDict.mem.
  induction d as [|[k0 v0] d IH]; simpl; [discriminate|].
  destruct (PyStr.eqb k k0); [reflexivity|].
  intros H. simpl. rewrite (IH H). reflexivity.
Qed.

Lemma NoDup_keys_del k d :
  NoDup (PyDict.keys d) -> NoDup (PyDict.keys (PyDict.del k d)).
Proof.
  induction d as [|[k0 v0] d IH]; simpl; [auto|].
  intros H. inv H. destruct (PyStr.eqb k k0); [exact H3|].
  simpl. constructor; [|apply IH; exact H3].
  intros Hin. apply H2. unfold PyDict.keys in *.
  apply in_map_iff in Hin. destruct Hin as (kv & Ek & Hkv).
  apply in_map_iff. exists kv. split; [exact Ek|].
  eapply In_del. exact Hkv.
Qed.
End DictOrder.

(* ===================================================================== *)
(** * Looking up, removing and registering *)
(* ===================================================================== *)

Section Lookup.
Context {U : UnicodeData} {D : DatetimeLib}.

(** X6.  For an ISBN whose normalised form is not a key of the catalog,
    [get_book], [remove_book], [borrow_book], [return_book] and the
    repository's [update] raise [BookNotFoundError], with a message
    that holds the ISBN as it was given, and leave the mapping, the
    data file and the clock as they were. *)
Theorem absent_isbn_not_found (cfg : AppConfig) (w : World) (i : str) :
  PyDict.mem (normalize_isbn i) (_books w) = false ->
  exists msg,
    contains i msg
    /\ get_book i w = (inl (BookNotFoundError msg), w)
    /\ remove_book cfg i w = (inl (BookNotFoundError msg), w)
    /\ (forall who,
          borrow_book cfg i who w = (inl (BookNotFoundError msg), w))
    /\ return_book cfg i w = (inl (BookNotFoundError msg), w)
    /\ (forall b flag,
          isbn b = i -> update b flag w = (inl (BookNotFoundError msg), w)).
Proof.
  intros Hm. pose proof (proj1 (mem_false_get _ _ _) Hm) as Hg.
  exists (lit "Book with ISBN " +++ i +++ lit " not found").
  split; [exists (lit "Book with ISBN "), (lit " not found"); reflexivity|].
  split; [run; rewrite Hg; reflexivity|].
  split; [run; rewrite Hm; reflexivity|].
  split; [intros who; run; rewrite Hg; reflexivity|].
  split; [run; rewrite Hg; reflexivity|].
  intros b flag <-. run. rewrite Hm. reflexivity.
Qed.

(** X7.  Removing a book that the catalog holds succeeds: afterwards the
    ISBN is not found, the catalog has one entry less, every other key
    holds what it held, and the data file is rewritten from the new
    catalog when autosave is on and untouched when it is off. *)
Theorem remove_book_removes
    (cfg : AppConfig) (w : World) (i : str) (b : Book) :
  NoDup (PyDict.keys (_books w)) ->
  PyDict.get (normalize_isbn i) (_books w) = Some b ->
  exists w',
    remove_book cfg i w = (inr tt, w')
    /\ PyDict.mem (normalize_isbn i) (_books w') = false
    /\ (forall k, k <> normalize_isbn i ->
                  PyDict.get k (_books w') = PyDict.get k (_books w))
    /\ S (List.length (_books w')) = List.length (_books w)
    /\ NoDup (PyDict.keys (_books w'))
    /\ file w' = (if autosave cfg
                  then save_books (PyDict.values (_books w'))
                  else file w)
    /\ ticks w' = ticks w
    /\ exists msg, get_book i w' = (inl (BookNotFoundError msg), w').
Proof.
  intros Hnd Hg.
  assert (Hm : PyDict.mem (normalize_isbn i) (_books w) = true)
    by (apply mem_get; eauto).
  assert (Hgone : PyDict.get (normalize_isbn i)
                             (PyDict.del (normalize_isbn i) (_books w))
                  = None) by (apply get_del_same; exact Hnd).
  assert (E : exists w',
             remove_book cfg i w = (inr tt, w')
             /\ _books w' = PyDict.del (normalize_isbn i) (_books w)
             /\ file w' = (if autosave cfg
                           then save_books (PyDict.values (_books w'))
                           else file w)
             /\ ticks w' = ticks w).
  { run. rewrite Hm. destruct (autosave cfg); eexists;
      (split; [reflexivity|]); repeat split. }
  destruct E as (w' & Hrun & Hb & Hf & Ht).
  exists w'. split; [exact Hrun|]. rewrite Hb.
  split; [apply mem_false_get; exact Hgone|].
  split; [intros k Hk; apply get_del_other; exact Hk|].
  split; [apply length_del; exact Hm|].
  split; [apply NoDup_keys_del; exact Hnd|].
  split; [rewrite <- Hb; exact Hf|]. split; [exact Ht|].
  eexists. run. rewrite Hb, Hgone. reflexivity.
Qed.

(** X8.  Registering an ISBN that is new to the catalog, and whose
    normalised form is in normalised form, succeeds: the book carries
    the normalised ISBN, the stripped title and author and the reading
    of the clock, and has no borrower; it is filed last under its ISBN,
    the entries before it untouched; and [get_book] finds it under any
    spelling of the ISBN that normalises to the same key. *)
Theorem register_book_then_get
    (cfg : AppConfig) (w : World) (i t a : str) :
  stable_isbn i ->
  PyDict.mem (normalize_isbn i) (_books w) = false ->
  exists b w',
    register_book cfg i t a w = (inr b, w')
    /\ b = {| isbn := normalize_isbn i; title := strip t;
              author := strip a; added_at := utcnow_at (ticks w);
              borrower := None; borrowed_at := None |}
    /\ _books w' = _books w ++ [(normalize_isbn i, b)]
    /\ file w' = (if autosave cfg
                  then save_books (PyDict.values (_books w'))
                  else file w)
    /\ ticks w' = S (ticks w)
    /\ forall i', normalize_isbn i' = normalize_isbn i ->
                  get_book i' w' = (inr b, w').
Proof.
  intros Hs Hm. unfold stable_isbn in Hs.
  set (b := {| isbn := normalize_isbn i; title := strip t;
               author := strip a; added_at := utcnow_at (ticks w);
               borrower := None; borrowed_at := None |}).
  assert (E : exists w',
             register_book cfg i t a w = (inr b, w')
             /\ _books w' = PyDict.set (normalize_isbn i) b (_books w)
             /\ file w' = (if autosave cfg
                           then save_books (PyDict.values (_books w'))
                           else file w)
             /\ ticks w' = S (ticks w)).
  { run. rewrite Hs, Hm. fold b.
    destruct (autosave cfg); eexists; (split; [reflexivity|]);
      repeat split. }
  destruct E as (w' & Hrun & Hb & Hf & Ht).
  exists b, w'. split; [exact Hrun|]. split; [reflexivity|].
  split; [rewrite Hb; apply set_fresh; exact Hm|].
  split; [exact Hf|]. split; [exact Ht|].
  intros i' Hi'. run. rewrite Hi', Hb, get_set_same. reflexivity.
Qed.
End Lookup.

(* ===================================================================== *)
(** * The repository and its data file *)
(* ===================================================================== *)

Section Reload.
Context {U : UnicodeData} {D : DatetimeLib}.

Lemma keys_app (V : Type) (d1 d2 : PyDict.dict V) :
  PyDict.keys (d1 ++ d2) = PyDict.keys d1 ++ PyDict.keys d2.
Proof. unfold PyDict.keys. apply map_app. Qed.

Lemma set_each_app (d2 d1 : PyDict.dict Book) :
  keyed_by_isbn d2 ->
  NoDup (PyDict.keys (d1 ++ d2)) ->
  set_each (PyDict.values d2) d1 = d1 ++ d2.
Proof.
  unfold set_each. revert d1.
  induction d2 as [|[k b] d2 IH]; intros d1 Hk Hnd; simpl.
  - rewrite app_nil_r. reflexivity.
  - inv Hk. simpl in H1. subst k.
    assert (Hfresh : PyDict.mem (isbn b) d1 = false).
    { destruct (PyDict.mem (isbn b) d1) eqn:E; [|reflexivity].
      exfalso. rewrite keys_app in Hnd. simpl in Hnd.
      apply NoDup_remove_2 in Hnd. apply Hnd. apply in_or_app. left.
      apply In_keys_mem. exact E. }
    rewrite (set_fresh _ _ _ _ Hfresh). rewrite IH.
    + rewrite <- app_assoc. reflexivity.
    + exact H2.
    + rewrite <- app_assoc. exact Hnd.
Qed.

Lemma set_each_values (d : PyDict.dict Book) :
  keyed_by_isbn d -> NoDup (PyDict.keys d) ->
  set_each (PyDict.values d) [] = d.
Proof. intros Hk Hnd. exact (set_each_app d [] Hk Hnd). Qed.

(** X9.  A repository constructed on the data file that [_persist] wrote
    holds the mapping that was persisted, entry for entry and in the
    same order, when every key of that mapping is the [isbn] of its
    book; the file is read, not written. *)
Theorem persist_then_load {L : DatetimeLaws} (w w0 : World) :
  keyed_by_isbn (_books w) ->
  NoDup (PyDict.keys (_books w)) ->
  file w0 = file (snd (_persist w)) ->
  exists w',
    Repository_init w0 = (inr tt, w')
    /\ _books w' = _books w
    /\ file w' = file w0
    /\ ticks w' = ticks w0.
Proof.
  intros Hk Hnd Hf. cbn [_persist snd file] in Hf.
  assert (Hl : load_books (file w0) = inr (PyDict.values (_books w)))
    by (rewrite Hf; apply load_books_save_books).
  eexists. split.
  - unfold Repository_init, _load. run. rewrite Hl. run. reflexivity.
  - cbn [_books file ticks]. split; [|split; reflexivity].
    apply set_each_values; assumption.
Qed.
End Reload.

(* ===================================================================== *)
(** * When the data file is written *)
(* ===================================================================== *)

Section Autosave.
Context {U : UnicodeData} {D : DatetimeLib}.

Lemma bind_file {A B} (c : M A) (k : A -> M B) :
  (forall w, file (snd (c w)) = file w) ->
  (forall a w, file (snd (k a w)) = file w) ->
  forall w, file (snd (bind c k w)) = file w.
Proof.
  intros Hc Hk w. unfold bind. specialize (Hc w).
  destruct (c w) as [[e|a] w1]; simpl in *; [exact Hc|].
  rewrite Hk. exact Hc.
Qed.

Lemma for_each_file {A B} (f : A -> M B) (xs : list A) :
  (forall x w, file (snd (f x w)) = file w) ->
  forall w, file (snd (for_each f xs w)) = file w.
Proof.
  intros Hf. induction xs as [|x xs IH]; intros w; [reflexivity|].
  cbn [for_each]. apply bind_file; [apply Hf|]. intros y.
  apply bind_file; [exact IH|]. intros ys w1. reflexivity.
Qed.

Lemma add_file (b : Book) (w : World) :
  file (snd (add b false w)) = file w.
Proof. run. destruct (PyDict.mem _ _); reflexivity. Qed.

Lemma update_file (b : Book) (w : World) :
  file (snd (update b false w)) = file w.
Proof. run. destruct (PyDict.mem _ _); reflexivity. Qed.

Lemma Repository_init_file (w : World) :
  file (snd (Repository_init w)) = file w.
Proof.
  unfold Repository_init, _load. run.
  destruct (load_books (file w)); reflexivity.
Qed.

Lemma initialize_defaults_file (cfg : AppConfig) (w : World) :
  autosave cfg = false ->
  file (snd (_initialize_defaults cfg w)) = file w.
Proof.
  intros Ha. unfold _initialize_defaults, snapshot.
  unfold bind at 1. unfold bind at 1. unfold get_books at 1.
  unfold ret at 1. cbv beta iota zeta.
  destruct (List.filter _ default_catalog) as [|e l]; [reflexivity|].
  apply bind_file; [|reflexivity].
  apply for_each_file. intros e0 w1. rewrite Ha.
  apply bind_file; [reflexivity|]. intros b w2. apply add_file.
Qed.

(** X10.  With autosave off, the payload of the data file is written
    by [import_catalog] and [reset_catalog] alone, which replace it by
    the new catalog whatever the flag: registering, removing,
    borrowing, returning, looking up, listing and constructing a
    service leave the payload as it was, whether they succeed or
    raise. *)
Theorem autosave_off_keeps_file (cfg : AppConfig) (c : Call) (w : World) :
  autosave cfg = false ->
  match c with
  | CallImport _ | CallReset =>
      file (snd (call cfg c w))
      = save_books (PyDict.values (_books (snd (call cfg c w))))
  | _ => file (snd (call cfg c w)) = file w
  end.
Proof.
  intros Ha. destruct c as [i t a|i|i who|i|i| |es| |]; cbn [call].
  - unfold register_book. rewrite Ha. run.
    destruct (PyDict.mem _ _); reflexivity.
  - unfold remove_book. rewrite Ha. run.
    destruct (PyDict.mem _ _); reflexivity.
  - unfold borrow_book. rewrite Ha. run.
    destruct (PyDict.get _ _) as [b|]; [|reflexivity].
    destruct (is_available b); cbn [negb]; [|reflexivity].
    destruct (PyDict.mem _ _); reflexivity.
  - unfold return_book. rewrite Ha. run.
    destruct (PyDict.get _ _) as [b|]; [|reflexivity].
    destruct (is_available b); [reflexivity|].
    destruct (PyDict.mem _ _); reflexivity.
  - run. destruct (PyDict.get _ _); reflexivity.
  - reflexivity.
  - unfold bind. rewrite import_catalog_run. reflexivity.
  - reflexivity.
  - apply bind_file; [|reflexivity]. unfold Service_init.
    apply bind_file; [apply Repository_init_file|].
    intros _ w1. apply initialize_defaults_file. exact Ha.
Qed.

(** X11.  With autosave on, a call that registers, removes, borrows, returns,
    imports or resets and succeeds leaves a data file that holds the
    catalog exactly; looking up and listing change nothing. *)
Theorem autosave_on_file_in_sync
    (cfg : AppConfig) (c : Call) (w w' : World) (bs : list Book) :
  autosave cfg = true ->
  call cfg c w = (inr bs, w') ->
  match c with
  | CallGet _ | CallListAvailable => w' = w
  | CallRestart => True
  | _ => file w' = save_books (PyDict.values (_books w'))
  end.
Proof.
  intros Ha. destruct c as [i t a|i|i who|i|i| |es| |]; cbn [call].
  - unfold register_book. rewrite Ha. run.
    destruct (PyDict.mem _ _); intros H; inv H. reflexivity.
  - unfold remove_book. rewrite Ha. run.
    destruct (PyDict.mem _ _); intros H; inv H. reflexivity.
  - unfold borrow_book. rewrite Ha. run.
    destruct (PyDict.get _ _) as [b|]; [|discriminate].
    destruct (is_available b); cbn [negb]; [|discriminate].
    destruct (PyDict.mem _ _); intros H; inv H. reflexivity.
  - unfold return_book. rewrite Ha. run.
    destruct (PyDict.get _ _) as [b|]; [|discriminate].
    destruct (is_available b); [discriminate|].
    destruct (PyDict.mem _ _); intros H; inv H. reflexivity.
  - run. destruct (PyDict.get _ _); intros H; inv H. reflexivity.
  - unfold find_available. run. intros H; inv H. reflexivity.
  - unfold bind. rewrite import_catalog_run. intros H; inv H. reflexivity.
  - run. intros H; inv H. reflexivity.
  - intros _. exact I.
Qed.

(** X12.  In a catalog of the data model, a call that raises leaves the
    mapping and the data file as they were: nothing is half done.
    (Constructing a service is not such a call: it empties the mapping
    before it reads the file.) *)
Theorem failed_call_changes_nothing
    (cfg : AppConfig) (c : Call) (w w' : World) (e : Exn) :
  catalog_wf (_books w) ->
  c <> CallRestart ->
  call cfg c w = (inl e, w') ->
  _books w' = _books w /\ file w' = file w.
Proof.
  intros W Hc. destruct c as [i t a|i|i who|i|i| |es| |]; cbn [call].
  - run. destruct (PyDict.mem _ _).
    + intros H; inv H. split; reflexivity.
    + destruct (autosave cfg); discriminate.
  - run. destruct (PyDict.mem _ _).
    + destruct (autosave cfg); discriminate.
    + intros H; inv H. split; reflexivity.
  - run. destruct (PyDict.get _ _) as [b|] eqn:Hg.
    + destruct (W _ _ Hg) as [_ Hk].
      destruct (is_available b); cbn [negb].
      * rewrite Hk, mem_set, str_eqb_refl. cbn [orb].
        destruct (autosave cfg); discriminate.
      * intros H; inv H. split; reflexivity.
    + intros H; inv H. split; reflexivity.
  - run. destruct (PyDict.get _ _) as [b|] eqn:Hg.
    + destruct (W _ _ Hg) as [_ Hk].
      destruct (is_available b).
      * intros H; inv H. split; reflexivity.
      * rewrite Hk, mem_set, str_eqb_refl. cbn [orb].
        destruct (autosave cfg); discriminate.
    + intros H; inv H. split; reflexivity.
  - run. destruct (PyDict.get _ _); intros H; inv H. split; reflexivity.
  - unfold find_available. run. discriminate.
  - unfold bind. rewrite import_catalog_run. discriminate.
  - run. discriminate.
  - congruence.
Qed.

(** X14.  Borrowing an available book and returning it gives the catalog
    back as it was, the data file included when autosave is on; only
    the clock has been read once. *)
Theorem borrow_then_return_restores
    (cfg : AppConfig) (w : World) (i who : str) (b : Book) :
  PyDict.get (normalize_isbn i) (_books w) = Some b ->
  tidy (normalize_isbn i) b ->
  borrower b = None ->
  borrowed_at b = None ->
  exists b1 w1 w2,
    borrow_book cfg i who w = (inr b1, w1)
    /\ borrower b1 = Some who
    /\ return_book cfg i w1 = (inr b, w2)
    /\ _books w2 = _books w
    /\ ticks w2 = S (ticks w)
    /\ file w2 = (if autosave cfg
                  then save_books (PyDict.values (_books w))
                  else file w).
Proof.
  intros Hg [Hi Hn] Hb Ht.
  set (k := normalize_isbn i) in *.
  set (b1 := set_isbn (checkout b who (utcnow_at (ticks w))) k).
  assert (Hk : normalize_isbn (isbn b) = k) by (rewrite Hi; exact Hn).
  assert (Hback : set_isbn (checkin b1) k = b).
  { destruct b as [bi bt ba bd bb bbd]. simpl in *. subst. reflexivity. }
  assert (E1 : exists w1,
             borrow_book cfg i who w = (inr b1, w1)
             /\ _books w1 = PyDict.set k b1 (PyDict.set k
                              (checkout b who (utcnow_at (ticks w)))
                              (_books w))
             /\ ticks w1 = S (ticks w)
             /\ file w1 = (if autosave cfg
                           then save_books (PyDict.values (_books w1))
                           else file w)).
  { run. fold k. rewrite Hg. unfold is_available at 1. rewrite Hb.
    cbn [negb]. rewrite Hk, mem_set, str_eqb_refl. cbn [orb]. fold b1.
    destruct (autosave cfg); eexists; (split; [reflexivity|]);
      repeat split. }
  destruct E1 as (w1 & Hrun1 & Hb1 & Ht1 & Hf1).
  assert (Hg1 : PyDict.get k (_books w1) = Some b1)
    by (rewrite Hb1; apply get_set_same).
  assert (E2 : exists w2,
             return_book cfg i w1 = (inr b, w2)
             /\ _books w2 = _books w
             /\ ticks w2 = ticks w1
             /\ file w2 = (if autosave cfg
                           then save_books (PyDict.values (_books w))
                           else file w1)).
  { run. fold k. rewrite Hg1. unfold is_available at 1.
    assert (Hbor : borrower b1 = Some who) by reflexivity.
    rewrite Hbor.
    assert (Hk1 : normalize_isbn (isbn b1) = k) by exact Hn.
    rewrite Hk1, mem_set, str_eqb_refl. cbn [orb]. rewrite Hback.
    assert (Hd : PyDict.set k b (PyDict.set k (checkin b1) (_books w1))
                 = _books w).
    { rewrite Hb1, !set_set. apply set_same. exact Hg. }
    rewrite Hd.
    destruct (autosave cfg); eexists; (split; [reflexivity|]);
      repeat split. }
  destruct E2 as (w2 & Hrun2 & Hb2 & Ht2 & Hf2).
  exists b1, w1, w2. split; [exact Hrun1|]. split; [reflexivity|].
  split; [exact Hrun2|]. split; [exact Hb2|].
  split; [congruence|].
  rewrite Hf2. destruct (autosave cfg); [reflexivity|exact Hf1].
Qed.
End Autosave.

(* ===================================================================== *)
(** * The summary by author *)
(* ===================================================================== *)

Section Summary.
Context {U : UnicodeData} {D : DatetimeLib}.

Lemma Counter_step_get (a : str) (xs : list str) (d : PyDict.dict nat) :
  PyDict.get a
    (List.fold_left
       (fun d x =>
          PyDict.set x (S (match PyDict.get x d with
                           | Some n => n
                           | None => O
                           end)) d)
       xs d)
  = match List.length (List.filter (PyStr.eqb a) xs) with
    | O => PyDict.get a d
    | S n => Some (S n + match PyDict.get a d with
                         | Some m => m
                         | None => O
                         end)
    end.
Proof.
  revert d. induction xs as [|x xs IH]; intros d; [reflexivity|].
  cbn [List.fold_left List.filter]. rewrite IH, get_set.
  destruct (PyStr.eqb a x) eqn:E.
  - apply str_eqb_eq in E. subst x. cbn [List.length].
    destruct (List.length (List.filter (PyStr.eqb a) xs)) as [|n].
    + f_equal; lia.
    + f_equal; lia.
  - reflexivity.
Qed.

Lemma sum_values_set (k : str) (v : nat) (d : PyDict.dict nat) :
  list_sum (PyDict.values (PyDict.set k v d))
  + match PyDict.get k d with Some m => m | None => O end
  = list_sum (PyDict.values d) + v.
Proof.
  induction d as [|[k0 v0] d IH]; simpl; [lia|].
  destruct (PyStr.eqb k k0); simpl; lia.
Qed.

Lemma Counter_step_sum (xs : list str) (d : PyDict.dict nat) :
  list_sum
    (PyDict.values
       (List.fold_left
          (fun d x =>
             PyDict.set x (S (match PyDict.get x d with
                              | Some n => n
                              | None => O
                              end)) d)
          xs d))
  = List.length xs + list_sum (PyDict.values d).
Proof.
  revert d. induction xs as [|x xs IH]; intros d; [reflexivity|].
  cbn [List.fold_left List.length]. rewrite IH.
  pose proof (sum_values_set x
                (S (match PyDict.get x d with Some n => n | None => O end))
                d).
  lia.
Qed.

Lemma Counter_step_NoDup (xs : list str) (d : PyDict.dict nat) :
  NoDup (PyDict.keys d) ->
  NoDup
    (PyDict.keys
       (List.fold_left
          (fun d x =>
             PyDict.set x (S (match PyDict.get x d with
                              | Some n => n
                              | None => O
                              end)) d)
          xs d)).
Proof.
  revert d. induction xs as [|x xs IH]; intros d H; [exact H|].
  cbn [List.fold_left]. apply IH. apply NoDup_keys_set. exact H.
Qed.

(** X13.  [usage_summary] changes nothing and counts the books of each
    author: an author is a key exactly when the catalog holds a book
    of theirs, the key holds the number of these books, no author is
    listed twice, and the counts add up to the number of books. *)
Theorem usage_summary_counts (w : World) :
  exists summary,
    usage_summary w = (inr summary, w)
    /\ NoDup (PyDict.keys summary)
    /\ (forall a,
          PyDict.get a summary
          = match List.length
                    (List.filter (fun b => PyStr.eqb a (author b))
                                 (PyDict.values (_books w))) with
            | O => None
            | S n => Some (S n)
            end)
    /\ list_sum (PyDict.values summary)
       = List.length (PyDict.values (_books w)).
Proof.
  eexists. split; [reflexivity|]. unfold Counter. split; [|split].
  - apply Counter_step_NoDup. constructor.
  - intros a. rewrite Counter_step_get.
    assert (E : forall l : list Book,
               List.length (List.filter (PyStr.eqb a) (List.map author l))
               = List.length
                   (List.filter (fun b => PyStr.eqb a (author b)) l)).
    { induction l as [|b l IH]; [reflexivity|]. simpl.
      destruct (PyStr.eqb a (author b)); simpl; rewrite IH; reflexivity. }
    rewrite E. cbn [PyDict.get].
    destruct (List.length _); [reflexivity|]. f_equal; lia.
  - rewrite Counter_step_sum, length_map. simpl. lia.
Qed.
End Summary.

(* ===================================================================== *)
(** * Constructing a service *)
(* ===================================================================== *)

Section Construction.
Context {U : UnicodeData} {D : DatetimeLib}.

Lemma add_seed_run (cfg : AppConfig) (e : Entry) (w : World) :
  PyDict.mem (seed_key e) (_books w) = false ->
  add_seed cfg e w
  = (inr (seed_book (ticks w) e),
     {| _books := _books w ++ [(seed_key e, seed_book (ticks w) e)];
        file := if autosave cfg
                then save_books
                       (PyDict.values
                          (_books w ++ [(seed_key e, seed_book (ticks w) e)]))
                else file w;
        ticks := S (ticks w) |}).
Proof.
  intros Hm. unfold add_seed. run. fold (seed_key e). rewrite Hm.
  rewrite (set_fresh _ _ _ _ Hm). destruct (autosave cfg); reflexivity.
Qed.

Lemma seed_loop_run (cfg : AppConfig) (l : list Entry) :
  forall w,
    NoDup (List.map seed_key l) ->
    (forall e, In e l -> PyDict.mem (seed_key e) (_books w) = false) ->
    for_each (add_seed cfg) l w
    = (inr (PyDict.values (seed_entries (ticks w) l)),
       {| _books := _books w ++ seed_entries (ticks w) l;
          file := match l with
                  | [] => file w
                  | _ :: _ =>
                      if autosave cfg
                      then save_books
                             (PyDict.values
                                (_books w ++ seed_entries (ticks w) l))
                      else file w
                  end;
          ticks := List.length l + ticks w |}).
Proof.
  induction l as [|e l IH]; intros w Hnd Hfresh.
  - simpl. rewrite app_nil_r. destruct w; reflexivity.
  - inv Hnd. cbn [for_each]. unfold bind at 1.
    rewrite (add_seed_run cfg e w (Hfresh e (or_introl eq_refl))).
    unfold bind at 1. rewrite IH; [|assumption|].
    + cbn [_books file ticks seed_entries PyDict.values List.map snd
           List.length]. unfold ret.
      rewrite <- !app_assoc. cbn [List.app]. rewrite Nat.add_succ_r.
      destruct l; destruct (autosave cfg); reflexivity.
    + intros e' He'. cbn [_books]. rewrite mem_app.
      rewrite (Hfresh e' (or_intror He')). cbn [orb].
      unfold PyDict.mem. cbn [PyDict.get].
      destruct (PyStr.eqb (seed_key e') (seed_key e)) eqn:E; [|reflexivity].
      apply str_eqb_eq in E. exfalso. apply H1. rewrite <- E.
      apply in_map. exact He'.
Qed.

Lemma missing_fresh (d : PyDict.dict Book) (e : Entry) :
  keyed_by_isbn d -> In e (missing_seeds d) ->
  PyDict.mem (seed_key e) d = false.
Proof.
  intros Hk He. apply filter_In in He. destruct He as [He Hn].
  rewrite (@seed_key_normalized _ e He).
  rewrite existing_isbns_mem in Hn by exact Hk.
  destruct (PyDict.mem _ d); [discriminate|reflexivity].
Qed.

Lemma initialize_defaults_run (cfg : AppConfig) (w : World) :
  keyed_by_isbn (_books w) ->
  _initialize_defaults cfg w
  = (inr tt,
     {| _books := _books w ++ seed_entries (ticks w) (missing_seeds (_books w));
        file := match missing_seeds (_books w) with
                | [] => file w
                | _ :: _ =>
                    if autosave cfg
                    then save_books
                           (PyDict.values
                              (_books w
                               ++ seed_entries (ticks w)
                                    (missing_seeds (_books w))))
                    else file w
                end;
        ticks := List.length (missing_seeds (_books w)) + ticks w |}).
Proof.
  intros Hk.
  pose proof (seed_loop_run cfg (missing_seeds (_books w)) w
                (@NoDup_map_filter _ _ seed_key _ default_catalog NoDup_seed_keys)
                (fun e => missing_fresh (_books w) e Hk)) as Hrun.
  unfold _initialize_defaults, snapshot.
  unfold bind at 1. unfold bind at 1. unfold get_books at 1.
  unfold ret at 1. cbv beta iota zeta.
  fold (missing_seeds (_books w)).
  destruct (missing_seeds (_books w)) as [|e0 l] eqn:Em.
  - simpl. rewrite app_nil_r. destruct w; reflexivity.
  - unfold bind at 1.
    change (for_each _ (e0 :: l) w) with (for_each (add_seed cfg) (e0 :: l) w).
    rewrite Hrun. reflexivity.
Qed.

Lemma Repository_init_run (w : World) :
  Repository_init w
  = match load_books (file w) with
    | inl e => (inl e, {| _books := []; file := file w; ticks := ticks w |})
    | inr bs =>
        (inr tt,
         {| _books := set_each bs []; file := file w; ticks := ticks w |})
    end.
Proof.
  unfold Repository_init, _load. run.
  destruct (load_books (file w)); reflexivity.
Qed.

Lemma boot_run (cfg : AppConfig) (payload : list Row) (t : nat) :
  boot cfg payload t
  = match load_books payload with
    | inl e => (inl e, {| _books := []; file := payload; ticks := t |})
    | inr bs =>
        (inr tt,
         {| _books := set_each bs []
                      ++ seed_entries t (missing_seeds (set_each bs []));
            file := match missing_seeds (set_each bs []) with
                    | [] => payload
                    | _ :: _ =>
                        if autosave cfg
                        then save_books
                               (PyDict.values
                                  (set_each bs []
                                   ++ seed_entries t
                                        (missing_seeds (set_each bs []))))
                        else payload
                    end;
            ticks := List.length (missing_seeds (set_each bs [])) + t |})
    end.
Proof.
  unfold boot, Service_init. unfold bind at 1.
  rewrite Repository_init_run. cbn [file ticks].
  destruct (load_books payload) as [e|bs]; [reflexivity|].
  rewrite initialize_defaults_run.
  - reflexivity.
  - cbn [_books]. apply keyed_by_isbn_set_each. constructor.
Qed.

Lemma keys_seed_entries (t : nat) (l : list Entry) :
  PyDict.keys (seed_entries t l) = List.map seed_key l.
Proof.
  revert t. induction l as [|e l IH]; intros t; [reflexivity|].
  simpl. rewrite <- (IH (S t)). reflexivity.
Qed.

Lemma keyed_seed_entries (t : nat) (l : list Entry) :
  keyed_by_isbn (seed_entries t l).
Proof.
  revert t. induction l as [|e l IH]; intros t; constructor;
    [reflexivity|apply IH].
Qed.

Lemma seeds_present (d : PyDict.dict Book) (t : nat) (e : Entry) :
  keyed_by_isbn d -> In e default_catalog ->
  PyDict.mem (normalize_isbn (entry_isbn e))
             (d ++ seed_entries t (missing_seeds d)) = true.
Proof.
  intros Hk He. rewrite mem_app.
  destruct (PyDict.mem (normalize_isbn (entry_isbn e)) d) eqn:E;
    [reflexivity|]. cbn [orb].
  apply In_keys_mem. rewrite keys_seed_entries.
  rewrite <- (@seed_key_normalized _ e He). apply in_map.
  apply filter_In. split; [exact He|].
  rewrite existing_isbns_mem, E by exact Hk. reflexivity.
Qed.

Lemma missing_seeds_nil (d : PyDict.dict Book) :
  keyed_by_isbn d ->
  (forall e, In e default_catalog ->
             PyDict.mem (normalize_isbn (entry_isbn e)) d = true) ->
  missing_seeds d = [].
Proof.
  intros Hk Hall. unfold missing_seeds.
  induction default_catalog as [|e l IH]; [reflexivity|].
  cbn [List.filter].
  rewrite existing_isbns_mem, (Hall e (or_introl eq_refl)) by exact Hk.
  cbn [negb]. apply IH. intros e' He'. apply Hall. right. exact He'.
Qed.

Lemma keyed_by_isbn_app (d1 d2 : PyDict.dict Book) :
  keyed_by_isbn d1 -> keyed_by_isbn d2 -> keyed_by_isbn (d1 ++ d2).
Proof. intros H1 H2. apply Forall_app. split; assumption. Qed.

Lemma NoDup_keys_topped_up (d : PyDict.dict Book) (t : nat) :
  keyed_by_isbn d -> NoDup (PyDict.keys d) ->
  NoDup (PyDict.keys (d ++ seed_entries t (missing_seeds d))).
Proof.
  intros Hk Hnd. rewrite keys_app, keys_seed_entries.
  apply NoDup_app; [exact Hnd| |].
  - apply NoDup_map_filter, NoDup_seed_keys.
  - intros k Hin Hin2. apply in_map_iff in Hin2.
    destruct Hin2 as (e & <- & He).
    apply In_keys_mem in Hin.
    rewrite (missing_fresh d e Hk He) in Hin. discriminate.
Qed.

Lemma boot_keyed (cfg : AppConfig) (payload : list Row) (t : nat)
      (w : World) :
  boot cfg payload t = (inr tt, w) ->
  keyed_by_isbn (_books w) /\ NoDup (PyDict.keys (_books w)).
Proof.
  rewrite boot_run. destruct (load_books payload) as [e|bs]; [discriminate|].
  intros H. inv H. cbn [_books].
  assert (Hk0 : keyed_by_isbn (set_each bs []))
    by (apply keyed_by_isbn_set_each; constructor).
  assert (Hn0 : NoDup (PyDict.keys (set_each bs [])))
    by (apply NoDup_keys_fold_set; constructor).
  split.
  - apply keyed_by_isbn_app; [exact Hk0|apply keyed_seed_entries].
  - apply NoDup_keys_topped_up; assumption.
Qed.

(** X16.  [_initialize_defaults] never raises on a mapping keyed by the
    [isbn] of its books: it files the missing seed entries after the
    entries that are there, in the order of the default catalog, with
    one reading of the clock each, a title and an author that are not
    stripped, and no borrower; the entries that were there are
    untouched; afterwards every seed ISBN is present.  The data file is
    written only when an entry was missing and autosave is on; when no
    entry is missing nothing changes at all. *)
Theorem initialize_defaults_adds_missing (cfg : AppConfig) (w : World) :
  keyed_by_isbn (_books w) ->
  exists w',
    _initialize_defaults cfg w = (inr tt, w')
    /\ _books w' = _books w ++ seed_entries (ticks w) (missing_seeds (_books w))
    /\ ticks w' = List.length (missing_seeds (_books w)) + ticks w
    /\ file w' = (if autosave cfg
                     && negb (Nat.eqb (List.length (missing_seeds (_books w)))
                                      0)
                  then save_books (PyDict.values (_books w'))
                  else file w)
    /\ (missing_seeds (_books w) = [] -> w' = w)
    /\ (forall k, PyDict.mem k (_books w) = true ->
                  PyDict.get k (_books w') = PyDict.get k (_books w))
    /\ (forall e, In e default_catalog ->
                  PyDict.mem (normalize_isbn (entry_isbn e)) (_books w')
                  = true).
Proof.
  intros Hk. eexists. split; [apply initialize_defaults_run; exact Hk|].
  cbn [_books file ticks]. split; [reflexivity|]. split; [reflexivity|].
  split; [|split; [|split]].
  - destruct (missing_seeds (_books w)); destruct (autosave cfg); reflexivity.
  - intros E. rewrite E. simpl. rewrite app_nil_r. destruct w; reflexivity.
  - intros k Hm. rewrite get_app. apply mem_get in Hm.
    destruct Hm as [v Hv]. rewrite Hv. reflexivity.
  - intros e He. apply seeds_present; assumption.
Qed.

(** X17.  A service constructed, with autosave on, on the data file that a
    constructed service left holds the same catalog, entry for entry
    and in the same order, reads no clock and leaves the file as it
    is. *)
Theorem restart_reproduces_catalog {L : DatetimeLaws}
    (cfg : AppConfig) (payload : list Row) (t t' : nat) (w : World) :
  autosave cfg = true ->
  boot cfg payload t = (inr tt, w) ->
  boot cfg (file w) t'
  = (inr tt, {| _books := _books w; file := file w; ticks := t' |}).
Proof.
  intros Ha Hb. rewrite boot_run in Hb.
  destruct (load_books payload) as [e|bs] eqn:Hl; [discriminate|].
  assert (Hk0 : keyed_by_isbn (set_each bs []))
    by (apply keyed_by_isbn_set_each; constructor).
  assert (Hn0 : NoDup (PyDict.keys (set_each bs [])))
    by (apply NoDup_keys_fold_set; constructor).
  inv Hb. cbn [_books file]. rewrite Ha.
  destruct (missing_seeds (set_each bs [])) as [|e0 l] eqn:Em.
  - rewrite boot_run, Hl, Em. cbn [seed_entries List.length Nat.add].
    reflexivity.
  - rewrite <- Em.
    set (d := set_each bs [] ++ seed_entries t (missing_seeds (set_each bs []))).
    assert (Hkd : keyed_by_isbn d)
      by (apply keyed_by_isbn_app; [exact Hk0|apply keyed_seed_entries]).
    assert (Hnd : NoDup (PyDict.keys d))
      by (apply NoDup_keys_topped_up; assumption).
    assert (Hmd : missing_seeds d = []).
    { apply missing_seeds_nil; [exact Hkd|].
      intros e He. apply seeds_present; assumption. }
    rewrite boot_run, load_books_save_books.
    rewrite (set_each_values d Hkd Hnd), Hmd.
    cbn [seed_entries List.length Nat.add]. rewrite app_nil_r.
    reflexivity.
Qed.

(** X18.  [reset_catalog] always succeeds and leaves an empty catalog
    and an empty data file, whatever the autosave flag, so that no ISBN
    is found; a service constructed on that file then holds the five
    default books, in the order of the default catalog, one reading of
    the clock each; when autosave is on the data file then holds
    exactly these five books, with the ISBN, title and author of the
    default catalog, and when autosave is off it is still empty. *)
Theorem reset_then_restart (cfg : AppConfig) (w : World) :
  exists w',
    reset_catalog cfg w = (inr tt, w')
    /\ _books w' = [] /\ file w' = [] /\ ticks w' = ticks w
    /\ (forall i, exists msg,
          get_book i w' = (inl (BookNotFoundError msg), w'))
    /\ forall t, exists w'',
         boot cfg (file w') t = (inr tt, w'')
         /\ _books w'' = seed_entries t default_catalog
         /\ PyDict.keys (_books w'')
            = List.map entry_isbn default_catalog
         /\ ticks w'' = 5 + t
         /\ file w''
            = (if autosave cfg
               then save_books (PyDict.values (_books w''))
               else [])
         /\ (autosave cfg = true ->
             List.map (fun r => (row_isbn r, row_title r, row_author r,
                                 row_borrower r, row_borrowed_at r))
                      (file w'')
             = List.map (fun e => (entry_isbn e, entry_title e,
                                   entry_author e, None, None))
                        default_catalog).
Proof.
  eexists. split; [reflexivity|]. cbn [_books file ticks].
  split; [reflexivity|]. split; [reflexivity|]. split; [reflexivity|].
  split.
  - intros i. eexists. reflexivity.
  - intros t. eexists. split; [rewrite boot_run; reflexivity|].
    cbn [_books file ticks]. split; [reflexivity|]. split.
    + change (set_each [] [] ++ seed_entries t (missing_seeds (set_each [] [])))
        with (seed_entries t default_catalog).
      rewrite keys_seed_entries. apply seed_keys.
    + split; [reflexivity|]. split.
      * destruct (autosave cfg); reflexivity.
      * intros ->. reflexivity.
Qed.
End Construction.

(* ===================================================================== *)
(** * Loading a data file *)
(* ===================================================================== *)

Section Loading.
Context {U : UnicodeData} {D : DatetimeLib}.

Lemma from_dict_error (r : Row) (e : Exn) :
  _from_dict r = inl e -> e = ValueError.
Proof.
  unfold _from_dict, parse_optional, parse.
  destruct (fromisoformat (row_added_at r)); [|congruence].
  destruct (row_borrowed_at r) as [[|c s]|]; try discriminate.
  destruct (fromisoformat (c :: s)); [discriminate|congruence].
Qed.

Lemma from_dict_fails (r : Row) :
  _from_dict r = inl ValueError
  <-> fromisoformat (row_added_at r) = None
      \/ exists s, row_borrowed_at r = Some s /\ s <> []
                   /\ fromisoformat s = None.
Proof.
  unfold _from_dict, parse_optional, parse.
  destruct (fromisoformat (row_added_at r)) as [t|].
  - destruct (row_borrowed_at r) as [[|c s]|].
    + split; [discriminate|].
      intros [H|(s & E & N & _)]; [discriminate|]. inv E. congruence.
    + destruct (fromisoformat (c :: s)) eqn:F.
      * split; [discriminate|].
        intros [H|(s' & E & _ & H)]; [discriminate|]. inv E. congruence.
      * split; [|reflexivity]. intros _. right. exists (c :: s).
        repeat split; [discriminate|exact F].
    + split; [discriminate|].
      intros [H|(s & E & _)]; discriminate.
  - split; [intros _; left; reflexivity|reflexivity].
Qed.

Lemma load_books_error (payload : list Row) (e : Exn) :
  load_books payload = inl e -> e = ValueError.
Proof.
  induction payload as [|r rest IH]; simpl; [discriminate|].
  destruct (_from_dict r) as [e0|b] eqn:F.
  - intros H. inv H. exact (from_dict_error r e F).
  - destruct (load_books rest) as [e1|bs]; [|discriminate].
    intros H. inv H. apply IH. reflexivity.
Qed.

(** X19.  [load_books] is all or nothing: it returns one book for each row,
    in order, when every row parses, and raises [ValueError] as soon
    as one row does not; a row fails exactly when its [added_at] does
    not parse or its [borrowed_at] is a non-empty string that does not
    parse.  A service constructed on a file with such a row raises
    [ValueError] with nothing loaded and the file as it was. *)
Theorem load_books_all_or_nothing (payload : list Row) :
  (forall bs,
     load_books payload = inr bs
     <-> Forall2 (fun r b => _from_dict r = inr b) payload bs)
  /\ (load_books payload = inl ValueError
      <-> Exists
            (fun r =>
               fromisoformat (row_added_at r) = None
               \/ exists s, row_borrowed_at r = Some s /\ s <> []
                            /\ fromisoformat s = None)
            payload)
  /\ (forall e, load_books payload = inl e -> e = ValueError)
  /\ (forall cfg t e,
        load_books payload = inl e ->
        boot cfg payload t
        = (inl ValueError, {| _books := []; file := payload; ticks := t |})).
Proof.
  split; [|split; [|split]].
  - induction payload as [|r rest IH]; intros bs; simpl.
    + split; [intros H; inv H; constructor|intros H; inv H; reflexivity].
    + destruct (_from_dict r) as [e|b] eqn:F.
      * split; [discriminate|]. intros H. inv H. congruence.
      * destruct (load_books rest) as [e|bs0].
        -- split; [discriminate|]. intros H. inv H.
           apply IH in H4. discriminate.
        -- split.
           ++ intros H. inv H. constructor; [exact F|].
              apply IH. reflexivity.
           ++ intros H. inv H. apply IH in H4. congruence.
  - induction payload as [|r rest IH]; simpl.
    + split; [discriminate|intros H; inv H].
    + destruct (_from_dict r) as [e|b] eqn:F.
      * assert (e = ValueError) by exact (from_dict_error r e F). subst e.
        split; [|reflexivity]. intros _. left. apply from_dict_fails, F.
      * destruct (load_books rest) as [e|bs0] eqn:Hl.
        -- assert (e = ValueError) by exact (load_books_error rest e Hl).
           subst e. split; [|reflexivity]. intros _. right.
           apply IH. reflexivity.
        -- split; [discriminate|]. intros H. inv H.
           ++ apply from_dict_fails in H1. congruence.
           ++ apply IH in H1. discriminate.
  - intros e. apply load_books_error.
  - intros cfg t e Hl.
    assert (e = ValueError) by exact (load_books_error payload e Hl). subst e.
    rewrite boot_run, Hl. reflexivity.
Qed.
End Loading.

(* ===================================================================== *)
(** * The snapshot and the search *)
(* ===================================================================== *)

Section Discovery.
Context {U : UnicodeData} {D : DatetimeLib} {Lo : UnicodeLower}.

(** X20.  The snapshot that [catalog_snapshot] hands out is, row for row,
    the payload that [_persist] writes to the data file, and loading it
    gives the books of the catalog back; the call changes nothing. *)
Theorem catalog_snapshot_is_stored_payload {L : DatetimeLaws} (w : World) :
  exists rows,
    catalog_snapshot w = (inr rows, w)
    /\ rows = save_books (PyDict.values (_books w))
    /\ rows = file (snd (_persist w))
    /\ load_books rows = inr (PyDict.values (_books w)).
Proof.
  eexists. split; [reflexivity|]. split; [reflexivity|].
  split; [reflexivity|]. apply load_books_save_books.
Qed.

Lemma is_prefix_spec (x s : str) :
  is_prefix x s = true <-> exists post, s = x ++ post.
Proof.
  revert s. induction x as [|c x IH]; intros s; simpl.
  - split; [intros _; exists s; reflexivity|reflexivity].
  - destruct s as [|d s].
    + split; [discriminate|intros [post H]; discriminate].
    + rewrite andb_true_iff, N.eqb_eq, IH. split.
      * intros [-> [post ->]]. exists post. reflexivity.
      * intros [post H]. inv H. split; [reflexivity|]. exists post.
        reflexivity.
Qed.

Lemma is_infix_contains (x s : str) :
  is_infix x s = true <-> contains x s.
Proof.
  unfold contains. induction s as [|c s IH].
  - cbn [is_infix]. rewrite orb_false_r, is_prefix_spec. split.
    + intros [post H]. exists [], post. exact H.
    + intros (pre & post & H). symmetry in H.
      apply app_eq_nil in H. destruct H as [-> H].
      apply app_eq_nil in H. destruct H as [-> ->]. exists []. reflexivity.
  - cbn [is_infix]. rewrite orb_true_iff, is_prefix_spec, IH. split.
    + intros [[post H]|(pre & post & H)].
      * exists [], post. exact H.
      * exists (c :: pre), post. rewrite H. reflexivity.
    + intros (pre & post & H). destruct pre as [|c' pre].
      * left. exists post. exact H.
      * right. inv H. exists pre, post. reflexivity.
Qed.

Lemma ascii_lower_upper (c : codepoint) :
  is_ascii c = true ->
  is_ascii (ascii_upper c) = true
  /\ ascii_lower (ascii_upper c) = ascii_lower c.
Proof.
  unfold is_ascii, ascii_upper, ascii_lower. intros H. bool_to_prop.
  destruct (N.leb 97 c && N.leb c 122) eqn:E.
  - bool_to_prop. split; [apply N.ltb_lt; lia|].
    replace (N.leb 65 (c - 32) && N.leb (c - 32) 90) with true
      by (symmetry; apply andb_true_iff; split; apply N.leb_le; lia).
    replace (N.leb 65 c && N.leb c 90) with false
      by (symmetry; apply andb_false_iff; right; apply N.leb_gt; lia).
    lia.
  - split; [apply N.ltb_lt; exact H|reflexivity].
Qed.

Lemma lower_upper_ascii (f : str) :
  ascii_str f -> lower (List.map ascii_upper f) = lower f.
Proof.
  intros Hf. unfold lower.
  assert (H1 : List.forallb is_ascii f = true).
  { apply forallb_forall. unfold ascii_str in Hf.
    rewrite Forall_forall in Hf. exact Hf. }
  assert (H2 : List.forallb is_ascii (List.map ascii_upper f) = true).
  { apply forallb_forall. intros c Hc. apply in_map_iff in Hc.
    destruct Hc as (c0 & <- & Hc0). unfold ascii_str in Hf.
    rewrite Forall_forall in Hf. apply ascii_lower_upper, Hf, Hc0. }
  rewrite H1, H2, map_map. apply map_ext_in. intros c Hc.
  unfold ascii_str in Hf. rewrite Forall_forall in Hf.
  apply ascii_lower_upper, Hf, Hc.
Qed.

Lemma matching (g : Book -> str) (f : str) (l : list Book) :
  (forall b,
     In b (List.filter (fun b => is_infix (lower f) (lower (g b))) l)
     <-> In b l /\ contains (lower f) (lower (g b)))
  /\ List.filter (fun b => is_infix (lower []) (lower (g b))) l = l
  /\ (ascii_str f ->
      List.filter
        (fun b => is_infix (lower (List.map ascii_upper f)) (lower (g b))) l
      = List.filter (fun b => is_infix (lower f) (lower (g b))) l).
Proof.
  split; [|split].
  - intros b. rewrite filter_In, is_infix_contains. reflexivity.
  - induction l as [|b l IH]; [reflexivity|]. cbn [List.filter].
    replace (is_infix (lower []) (lower (g b))) with true.
    + rewrite IH. reflexivity.
    + symmetry. apply is_infix_contains. exists [], (lower (g b)).
      reflexivity.
  - intros Hf. rewrite (lower_upper_ascii f Hf). reflexivity.
Qed.

(** X21.  [search_by_title] and [search_by_author] change nothing and
    return the books of the catalog whose title (author) contains the
    fragment once both are put in lower case: these books and no
    others, in the order of the catalog and each as often as the
    catalog holds it.  The empty fragment matches every book, and an
    ASCII fragment written in upper case gives the same result. *)
Theorem search_ignores_case (w : World) (f : str) :
  (exists p,
     (forall b, p b = true <-> contains (lower f) (lower (title b)))
     /\ search_by_title f w
        = (inr (List.filter p (PyDict.values (_books w))), w)
     /\ search_by_title [] w = (inr (PyDict.values (_books w)), w)
     /\ (ascii_str f ->
         search_by_title (List.map ascii_upper f) w = search_by_title f w))
  /\ (exists p,
        (forall b, p b = true <-> contains (lower f) (lower (author b)))
        /\ search_by_author f w
           = (inr (List.filter p (PyDict.values (_books w))), w)
        /\ search_by_author [] w = (inr (PyDict.values (_books w)), w)
        /\ (ascii_str f ->
            search_by_author (List.map ascii_upper f) w
            = search_by_author f w)).
Proof.
  split.
  - destruct (matching title f (PyDict.values (_books w))) as (_ & M2 & M3).
    exists (fun b => is_infix (lower f) (lower (title b))).
    split; [intros b; apply is_infix_contains|]. split; [reflexivity|].
    split.
    + unfold search_by_title, snapshot. run. rewrite M2. reflexivity.
    + intros Hf. unfold search_by_title, snapshot. run.
      rewrite (M3 Hf). reflexivity.
  - destruct (matching author f (PyDict.values (_books w))) as (_ & M2 & M3).
    exists (fun b => is_infix (lower f) (lower (author b))).
    split; [intros b; apply is_infix_contains|]. split; [reflexivity|].
    split.
    + unfold search_by_author, find_by_author. run. rewrite M2. reflexivity.
    + intros Hf. unfold search_by_author, find_by_author. run.
      rewrite (M3 Hf). reflexivity.
Qed.
End Discovery.

(* ===================================================================== *)
(** * The command line *)
(* ===================================================================== *)

Section CliFacts.
Context {U : UnicodeData} {D : DatetimeLib} {Ord : DatetimeOrder}
        {Lo : UnicodeLower}.

Lemma render_runs
    (books : option (list Book)) (available_only : bool) (w : World) :
  books <> None \/ available_only = true
  \/ comparable_keys (PyDict.values (_books w)) = true ->
  exists t, render_catalog_table books available_only w = (inr (Some t), w).
Proof.
  intros Hok. destruct books as [given|].
  - destruct (table_rectangular given) as (ws & lines & E & _).
    eexists. unfold render_catalog_table, bind, ret. rewrite E. reflexivity.
  - destruct (Service_list_books_runs available_only w) as [bs Eb].
    { destruct Hok as [H|H]; [congruence|exact H]. }
    destruct (table_rectangular bs) as (ws & lines & E & _).
    eexists. unfold render_catalog_table, bind. rewrite Eb.
    unfold ret. rewrite E. reflexivity.
Qed.

Lemma borrow_book_available
    (cfg : AppConfig) (w : World) (i who : str) (b : Book) :
  catalog_wf (_books w) ->
  PyDict.get (normalize_isbn i) (_books w) = Some b ->
  is_available b = true ->
  exists b' w', borrow_book cfg i who w = (inr b', w').
Proof.
  intros W Hg Ha. destruct (W _ _ Hg) as [_ Hk].
  run. rewrite Hg, Ha. cbn [negb].
  rewrite Hk, mem_set, str_eqb_refl. cbn [orb].
  destruct (autosave cfg); eexists; eexists; reflexivity.
Qed.

Lemma return_book_borrowed
    (cfg : AppConfig) (w : World) (i : str) (b : Book) :
  catalog_wf (_books w) ->
  PyDict.get (normalize_isbn i) (_books w) = Some b ->
  is_available b = false ->
  exists b' w', return_book cfg i w = (inr b', w').
Proof.
  intros W Hg Ha. destruct (W _ _ Hg) as [_ Hk].
  run. rewrite Hg, Ha.
  rewrite Hk, mem_set, str_eqb_refl. cbn [orb].
  destruct (autosave cfg); eexists; eexists; reflexivity.
Qed.

Ltac finish :=
  eexists; eexists; split; [reflexivity|]; split; [reflexivity|];
  cbn [exit_code stdout stderr printed handled already_exists not_found
       already_borrowed not_borrowed Nat.eqb List.length];
  repeat split; reflexivity.

(** X22.  The exit codes of [main], once the service is constructed
    and, for [import], the file read and decoded, on a catalog of the
    data model.  One exception can leave [main]: the [TypeError] of
    [list] without [--available] on a catalog that holds a naive and an
    aware [added_at].  In every other run [main] returns: [add] exits
    with 2 when the normalised form of the normalised ISBN is a key of
    the catalog, [borrow] and [return] with 4 when the normalised ISBN
    is not a key and with 3 when the book is borrowed already or is not
    borrowed; every other run exits with 0.  A run that exits with 0
    prints nothing on the error stream; a run that fails prints one
    message there and nothing on the output, and leaves the catalog and
    the data file as they were. *)
Theorem main_exit_codes (cfg : AppConfig) (cmd : Command) (w : World) :
  catalog_wf (_books w) ->
  (cmd = CmdList false ->
   comparable_keys (PyDict.values (_books w)) = false ->
   main cfg cmd w = (None, w))
  /\ (cmd <> CmdList false
      \/ comparable_keys (PyDict.values (_books w)) = true ->
      exists out w',
        main cfg cmd w = (Some out, w')
        /\ exit_code out
           = match cmd with
             | CmdAdd i _ _ =>
                 if PyDict.mem (normalize_isbn (normalize_isbn i)) (_books w)
                 then 2 else 0
             | CmdBorrow i _ =>
                 match PyDict.get (normalize_isbn i) (_books w) with
                 | None => 4
                 | Some b => if is_available b then 0 else 3
                 end
             | CmdReturn i =>
                 match PyDict.get (normalize_isbn i) (_books w) with
                 | None => 4
                 | Some b => if is_available b then 3 else 0
                 end
             | _ => 0
             end
        /\ if Nat.eqb (exit_code out) 0 then stderr out = []
           else stdout out = [] /\ List.length (stderr out) = 1
                /\ _books w' = _books w /\ file w' = file w).
Proof.
  intros W. split.
  { intros -> H. unfold main, command, bind.
    rewrite (render_raises w H). reflexivity. }
  intros Hok. destruct cmd as [i t a|available|i who|i|f|a| |payload|].
  - unfold main, command. run.
    destruct (PyDict.mem (normalize_isbn (normalize_isbn i)) (_books w)).
    + finish.
    + destruct (autosave cfg); finish.
  - destruct (render_runs None available w) as [t E].
    { right. destruct available; [left; reflexivity|right].
      destruct Hok as [H|H]; [congruence|exact H]. }
    unfold main, command, bind. rewrite E. finish.
  - destruct (PyDict.get (normalize_isbn i) (_books w)) as [b|] eqn:Hg.
    + destruct (is_available b) eqn:Ha.
      * destruct (borrow_book_available cfg w i who b W Hg Ha)
          as (b' & w' & E).
        unfold main, command, bind. rewrite E. finish.
      * assert (Hb : exists x, borrower b = Some x).
        { unfold is_available in Ha.
          destruct (borrower b) as [x|]; [eauto|discriminate]. }
        destruct Hb as [x Hb].
        destruct (@borrow_book_borrowed _ _ cfg w i who x b Hg Hb)
          as (msg & E & _).
        unfold main, command, bind. rewrite E. finish.
    + assert (E : borrow_book cfg i who w = (inl (not_found i), w))
        by (run; rewrite Hg; reflexivity).
      unfold main, command, bind. rewrite E. finish.
  - destruct (PyDict.get (normalize_isbn i) (_books w)) as [b|] eqn:Hg.
    + destruct (is_available b) eqn:Ha.
      * assert (Hb : borrower b = None).
        { unfold is_available in Ha.
          destruct (borrower b); [discriminate|reflexivity]. }
        destruct (@return_book_not_borrowed _ _ cfg w i b Hg Hb) as (msg & E).
        unfold main, command, bind. rewrite E. finish.
      * destruct (return_book_borrowed cfg w i b W Hg Ha) as (b' & w' & E).
        unfold main, command, bind. rewrite E. finish.
    + assert (E : return_book cfg i w = (inl (not_found i), w))
        by (run; rewrite Hg; reflexivity).
      unfold main, command, bind. rewrite E. finish.
  - remember (List.filter
                (fun book => is_infix (lower f) (lower (title book)))
                (PyDict.values (_books w))) as bs eqn:Ebs.
    assert (E : search_by_title f w = (inr bs, w))
      by (rewrite Ebs; reflexivity).
    destruct bs as [|b bs].
    + unfold main, command, bind. rewrite E. finish.
    + destruct (render_runs (Some (b :: bs)) false w) as [t E2];
        [left; discriminate|].
      unfold main, command, bind. rewrite E, E2. finish.
  - remember (List.filter
                (fun book => is_infix (lower a) (lower (author book)))
                (PyDict.values (_books w))) as bs eqn:Ebs.
    assert (E : search_by_author a w = (inr bs, w))
      by (rewrite Ebs; reflexivity).
    destruct bs as [|b bs].
    + unfold main, command, bind. rewrite E. finish.
    + destruct (render_runs (Some (b :: bs)) false w) as [t E2];
        [left; discriminate|].
      unfold main, command, bind. rewrite E, E2. finish.
  - assert (E : usage_summary w
                = (inr (Counter (List.map author (PyDict.values (_books w)))),
                   w)) by reflexivity.
    unfold main, command, bind. rewrite E. finish.
  - unfold main, command, bind. rewrite import_catalog_run. finish.
  - unfold main, command. run. finish.
Qed.
End CliFacts.

(* ===================================================================== *)
(** * The list of available books *)
(* ===================================================================== *)

Section AvailableList.
Context {U : UnicodeData} {D : DatetimeLib}.

Lemma filter_all {A} (p : A -> bool) (l : list A) :
  Forall (fun x => p x = true) l -> List.filter p l = l.
Proof.
  induction 1 as [|x l Hx _ IH]; [reflexivity|].
  simpl. rewrite Hx, IH. reflexivity.
Qed.

Lemma keyed_values_other (d : PyDict.dict Book) (k : str) :
  keyed_by_isbn d -> ~ In k (PyDict.keys d) ->
  Forall (fun x => negb (PyStr.eqb (isbn x) k) = true) (PyDict.values d).
Proof.
  intros Hk Hn. apply Forall_forall. intros x Hx.
  unfold PyDict.values in Hx. apply in_map_iff in Hx.
  destruct Hx as ([k0 x0] & E & Hin). simpl in E. subst x0.
  unfold keyed_by_isbn in Hk. rewrite Forall_forall in Hk.
  pose proof (Hk _ Hin) as E. simpl in E.
  apply negb_true_iff, str_eqb_neq. intros Ek. apply Hn.
  rewrite <- Ek, <- E. unfold PyDict.keys.
  change k0 with (fst (k0, x)). apply in_map. exact Hin.
Qed.

Lemma available_after_set (d : PyDict.dict Book) (k : str) (b b1 : Book) :
  keyed_by_isbn d -> NoDup (PyDict.keys d) ->
  PyDict.get k d = Some b ->
  is_available b = true -> is_available b1 = false ->
  List.filter is_available (PyDict.values (PyDict.set k b1 d))
  = List.filter (fun x => negb (PyStr.eqb (isbn x) k))
                (List.filter is_available (PyDict.values d)).
Proof.
  intros Hk Hnd Hg Ha Hb.
  induction d as [|[k0 v0] d IH]; [discriminate|].
  apply Forall_cons_iff in Hk. destruct Hk as [H1 H2].
  apply NoDup_cons_iff in Hnd. destruct Hnd as [H3 H4].
  simpl in H1. simpl in Hg. simpl.
  destruct (PyStr.eqb k k0) eqn:E.
  - apply str_eqb_eq in E. subst k. injection Hg as Hv. subst v0. simpl.
    rewrite Hb, Ha. simpl. rewrite <- H1, str_eqb_refl. simpl.
    symmetry. apply filter_all.
    pose proof (keyed_values_other d k0 H2 H3) as F.
    rewrite Forall_forall in F. apply Forall_forall. intros x Hx.
    apply filter_In in Hx. apply F, Hx.
  - simpl. rewrite (IH H2 H4 Hg).
    destruct (is_available v0); [|reflexivity]. simpl.
    rewrite <- H1, str_eqb_sym, E. reflexivity.
Qed.

(** X15.  Borrowing an available book takes this book, and no other, off the
    list of available books: the list afterwards is the list before
    without the book of this ISBN, in the same order. *)
Theorem borrowed_book_not_listed
    (cfg : AppConfig) (w : World) (i who : str) (b : Book) :
  keyed_by_isbn (_books w) ->
  NoDup (PyDict.keys (_books w)) ->
  stable_isbn i ->
  PyDict.get (normalize_isbn i) (_books w) = Some b ->
  is_available b = true ->
  exists b1 w1 listed,
    find_available w = (inr listed, w)
    /\ In b listed
    /\ borrow_book cfg i who w = (inr b1, w1)
    /\ find_available w1
       = (inr (List.filter
                 (fun x => negb (PyStr.eqb (isbn x) (normalize_isbn i)))
                 listed), w1)
    /\ Forall (fun x => isbn x <> normalize_isbn i)
              (List.filter
                 (fun x => negb (PyStr.eqb (isbn x) (normalize_isbn i)))
                 listed).
Proof.
  intros Hk Hnd Hs Hg Ha. unfold stable_isbn in Hs.
  set (k := normalize_isbn i) in *.
  assert (Hi : isbn b = k).
  { unfold keyed_by_isbn in Hk. rewrite Forall_forall in Hk.
    symmetry. exact (Hk _ (get_In _ _ Hg)). }
  set (b1 := set_isbn (checkout b who (utcnow_at (ticks w))) k).
  assert (E : exists w1,
             borrow_book cfg i who w = (inr b1, w1)
             /\ _books w1 = PyDict.set k b1 (_books w)).
  { run. fold k. rewrite Hg, Ha. cbn [negb]. rewrite Hi, Hs.
    rewrite mem_set, str_eqb_refl. cbn [orb]. fold b1.
    rewrite set_set.
    destruct (autosave cfg); eexists; split; reflexivity. }
  destruct E as (w1 & Hrun & Hb1).
  exists b1, w1, (List.filter is_available (PyDict.values (_books w))).
  split; [reflexivity|]. split.
  - apply filter_In. split; [|exact Ha].
    unfold PyDict.values. change b with (snd (k, b)). apply in_map.
    exact (get_In _ _ Hg).
  - split; [exact Hrun|]. split.
    + unfold find_available. run. rewrite Hb1.
      rewrite (available_after_set (_books w) k b b1 Hk Hnd Hg Ha eq_refl).
      reflexivity.
    + apply Forall_forall. intros x Hx. apply filter_In in Hx.
      destruct Hx as [_ Hx]. apply negb_true_iff, str_eqb_neq in Hx.
      exact Hx.
Qed.
End AvailableList.

(* ===================================================================== *)
(** * Runs on the seeded catalog *)
(* ===================================================================== *)

Lemma none_by_check {A} (o : option A) :
  match o with None => true | Some _ => false end = true -> o = None.
Proof. destruct o; [discriminate|reflexivity]. Qed.

Section MoreRuns.
#[local] Existing Instance ucd_fragment.
#[local] Existing Instance naive_datetime.
#[local] Existing Instance naive_datetime_laws.
#[local] Existing Instance naive_order.
#[local] Existing Instance naive_order_laws.
#[local] Existing Instance lower_fragment.

Lemma boot_seeded : boot cfg_on [] 0 = (inr tt, w_seeded).
Proof.
  apply (@run_ok _ _ (boot cfg_on [] 0) tt). vm_compute. reflexivity.
Qed.

Lemma seeded_wf : catalog_wf (_books w_seeded).
Proof. apply catalog_wfb_sound. vm_compute. reflexivity. Qed.

Lemma seeded_alchemist :
  PyDict.get (normalize_isbn alchemist) (_books w_seeded)
  = Some (held alchemist w_seeded).
Proof. apply held_get. vm_compute. reflexivity. Qed.

Lemma list_books_sorted_witness :
  exists bs,
    Repository_list_books w_seeded = (inr bs, w_seeded)
    /\ Permutation bs (PyDict.values (_books w_seeded)).
Proof.
  destruct (list_books_sorted w_seeded) as (bs & E & _ & P & _).
  exists bs. split; assumption.
Defined.

Lemma absent_isbn_not_found_witness :
  PyDict.mem (normalize_isbn unknown) (_books w_seeded) = false
  /\ exists msg,
       contains unknown msg
       /\ get_book unknown w_seeded = (inl (BookNotFoundError msg), w_seeded).
Proof.
  assert (P : PyDict.mem (normalize_isbn unknown) (_books w_seeded) = false)
    by (vm_compute; reflexivity).
  split; [exact P|].
  destruct (absent_isbn_not_found cfg_on w_seeded unknown P)
    as (msg & C & G & _).
  exists msg. split; assumption.
Defined.

Lemma remove_book_removes_witness :
  NoDup (PyDict.keys (_books w_seeded))
  /\ exists w',
       remove_book cfg_on alchemist w_seeded = (inr tt, w')
       /\ PyDict.mem (normalize_isbn alchemist) (_books w') = false
       /\ List.length (_books w') = 4.
Proof.
  assert (N : NoDup (PyDict.keys (_books w_seeded)))
    by (exact (proj2 (boot_keyed cfg_on [] 0 w_seeded boot_seeded))).
  split; [exact N|].
  destruct (remove_book_removes cfg_on w_seeded alchemist
              (held alchemist w_seeded) N seeded_alchemist)
    as (w' & R & M & _ & L & _).
  exists w'. split; [exact R|]. split; [exact M|].
  assert (L5 : List.length (_books w_seeded) = 5) by (vm_compute; reflexivity).
  rewrite L5 in L. injection L as L. exact L.
Defined.

Lemma register_book_then_get_witness :
  stable_isbn (lit "12-3x")
  /\ PyDict.mem (normalize_isbn (lit "12-3x")) (_books w_seeded) = false
  /\ exists b w',
       register_book cfg_on (lit "12-3x") (lit " Emma ") (lit "Austen")
                     w_seeded
       = (inr b, w')
       /\ get_book (lit "123X") w' = (inr b, w').
Proof.
  assert (S : stable_isbn (lit "12-3x"))
    by (unfold stable_isbn; vm_compute; reflexivity).
  assert (P : PyDict.mem (normalize_isbn (lit "12-3x")) (_books w_seeded)
              = false) by (vm_compute; reflexivity).
  split; [exact S|]. split; [exact P|].
  destruct (register_book_then_get cfg_on w_seeded (lit "12-3x")
              (lit " Emma ") (lit "Austen") S P)
    as (b & w' & R & _ & _ & _ & _ & G).
  exists b, w'. split; [exact R|]. apply G. vm_compute. reflexivity.
Defined.

Lemma persist_then_load_witness :
  keyed_by_isbn (_books w_seeded)
  /\ NoDup (PyDict.keys (_books w_seeded))
  /\ exists w',
       Repository_init (snd (_persist w_seeded)) = (inr tt, w')
       /\ _books w' = _books w_seeded.
Proof.
  destruct (boot_keyed cfg_on [] 0 w_seeded boot_seeded) as [K N].
  split; [exact K|]. split; [exact N|].
  destruct (persist_then_load w_seeded (snd (_persist w_seeded)) K N eq_refl)
    as (w' & R & B & _).
  exists w'. split; assumption.
Defined.

Lemma autosave_off_keeps_file_witness :
  autosave cfg_off = false
  /\ file (snd (call cfg_off (CallRemove alchemist) w_seeded))
     = file w_seeded.
Proof.
  split; [reflexivity|].
  exact (autosave_off_keeps_file cfg_off (CallRemove alchemist) w_seeded
           eq_refl).
Defined.

Lemma seeded_removal :
  remove_book cfg_on (entry_isbn the_alchemist) w_seeded
  = (inr tt, w_removed).
Proof.
  assert (F : fst (remove_book cfg_on (entry_isbn the_alchemist) w_seeded)
              = inr tt) by (vm_compute; reflexivity).
  exact (run_ok _ F).
Qed.

Lemma seeded_unknown :
  PyDict.get (normalize_isbn unknown) (_books w_seeded) = None.
Proof. apply mem_false_get. vm_compute. reflexivity. Qed.

Lemma autosave_on_file_in_sync_witness :
  autosave cfg_on = true
  /\ call cfg_on (CallRemove (entry_isbn the_alchemist)) w_seeded
     = (inr [], w_removed)
  /\ file w_removed = save_books (PyDict.values (_books w_removed)).
Proof.
  assert (R : call cfg_on (CallRemove (entry_isbn the_alchemist)) w_seeded
              = (inr [], w_removed)).
  { cbn [call]. unfold bind. rewrite seeded_removal. reflexivity. }
  split; [reflexivity|]. split; [exact R|].
  exact (autosave_on_file_in_sync cfg_on
           (CallRemove (entry_isbn the_alchemist)) w_seeded w_removed []
           eq_refl R).
Defined.

Lemma failed_call_changes_nothing_witness :
  catalog_wf (_books w_seeded)
  /\ CallBorrow unknown (lit "Bob") <> CallRestart
  /\ exists w',
       call cfg_on (CallBorrow unknown (lit "Bob")) w_seeded
       = (inl (not_found unknown), w')
       /\ _books w' = _books w_seeded
       /\ file w' = file w_seeded.
Proof.
  assert (N : CallBorrow unknown (lit "Bob") <> CallRestart)
    by discriminate.
  assert (R : call cfg_on (CallBorrow unknown (lit "Bob")) w_seeded
              = (inl (not_found unknown), w_seeded)).
  { cbn [call]. run. rewrite seeded_unknown. reflexivity. }
  split; [exact seeded_wf|]. split; [exact N|].
  exists w_seeded. split; [exact R|].
  exact (failed_call_changes_nothing cfg_on (CallBorrow unknown (lit "Bob"))
           w_seeded w_seeded (not_found unknown) seeded_wf N R).
Defined.

Lemma borrow_then_return_restores_witness :
  tidy (normalize_isbn alchemist) (held alchemist w_seeded)
  /\ borrower (held alchemist w_seeded) = None
  /\ borrowed_at (held alchemist w_seeded) = None
  /\ exists b1 w1 w2,
       borrow_book cfg_on alchemist (lit "Alice") w_seeded = (inr b1, w1)
       /\ return_book cfg_on alchemist w1
          = (inr (held alchemist w_seeded), w2)
       /\ _books w2 = _books w_seeded.
Proof.
  assert (T : tidy (normalize_isbn alchemist) (held alchemist w_seeded))
    by (split; vm_compute; reflexivity).
  assert (B : borrower (held alchemist w_seeded) = None)
    by (vm_compute; reflexivity).
  assert (A : borrowed_at (held alchemist w_seeded) = None)
    by (apply none_by_check; vm_compute; reflexivity).
  split; [exact T|]. split; [exact B|]. split; [exact A|].
  destruct (borrow_then_return_restores cfg_on w_seeded alchemist
              (lit "Alice") (held alchemist w_seeded)
              seeded_alchemist T B A)
    as (b1 & w1 & w2 & R1 & _ & R2 & E & _).
  exists b1, w1, w2. repeat split; assumption.
Defined.

Lemma initialize_defaults_adds_missing_witness :
  keyed_by_isbn (_books w_empty)
  /\ exists w',
       _initialize_defaults cfg_on w_empty = (inr tt, w')
       /\ PyDict.mem (normalize_isbn alchemist) (_books w') = true
       /\ List.length (_books w') = 5.
Proof.
  assert (K : keyed_by_isbn (_books w_empty)) by constructor.
  split; [exact K|].
  destruct (initialize_defaults_adds_missing cfg_on w_empty K)
    as (w' & R & B & _ & _ & _ & _ & S).
  exists w'. split; [exact R|]. split.
  - exact (S the_alchemist (or_introl eq_refl)).
  - rewrite B. reflexivity.
Defined.

Lemma restart_reproduces_catalog_witness :
  autosave cfg_on = true
  /\ boot cfg_on [] 0 = (inr tt, w_seeded)
  /\ boot cfg_on (file w_seeded) 7
     = (inr tt, {| _books := _books w_seeded; file := file w_seeded;
                   ticks := 7 |}).
Proof.
  split; [reflexivity|]. split; [exact boot_seeded|].
  exact (restart_reproduces_catalog cfg_on [] 0 7 w_seeded eq_refl
           boot_seeded).
Defined.

Lemma main_exit_codes_witness :
  catalog_wf (_books w_seeded)
  /\ exists out w',
       main cfg_on (CmdBorrow unknown (lit "Bob")) w_seeded = (Some out, w')
       /\ exit_code out = 4.
Proof.
  split; [exact seeded_wf|].
  assert (N : CmdBorrow unknown (lit "Bob") <> CmdList false)
    by discriminate.
  destruct (proj2 (main_exit_codes cfg_on (CmdBorrow unknown (lit "Bob"))
                                   w_seeded seeded_wf) (or_introl N))
    as (out & w' & R & E & _).
  exists out, w'. split; [exact R|]. rewrite E.
  rewrite seeded_unknown. reflexivity.
Defined.

Lemma catalog_snapshot_is_stored_payload_witness :
  exists rows,
    catalog_snapshot w_seeded = (inr rows, w_seeded)
    /\ load_books rows = inr (PyDict.values (_books w_seeded)).
Proof.
  destruct (catalog_snapshot_is_stored_payload w_seeded)
    as (rows & E & _ & _ & L).
  exists rows. split; assumption.
Defined.

Lemma borrowed_book_not_listed_witness :
  stable_isbn alchemist
  /\ is_available (held alchemist w_seeded) = true
  /\ exists b1 w1 listed,
       find_available w_seeded = (inr listed, w_seeded)
       /\ borrow_book cfg_on alchemist (lit "Alice") w_seeded = (inr b1, w1)
       /\ find_available w1
          = (inr (List.filter
                    (fun x => negb (PyStr.eqb (isbn x)
                                              (normalize_isbn alchemist)))
                    listed), w1).
Proof.
  destruct (boot_keyed cfg_on [] 0 w_seeded boot_seeded) as [K N].
  assert (S : stable_isbn alchemist)
    by (unfold stable_isbn; vm_compute; reflexivity).
  assert (A : is_available (held alchemist w_seeded) = true)
    by (vm_compute; reflexivity).
  split; [exact S|]. split; [exact A|].
  destruct (borrowed_book_not_listed cfg_on w_seeded alchemist (lit "Alice")
              (held alchemist w_seeded) K N S seeded_alchemist A)
    as (b1 & w1 & listed & F & _ & R & F1 & _).
  exists b1, w1, listed. repeat split; assumption.
Defined.

Lemma seeded_reachable : reachable cfg_on w_seeded.
Proof.
  apply (@reach_boot _ _ row_wf (fun _ => True) cfg_on [] 0);
    [constructor|exact boot_seeded].
Qed.

Lemma reloaded_reachable : reachable cfg_on w_reloaded.
Proof.
  apply (@reach_call _ _ row_wf (fun _ => True) cfg_on CallRestart w_imported
                     (fst (call cfg_on CallRestart w_imported))).
  - apply (@reach_call _ _ row_wf (fun _ => True) cfg_on
                       (CallImport [hacek_entry]) w_seeded
                       (fst (call cfg_on (CallImport [hacek_entry])
                                  w_seeded))).
    + exact seeded_reachable.
    + repeat constructor.
    + apply surjective_pairing.
  - exact I.
  - apply surjective_pairing.
Qed.

Lemma stuck_reachable : reachable cfg_on w_stuck.
Proof.
  apply (@reach_call _ _ row_wf (fun _ => True) cfg_on
                     (CallBorrow hacek (lit "Alice")) w_reloaded
                     (fst (call cfg_on (CallBorrow hacek (lit "Alice"))
                                w_reloaded))).
  - exact reloaded_reachable.
  - exact I.
  - apply surjective_pairing.
Qed.

(** C2, as stated, fails.  The seeded service imports an entry with
    the ISBN U+01F0 and a service is constructed again on the data
    file: the book is filed under its stored ISBN U+004A U+030C, which
    is the normalised form of U+01F0 and is not in normalised form.
    The book is present and available, and borrowing it raises
    [BookNotFoundError] from [update], after [checkout] has set the
    borrower. *)
Lemma borrow_book_present_not_found :
  reachable cfg_on w_reloaded
  /\ PyDict.mem (normalize_isbn hacek) (_books w_reloaded) = true
  /\ is_available (held hacek w_reloaded) = true
  /\ (exists msg w',
        borrow_book cfg_on hacek (lit "Alice") w_reloaded
        = (inl (BookNotFoundError msg), w')
        /\ borrower (held hacek w') = Some (lit "Alice"))
  /\ forall b' w',
       borrow_book cfg_on hacek (lit "Alice") w_reloaded <> (inr b', w').
Proof.
  assert (K : match fst (borrow_book cfg_on hacek (lit "Alice") w_reloaded)
              with
              | inl (BookNotFoundError _) => true
              | _ => false
              end = true) by (vm_compute; reflexivity).
  assert (B : borrower (held hacek
                          (snd (borrow_book cfg_on hacek (lit "Alice")
                                            w_reloaded)))
              = Some (lit "Alice")) by (vm_compute; reflexivity).
  split; [exact reloaded_reachable|].
  split; [vm_compute; reflexivity|]. split; [vm_compute; reflexivity|].
  destruct (borrow_book cfg_on hacek (lit "Alice") w_reloaded)
    as [[e|b] w']; cbn [fst snd] in K, B; [|discriminate K].
  destruct e as [msg| | | |]; try discriminate K.
  split; [exists msg, w'; split; [reflexivity|exact B]|].
  intros b' w'' H. discriminate H.
Qed.

(** C3, as stated, fails.  In the same state the normalised form of
    the ISBN U+01F0 is a key of the catalog, and registering a book
    with this ISBN succeeds: [add] normalises the ISBN once more and
    files the book under U+004A, a key that was not there. *)
Lemma register_present_isbn_accepted :
  reachable cfg_on w_reloaded
  /\ PyDict.mem (normalize_isbn hacek) (_books w_reloaded) = true
  /\ (exists b w',
        register_book cfg_on hacek (lit "Again") (lit "Nobody") w_reloaded
        = (inr b, w')
        /\ List.length (_books w') = S (List.length (_books w_reloaded))
        /\ PyDict.mem (lit "J") (_books w') = true)
  /\ forall msg w',
       register_book cfg_on hacek (lit "Again") (lit "Nobody") w_reloaded
       <> (inl (BookAlreadyExistsError msg), w').
Proof.
  assert (K : match fst (register_book cfg_on hacek (lit "Again")
                                       (lit "Nobody") w_reloaded) with
              | inr _ => true
              | inl _ => false
              end = true) by (vm_compute; reflexivity).
  assert (L : List.length
                (_books (snd (register_book cfg_on hacek (lit "Again")
                                            (lit "Nobody") w_reloaded)))
              = S (List.length (_books w_reloaded)))
    by (vm_compute; reflexivity).
  assert (J : PyDict.mem (lit "J")
                (_books (snd (register_book cfg_on hacek (lit "Again")
                                            (lit "Nobody") w_reloaded)))
              = true) by (vm_compute; reflexivity).
  split; [exact reloaded_reachable|].
  split; [vm_compute; reflexivity|].
  destruct (register_book cfg_on hacek (lit "Again") (lit "Nobody")
                          w_reloaded)
    as [[e|b] w']; cbn [fst snd] in K, L, J; [discriminate K|].
  split; [exists b, w'; split; [reflexivity|split; assumption]|].
  intros msg w'' H. discriminate H.
Qed.

(** C6, as stated, fails.  After the borrowing that failed, the book
    is present and has a borrower, and returning it raises
    [BookNotFoundError] from [update], after [checkin] has cleared the
    borrower. *)
Lemma return_book_present_not_found :
  reachable cfg_on w_stuck
  /\ PyDict.mem (normalize_isbn hacek) (_books w_stuck) = true
  /\ borrower (held hacek w_stuck) = Some (lit "Alice")
  /\ (exists msg w',
        return_book cfg_on hacek w_stuck = (inl (BookNotFoundError msg), w')
        /\ borrower (held hacek w') = None)
  /\ forall b' w', return_book cfg_on hacek w_stuck <> (inr b', w').
Proof.
  assert (K : match fst (return_book cfg_on hacek w_stuck) with
              | inl (BookNotFoundError _) => true
              | _ => false
              end = true) by (vm_compute; reflexivity).
  assert (B : borrower (held hacek (snd (return_book cfg_on hacek w_stuck)))
              = None) by (vm_compute; reflexivity).
  split; [exact stuck_reachable|].
  split; [vm_compute; reflexivity|]. split; [vm_compute; reflexivity|].
  destruct (return_book cfg_on hacek w_stuck)
    as [[e|b] w']; cbn [fst snd] in K, B; [|discriminate K].
  destruct e as [msg| | | |]; try discriminate K.
  split; [exists msg, w'; split; [reflexivity|exact B]|].
  intros b' w'' H. discriminate H.
Qed.

(** On a data file that holds an aware timestamp, the service is
    constructed, and tops the catalog up with books whose timestamp is
    naive; listing the catalog in order of addition then raises
    [TypeError], which leaves [main], while the list of the available
    books is printed. *)
Example list_raises_type_error :
  List.length (_books w_mixed) = 6
  /\ match fst mixed_list with inl TypeError => true | _ => false end = true
  /\ match fst mixed_table with inl TypeError => true | _ => false end = true
  /\ fst (mixed_main false) = None
  /\ option_map exit_code (fst (mixed_main true)) = Some 0.
Proof. vm_compute. repeat split. Qed.

(** Runs of [main] on the seeded catalog: an unknown ISBN, an ISBN
    that is there already, and the summary by author. *)
Example main_borrow_unknown :
  option_map exit_code
             (fst (main cfg_on (CmdBorrow unknown (lit "Bob")) w_seeded))
  = Some 4
  /\ option_map stderr
                (fst (main cfg_on (CmdBorrow unknown (lit "Bob")) w_seeded))
     = Some [lit "Book with ISBN 000-0 not found"]
  /\ option_map exit_code
                (fst (main cfg_on (CmdAdd alchemist (lit "T") (lit "A"))
                           w_seeded))
     = Some 2
  /\ option_map stdout (fst (main cfg_on CmdSummary w_seeded))
     = Some [lit "Paulo Coelho: 1 book(s)"; lit "Jane Austen: 1 book(s)";
             lit "Stieg Larsson: 1 book(s)"; lit "J.K. Rowling: 1 book(s)";
             lit "Harper Lee: 1 book(s)"].
Proof. vm_compute. repeat split. Qed.
End MoreRuns.
